(** * HttpToMqtt: a shallow embedding of the pick-by-light bridge

    The development follows the layout of the Python package:
    - [Types]       the pydantic data classes ([ShelfPosition], [Shelf],
                    [ESP32], [ACK], [DB]);
    - [DataManager] the JSON database with its two files;
    - [Mqtt]        [publish_with_ack] and the message callbacks;
    - [Api]         [color_string_to_byte_array] and the REST handlers.

    Python objects that are shared (a [Shelf] or an [ESP32] obtained from
    the database and mutated by the caller) are modelled as references:
    the position of the object in the list that owns it, together with
    the value read there.  Python [int] is [Z]; a [bytearray] is a list of
    [Z] in the range 0..255. *)

From Stdlib Require Import ZArith Ascii String List Bool Lia.
From stdpp Require Import base decidable option list strings.

Local Open Scope string_scope.
Local Open Scope list_scope.
Local Open Scope Z_scope.

(** ** Types/__init__.py *)

Module ShelfPosition.
Record t := mk { ShelfNumber : Z; PositionId : Z; LEDs : list Z }.
#[global] Instance eq_dec : EqDecision t.
Proof. solve_decision. Defined.
End ShelfPosition.

Module Shelf.
Record t := mk { ShelfNumber : Z; Mac_Address : string;
                 Positions : list ShelfPosition.t }.
#[global] Instance eq_dec : EqDecision t.
Proof. solve_decision. Defined.
End Shelf.

Module ShelfArray.
Record t := mk { Shelves : list Shelf.t }.
#[global] Instance eq_dec : EqDecision t.
Proof. solve_decision. Defined.
End ShelfArray.

Module ESP32.
Record t := mk { Mac_Address : string; isUsed : bool; isOnline : bool }.
#[global] Instance eq_dec : EqDecision t.
Proof. solve_decision. Defined.
End ESP32.

(** Attribute assignments [esp32.isUsed = b] and [esp32.isOnline = b]. *)
Definition with_isUsed (b : bool) (esp32 : ESP32.t) : ESP32.t :=
  ESP32.mk (ESP32.Mac_Address esp32) b (ESP32.isOnline esp32).

Definition with_isOnline (b : bool) (esp32 : ESP32.t) : ESP32.t :=
  ESP32.mk (ESP32.Mac_Address esp32) (ESP32.isUsed esp32) b.

Module ESP32Array.
Record t := mk { ESP32s : list ESP32.t }.
#[global] Instance eq_dec : EqDecision t.
Proof. solve_decision. Defined.
End ESP32Array.

Module ACK.
Record t := mk { Mac_Address : string; ACK_id : Z }.
#[global] Instance eq_dec : EqDecision t.
Proof. solve_decision. Defined.
End ACK.

Module DB.
Record t := mk { Shelves : ShelfArray.t; ESP32s : ESP32Array.t }.
#[global] Instance eq_dec : EqDecision t.
Proof. solve_decision. Defined.
End DB.

(** ** Python list primitives used by the package *)

(** [x in l] *)
Definition py_in `{EqDecision A} (x : A) (l : list A) : bool :=
  bool_decide (x ∈ l).

(** [l.remove(x)]: drops the first element equal to [x]; [None] stands
    for the [ValueError] raised when there is none. *)
Fixpoint py_remove `{EqDecision A} (x : A) (l : list A) : option (list A) :=
  match l with
  | [] => None
  | y :: l' => if decide (x = y) then Some l'
               else cons y <$> py_remove x l'
  end.

(** A [for] loop that returns at the first iteration producing a value. *)
Fixpoint first_some {A B} (f : A -> option B) (l : list A) : option B :=
  match l with
  | [] => None
  | x :: l' => match f x with Some y => Some y | None => first_some f l' end
  end.

(** [s.endswith(suffix)]: some tail of [s] is [suffix]. *)
Fixpoint endswith (s suffix : string) : bool :=
  String.eqb s suffix ||
  match s with
  | EmptyString => false
  | String _ s' => endswith s' suffix
  end.

(** [s.replace(old, new)] for a non-empty [old]: the occurrences of
    [old] are replaced from left to right; [skip] counts the characters
    of the occurrence just replaced that are still to be passed. *)
Fixpoint replace_from (skip : nat) (old new s : string) : string :=
  match s with
  | EmptyString => EmptyString
  | String c s' =>
      match skip with
      | S k => replace_from k old new s'
      | O =>
          if String.prefix old s
          then new +:+ replace_from (String.length old - 1) old new s'
          else String c (replace_from 0 old new s')
      end
  end.

Definition replace (old new s : string) : string := replace_from 0 old new s.

(** ** DataManager/__init__.py *)

Module DataManager.

(** The [DB] object held in memory and the content of the two files
    ([None]: the file does not exist).  A file holds the JSON dump of a
    whole [DB]; the text format is not modelled. *)
Record t := mk {
  db : DB.t;
  json_file : option DB.t;
  json_file_backup : option DB.t
}.

Definition shelves (dm : t) : list Shelf.t :=
  ShelfArray.Shelves (DB.Shelves (db dm)).

Definition esp32s (dm : t) : list ESP32.t :=
  ESP32Array.ESP32s (DB.ESP32s (db dm)).

Definition set_shelves (l : list Shelf.t) (dm : t) : t :=
  mk (DB.mk (ShelfArray.mk l) (DB.ESP32s (db dm)))
     (json_file dm) (json_file_backup dm).

Definition set_esp32s (l : list ESP32.t) (dm : t) : t :=
  mk (DB.mk (DB.Shelves (db dm)) (ESP32Array.mk l))
     (json_file dm) (json_file_backup dm).

(** [__save_data_to(path)] for the two paths. *)
Definition save_data (dm : t) : t :=
  mk (db dm) (Some (db dm)) (json_file_backup dm).

Definition save_backup_data (dm : t) : t :=
  mk (db dm) (json_file dm) (Some (db dm)).

Definition shelf_exists (dm : t) (shelf_number : Z) : bool :=
  existsb (fun shelf => bool_decide (shelf_number = Shelf.ShelfNumber shelf))
          (shelves dm).

Definition shelf_exists_by_mac_address (dm : t) (mac_address : string) : bool :=
  existsb (fun shelf => bool_decide (Shelf.Mac_Address shelf = mac_address))
          (shelves dm).

Definition mac_address_exists (dm : t) (mac_address : string) : bool :=
  existsb (fun esp32 => bool_decide (mac_address = ESP32.Mac_Address esp32))
          (esp32s dm).

Definition position_id_exists (dm : t) (shelf_number position_id : Z) : bool :=
  if negb (shelf_exists dm shelf_number) then false
  else
    existsb (fun shelf =>
               bool_decide (Shelf.ShelfNumber shelf = shelf_number) &&
               existsb (fun position =>
                          bool_decide (ShelfPosition.PositionId position = position_id))
                       (Shelf.Positions shelf))
            (shelves dm).

(** The object getters return a reference: the index of the first match
    in the owning list, with the value stored there. *)
Definition get_shelf_by_shelf_number (dm : t) (shelf_number : Z)
  : option (nat * Shelf.t) :=
  if negb (shelf_exists dm shelf_number) then None
  else list_find (fun shelf => Shelf.ShelfNumber shelf = shelf_number) (shelves dm).

Definition get_shelf_by_mac_address (dm : t) (mac_address : string)
  : option (nat * Shelf.t) :=
  if negb (shelf_exists_by_mac_address dm mac_address) then None
  else list_find (fun shelf => Shelf.Mac_Address shelf = mac_address) (shelves dm).

Definition get_mac_address_by_shelf_number (dm : t) (shelf_number : Z)
  : option string :=
  if negb (shelf_exists dm shelf_number) then None
  else (fun r => Shelf.Mac_Address (snd r)) <$>
       list_find (fun shelf => Shelf.ShelfNumber shelf = shelf_number) (shelves dm).

Definition get_positions_by_shelf_number (dm : t) (shelf_number : Z)
  : option (list ShelfPosition.t) :=
  if negb (shelf_exists dm shelf_number) then None
  else (fun r => Shelf.Positions (snd r)) <$>
       get_shelf_by_shelf_number dm shelf_number.

(** Reference to a position: shelf index, position index, value. *)
Definition get_position_by_shelf_number_and_position_id
    (dm : t) (shelf_number position_id : Z)
  : option (nat * nat * ShelfPosition.t) :=
  if negb (shelf_exists dm shelf_number) then None
  else
    match get_shelf_by_shelf_number dm shelf_number with
    | None => None
    | Some (i, shelf) =>
        match list_find (fun position =>
                           ShelfPosition.PositionId position = position_id)
                        (Shelf.Positions shelf) with
        | None => None
        | Some (j, position) => Some (i, j, position)
        end
    end.

Definition get_leds_by_shelf_number_and_position_id
    (dm : t) (shelf_number position_id : Z) : option (list Z) :=
  if negb (shelf_exists dm shelf_number) then None
  else if negb (position_id_exists dm shelf_number position_id) then None
  else
    let in_shelf shelf :=
      if bool_decide (Shelf.ShelfNumber shelf = shelf_number)
      then snd <$> list_find (fun position =>
                                ShelfPosition.PositionId position = position_id)
                             (Shelf.Positions shelf)
      else None in
    ShelfPosition.LEDs <$>
      first_some in_shelf (shelves dm).

Definition get_esp32_by_mac_address (dm : t) (mac_address : string)
  : option (nat * ESP32.t) :=
  if negb (mac_address_exists dm mac_address) then None
  else list_find (fun esp32 => ESP32.Mac_Address esp32 = mac_address) (esp32s dm).

(** The two nested [for] loops of [leds_exists]/[leds_exists_exclusive]:
    some given LED occurs in [position.LEDs]. *)
Definition shares_led (leds : list Z) (position : ShelfPosition.t) : bool :=
  existsb (fun led => py_in led (ShelfPosition.LEDs position)) leds.

Definition leds_exists (dm : t) (leds : list Z) (shelf_number : Z) : bool :=
  if negb (shelf_exists dm shelf_number) then false
  else
    match get_positions_by_shelf_number dm shelf_number with
    | None | Some [] => false
    | Some positions => existsb (shares_led leds) positions
    end.

Definition leds_exists_exclusive (dm : t) (shelf_position : ShelfPosition.t) : bool :=
  if negb (shelf_exists dm (ShelfPosition.ShelfNumber shelf_position)) then false
  else if negb (position_id_exists dm (ShelfPosition.ShelfNumber shelf_position)
                                      (ShelfPosition.PositionId shelf_position))
  then false
  else
    match get_positions_by_shelf_number dm (ShelfPosition.ShelfNumber shelf_position) with
    | None | Some [] => false
    | Some positions =>
        existsb (fun position =>
                   if bool_decide (ShelfPosition.PositionId position =
                                   ShelfPosition.PositionId shelf_position)
                   then false
                   else shares_led (ShelfPosition.LEDs shelf_position) position)
                positions
    end.

(** Assignment to an attribute of the ESP32 object behind reference [i]
    (no file is written). *)
Definition assign_esp32 (i : nat) (f : ESP32.t -> ESP32.t) (dm : t) : t :=
  set_esp32s (alter f i (esp32s dm)) dm.

Definition add_shelf (shelf : Shelf.t) (dm : t) : bool * t :=
  if shelf_exists dm (Shelf.ShelfNumber shelf) then (false, dm)
  else
    match get_esp32_by_mac_address dm (Shelf.Mac_Address shelf) with
    | None => (false, dm)
    | Some (i, esp32) =>
        if ESP32.isUsed esp32 then (false, dm)
        else
          let dm1 := assign_esp32 i (with_isUsed true) dm in
          let dm2 := set_shelves (shelves dm1 ++ [shelf]) dm1 in
          (true, save_data dm2)
    end.

Definition delete_shelf_by_shelf_number (shelf_number : Z) (dm : t) : bool * t :=
  match get_shelf_by_shelf_number dm shelf_number with
  | None => (false, dm)
  | Some (_, shelf) =>
      match get_mac_address_by_shelf_number dm shelf_number with
      | None => (false, dm)
      | Some mac_address =>
          match get_esp32_by_mac_address dm mac_address with
          | None => (false, dm)
          | Some (i, _) =>
              match py_remove shelf (shelves dm) with
              | None => (false, dm)
              | Some rest =>
                  let dm1 := set_shelves rest dm in
                  let dm2 := assign_esp32 i (with_isUsed false) dm1 in
                  (true, save_data dm2)
              end
          end
      end
  end.

(** [shelf] is a reference to a shelf of the database, as in every call
    of the package ([Api.create_position], [Mqtt.config_put]); a reference
    to nothing plays the part of [None]. *)
Definition add_position (shelf : nat) (shelf_position : ShelfPosition.t) (dm : t)
  : bool * t :=
  match shelves dm !! shelf with
  | None => (false, dm)
  | Some sh =>
      if negb (shelf_exists dm (Shelf.ShelfNumber sh)) then (false, dm)
      else if position_id_exists dm (Shelf.ShelfNumber sh)
                                 (ShelfPosition.PositionId shelf_position)
      then (false, dm)
      else if (ShelfPosition.PositionId shelf_position >? 255) ||
              (ShelfPosition.PositionId shelf_position <? 0)
      then (false, dm)
      else if bool_decide (ShelfPosition.LEDs shelf_position = [])
      then (false, dm)
      else if leds_exists dm (ShelfPosition.LEDs shelf_position)
                             (ShelfPosition.ShelfNumber shelf_position)
      then (false, dm)
      else
        let stored :=
          ShelfPosition.mk (Shelf.ShelfNumber sh)
                           (ShelfPosition.PositionId shelf_position)
                           (ShelfPosition.LEDs shelf_position) in
        let sh' := Shelf.mk (Shelf.ShelfNumber sh) (Shelf.Mac_Address sh)
                            (Shelf.Positions sh ++ [stored]) in
        (true, save_data (set_shelves (<[shelf := sh']> (shelves dm)) dm))
  end.

(** [None]: the [AttributeError] raised when
    [get_position_by_shelf_number_and_position_id] returns [None] and the
    method assigns to its attributes. *)
Definition update_position (shelf : nat) (shelf_position : ShelfPosition.t) (dm : t)
  : option (bool * t) :=
  match shelves dm !! shelf with
  | None => Some (false, dm)
  | Some sh =>
      if negb (shelf_exists dm (Shelf.ShelfNumber sh)) then Some (false, dm)
      else if negb (position_id_exists dm (Shelf.ShelfNumber sh)
                                       (ShelfPosition.PositionId shelf_position))
      then Some (false, dm)
      else if bool_decide (ShelfPosition.LEDs shelf_position = [])
      then Some (false, dm)
      else if leds_exists_exclusive dm shelf_position then Some (false, dm)
      else
        match get_position_by_shelf_number_and_position_id
                dm (Shelf.ShelfNumber sh) (ShelfPosition.PositionId shelf_position) with
        | None => None
        | Some (i, j, position_to_be_updated) =>
            let updated :=
              ShelfPosition.mk (Shelf.ShelfNumber sh)
                               (ShelfPosition.PositionId position_to_be_updated)
                               (ShelfPosition.LEDs shelf_position) in
            let upd owner :=
              Shelf.mk (Shelf.ShelfNumber owner) (Shelf.Mac_Address owner)
                       (<[j := updated]> (Shelf.Positions owner)) in
            Some (true, save_data (set_shelves (alter upd i (shelves dm)) dm))
        end
  end.

Definition delete_position (shelf : nat) (shelf_position : ShelfPosition.t) (dm : t)
  : bool * t :=
  match shelves dm !! shelf with
  | None => (false, dm)
  | Some sh =>
      if negb (shelf_exists dm (Shelf.ShelfNumber sh)) then (false, dm)
      else if negb (position_id_exists dm (Shelf.ShelfNumber sh)
                                       (ShelfPosition.PositionId shelf_position))
      then (false, dm)
      else
        match py_remove shelf_position (Shelf.Positions sh) with
        | None => (false, dm)
        | Some rest =>
            let sh' := Shelf.mk (Shelf.ShelfNumber sh) (Shelf.Mac_Address sh) rest in
            (true, save_data (set_shelves (<[shelf := sh']> (shelves dm)) dm))
        end
  end.

Definition add_esp32 (esp32 : ESP32.t) (dm : t) : bool * t :=
  if mac_address_exists dm (ESP32.Mac_Address esp32) then (false, dm)
  else (true, save_data (set_esp32s (esp32s dm ++ [esp32]) dm)).

Definition set_all_esp32s_offline (dm : t) : t :=
  match esp32s dm with
  | [] => dm
  | l => set_esp32s (with_isOnline false <$> l) dm
  end.

(** [__init__] for a path ending in [.json]: [stored] and [backup] are
    the two files found on disk. *)
Definition init (stored backup : option DB.t) : t :=
  match stored with
  | Some d =>
      save_backup_data (save_data (set_all_esp32s_offline (mk d stored backup)))
  | None =>
      save_backup_data
        (save_data (mk (DB.mk (ShelfArray.mk []) (ESP32Array.mk [])) stored backup))
  end.

(** [__path_to_json_file_backup], computed by [__init__] from the parts
    of [path_to_json_file]: [parts[:-1]] and the name with [.json]
    replaced.  [None]: the exception raised for a name that does not
    end in [.json]. *)
Definition backup_path (parts : list string) : option (list string) :=
  match last parts with
  | Some name =>
      if endswith name ".json"
      then Some (removelast parts ++ [replace ".json" "_backup.json" name])
      else None
  | None => None
  end.

End DataManager.

(** ** Outcomes of calls that may raise *)

Inductive exn :=
| WrongQueue      (* Exception("Didn't choose the right queue ...") *)
| ValueError
| IndexError
| AttributeError.

(** [Unfinished]: the supplied inputs (random draws, clock readings) end
    while a loop of the call is still running. *)
Inductive outcome (A : Type) :=
| Returned (a : A)
| Raised (e : exn)
| Unfinished.
Arguments Returned {A} a.
Arguments Raised {A} e.
Arguments Unfinished {A}.

#[global] Instance exn_eq_dec : EqDecision exn.
Proof. solve_decision. Defined.

#[global] Instance outcome_eq_dec `{EqDecision A} : EqDecision (outcome A).
Proof. solve_decision. Defined.

(** Sequencing of calls on a shared state; an exception or an unfinished
    loop ends the caller as well. *)
Definition and_then {A B S} (m : outcome A * S)
    (k : A -> S -> outcome B * S) : outcome B * S :=
  match m with
  | (Returned a, s) => k a s
  | (Raised e, s) => (Raised e, s)
  | (Unfinished, s) => (Unfinished, s)
  end.

(** [bytearray(list_of_int)]: [ValueError] unless every element is in
    [range(256)]. *)
Definition bytearray (l : list Z) : option (list Z) :=
  if forallb (fun b => (0 <=? b) && (b <? 256)) l then Some l else None.

(** [s.split(sep)] for a one-character separator. *)
Fixpoint split (sep : ascii) (s : string) : list string :=
  match s with
  | EmptyString => [EmptyString]
  | String c s' =>
      if Ascii.eqb c sep then EmptyString :: split sep s'
      else match split sep s' with
           | h :: t => String c h :: t
           | [] => [String c EmptyString]
           end
  end.

(** ** Mqtt/__init__.py *)

Module Mqtt.

Record Message := mkMessage { topic : string; payload : list Z }.

#[global] Instance Message_eq_dec : EqDecision Message.
Proof. solve_decision. Defined.

(** [client] records the messages handed to [self.client.publish],
    oldest first. *)
Record t := mk {
  data_manager : DataManager.t;
  config_ack_queue : list ACK.t;
  light_ack_queue : list ACK.t;
  client : list Message
}.

(** The local variable [queue] of [publish_with_ack] and the parameter
    [queue] of [receive_ack] alias one of the two lists of the object. *)
Inductive queue_ref := light_ack_queue_ref | config_ack_queue_ref.

#[global] Instance queue_ref_eq_dec : EqDecision queue_ref.
Proof. solve_decision. Defined.

Definition queue_of (q : queue_ref) (m : t) : list ACK.t :=
  match q with
  | light_ack_queue_ref => light_ack_queue m
  | config_ack_queue_ref => config_ack_queue m
  end.

Definition set_queue (q : queue_ref) (l : list ACK.t) (m : t) : t :=
  match q with
  | light_ack_queue_ref => mk (data_manager m) (config_ack_queue m) l (client m)
  | config_ack_queue_ref => mk (data_manager m) l (light_ack_queue m) (client m)
  end.

Definition set_data_manager (dm : DataManager.t) (m : t) : t :=
  mk dm (config_ack_queue m) (light_ack_queue m) (client m).

Definition publish (topic : string) (payload : list Z) (m : t) : t :=
  mk (data_manager m) (config_ack_queue m) (light_ack_queue m)
     (client m ++ [mkMessage topic payload]).

(** "choosing right queue" *)
Definition choose_queue (select_queue : string) : option queue_ref :=
  let queue := None in
  let queue := if decide (select_queue = "light_ack")
               then Some light_ack_queue_ref else queue in
  let queue := if decide (select_queue = "config_ack")
               then Some config_ack_queue_ref else queue in
  queue.

(** [receive_ack(msg, queue)]; an [IndexError] (topic without a second
    segment, empty payload) leaves the queue as it is. *)
Definition receive_ack (msg : Message) (q : queue_ref) (m : t) : t :=
  match split "/" (topic msg) !! 1%nat, payload msg with
  | Some mac_address, ack_id :: _ =>
      set_queue q (queue_of q m ++ [ACK.mk mac_address ack_id]) m
  | _, _ => m
  end.

(** The two callbacks registered for [pbl/+/light/ack] and
    [pbl/+/config/ack]. *)
Inductive ack_callback :=
| receive_light_ack (msg : Message)
| receive_config_ack (msg : Message).

Definition run_callback (c : ack_callback) (m : t) : t :=
  match c with
  | receive_light_ack msg => receive_ack msg light_ack_queue_ref m
  | receive_config_ack msg => receive_ack msg config_ack_queue_ref m
  end.

Definition run_callbacks (cs : list ack_callback) (m : t) : t :=
  foldl (fun m c => run_callback c m) m cs.

(** What the caller's thread meets from outside during one call:
    - [randint]: the successive results of [random.randint(0, 255)];
    - [time]: the reading of [time.time()] stored in [timestamp];
    - [polls]: one entry per iteration of the waiting loop: the ACK
      callbacks the network thread has run since the previous test of the
      loop condition, and the reading of [time.time()] in the timeout
      test of that iteration.
    Registrations, offline notices and dump messages that the network
    thread handles meanwhile are operations of their own, not part of the
    call.

    The call is followed on its own: no other call of
    [publish_with_ack] runs between its first and its last statement, so
    nothing but the callbacks of [polls] touches the queues while it
    waits, and the ACK found by the test of the waiting loop is still
    there for [queue.remove].  Calls that overlap share the queues; they
    are followed statement by statement in [Threads], where a second
    caller can take the ACK between the test and the [remove] of the
    first. *)
Record poll := mkPoll { arrived : list ack_callback; now : Z }.
Record env := mkEnv { randint : list Z; time : Z; polls : list poll }.

(** "repeat until we have an outgoing_ack that is unique at the time of
    sending": the draw before the loop and the redraws in it.  Returns the
    chosen ACK and the unused draws. *)
Fixpoint draw_outgoing_ack (mac_address : string) (queue : list ACK.t)
    (draws : list Z) : option (ACK.t * list Z) :=
  match draws with
  | [] => None
  | random_ack_id :: rest =>
      let outgoing_ack := ACK.mk mac_address random_ack_id in
      if py_in outgoing_ack queue
      then draw_outgoing_ack mac_address queue rest
      else Some (outgoing_ack, rest)
  end.

(** "waiting until received outgoing_ack" *)
Fixpoint wait_for_ack (q : queue_ref) (outgoing_ack : ACK.t)
    (timeout timestamp : Z) (ps : list poll) (m : t) : outcome Z * t :=
  match ps with
  | [] => (Unfinished, m)
  | p :: ps' =>
      let m := run_callbacks (arrived p) m in
      if negb (py_in outgoing_ack (queue_of q m)) then
        if now p - timestamp >? timeout then (Returned 504, m)
        else wait_for_ack q outgoing_ack timeout timestamp ps' m
      else
        match py_remove outgoing_ack (queue_of q m) with
        | None => (Raised ValueError, m)
        | Some rest => (Returned 200, set_queue q rest m)
        end
  end.

Definition publish_with_ack (timeout : Z) (mac_address select_queue topic : string)
    (payload : list Z) (e : env) (m : t) : outcome Z * t :=
  match choose_queue select_queue with
  | None => (Raised WrongQueue, m)
  | Some q =>
      match draw_outgoing_ack mac_address (queue_of q m) (randint e) with
      | None => (Unfinished, m)
      | Some (outgoing_ack, _) =>
          match bytearray [ACK.ACK_id outgoing_ack] with
          | None => (Raised ValueError, m)
          | Some payload_with_ack_id =>
              let m := publish topic (payload_with_ack_id ++ payload) m in
              wait_for_ack q outgoing_ack timeout (time e) (polls e) m
          end
      end
  end.

(** [receive_register]; [incoming_mac_address] is the text taken from
    [str(msg.payload)]. *)
Definition receive_register (incoming_mac_address : string) (m : t) : t :=
  let dm := data_manager m in
  if DataManager.mac_address_exists dm incoming_mac_address then
    match DataManager.get_esp32_by_mac_address dm incoming_mac_address with
    | None => m
    | Some (i, _) =>
        set_data_manager
          (DataManager.save_data (DataManager.assign_esp32 i (with_isOnline true) dm)) m
    end
  else
    let esp32 := ESP32.mk incoming_mac_address false true in
    set_data_manager (snd (DataManager.add_esp32 esp32 dm)) m.

Definition config_offline (msg : Message) (m : t) : t :=
  let dm := data_manager m in
  match split "/" (topic msg) !! 1%nat with
  | None => m
  | Some mac_address =>
      if DataManager.mac_address_exists dm mac_address then
        match DataManager.get_esp32_by_mac_address dm mac_address with
        | None => m
        | Some (i, _) =>
            set_data_manager
              (DataManager.save_data
                 (DataManager.assign_esp32 i (with_isOnline false) dm)) m
        end
      else m
  end.

Definition config_put (msg : Message) (m : t) : t :=
  let dm := data_manager m in
  match split "/" (topic msg) !! 1%nat with
  | None => m
  | Some mac_address =>
      match DataManager.get_shelf_by_mac_address dm mac_address with
      | None => m
      | Some (shelf, sh) =>
          match payload msg with
          | [] => m
          | position_id :: leds =>
              if bool_decide (leds = []) then m
              else
                let shelf_position :=
                  ShelfPosition.mk (Shelf.ShelfNumber sh) position_id leds in
                set_data_manager
                  (snd (DataManager.add_position shelf shelf_position dm)) m
          end
      end
  end.

End Mqtt.

(** ** Api/__init__.py *)

Module Api.

Definition TIMEOUT : Z := 5.

(** *** color_string_to_byte_array *)

Definition in_range (lo hi c : ascii) : bool :=
  (nat_of_ascii lo <=? nat_of_ascii c)%nat && (nat_of_ascii c <=? nat_of_ascii hi)%nat.

(** The character class [[0-9a-fA-F]]. *)
Definition is_hex_digit (c : ascii) : bool :=
  in_range "0" "9" c || in_range "a" "f" c || in_range "A" "F" c.

(** [[0-9a-fA-F]{n}] matched at the start of [s]. *)
Fixpoint match_hex_digits (n : nat) (s : string) : bool :=
  match n with
  | O => true
  | S n' =>
      match s with
      | EmptyString => false
      | String c s' => is_hex_digit c && match_hex_digits n' s'
      end
  end.

(** [re.match("#[0-9a-fA-F]{6}", s) is not None]: the pattern is matched
    at the start of the string; nothing is required of what follows. *)
Definition re_match (s : string) : bool :=
  match s with
  | String "#" s' => match_hex_digits 6 s'
  | _ => false
  end.

Definition upper_char (c : ascii) : ascii :=
  if in_range "a" "z" c then ascii_of_nat (nat_of_ascii c - 32) else c.

Fixpoint upper (s : string) : string :=
  match s with
  | EmptyString => EmptyString
  | String c s' => String (upper_char c) (upper s')
  end.

Definition hex_value (c : ascii) : option Z :=
  if in_range "0" "9" c then Some (Z.of_nat (nat_of_ascii c) - 48)
  else if in_range "a" "f" c then Some (Z.of_nat (nat_of_ascii c) - 87)
  else if in_range "A" "F" c then Some (Z.of_nat (nat_of_ascii c) - 55)
  else None.

Definition is_space (c : ascii) : bool :=
  let n := nat_of_ascii c in
  (n =? 32)%nat || ((9 <=? n)%nat && (n <=? 13)%nat).

(** [bytearray.fromhex(s)]: two hex digits per byte, ASCII whitespace
    between bytes skipped; [None] stands for [ValueError]. *)
Fixpoint fromhex (s : string) : option (list Z) :=
  match s with
  | EmptyString => Some []
  | String c s' =>
      if is_space c then fromhex s'
      else
        match hex_value c, s' with
        | Some top, String d s'' =>
            match hex_value d with
            | Some bot => cons (16 * top + bot) <$> fromhex s''
            | None => None
            end
        | _, _ => None
        end
  end.

(** [s[1:]] *)
Definition tail (s : string) : string :=
  match s with
  | EmptyString => EmptyString
  | String _ s' => s'
  end.

(** [None] is Python's [None]; no path of the function raises. *)
Definition color_string_to_byte_array (color_as_string : string) : option (list Z) :=
  if re_match color_as_string then
    let res := upper (substring 0 7 color_as_string) in
    fromhex (tail res)
  else None.

(** *** The REST handlers

    A handler returns the status code it leaves in [response.status_code];
    the text of the reply is not modelled.  The [Api] object holds the
    [Mqtt] object and the [DataManager] that the [Mqtt] object holds too,
    so a handler runs on [Mqtt.t]. *)

Definition with_dm {A} (r : A * DataManager.t) (m : Mqtt.t) : A * Mqtt.t :=
  (fst r, Mqtt.set_data_manager (snd r) m).

Definition __validate_shelf (PositionId : Z) (shelf : option (nat * Shelf.t)) : Z :=
  match shelf with
  | None => 404
  | Some _ => if (PositionId >? 255) || (PositionId <? 0) then 400 else 200
  end.

(** Returns the status code and whether [ret_str] is non-empty. *)
Definition __publish_create_update_position (shelf_position : ShelfPosition.t)
    (mac_address : string) (create : bool) (e : Mqtt.env) (m : Mqtt.t)
  : outcome (Z * bool) * Mqtt.t :=
  let list_of_int :=
    ShelfPosition.PositionId shelf_position :: ShelfPosition.LEDs shelf_position in
  match bytearray list_of_int with
  | None => (Raised ValueError, m)
  | Some payload =>
      let topic :=
        if create then "pbl/" +:+ mac_address +:+ "/config/create_Position"
        else "pbl/" +:+ mac_address +:+ "/config/update_Position" in
      and_then (Mqtt.publish_with_ack TIMEOUT mac_address "config_ack" topic payload e m)
        (fun status_code m =>
           if status_code =? 504 then (Returned (504, true), m)
           else (Returned (status_code, false), m))
  end.

Definition create_position (shelf_position : ShelfPosition.t)
    (e : Mqtt.env) (m : Mqtt.t) : outcome Z * Mqtt.t :=
  let dm := Mqtt.data_manager m in
  let ShelfNumber := ShelfPosition.ShelfNumber shelf_position in
  let PositionId := ShelfPosition.PositionId shelf_position in
  match DataManager.get_mac_address_by_shelf_number dm ShelfNumber with
  | None => (Returned 404, m)
  | Some mac_address =>
      if DataManager.position_id_exists dm ShelfNumber PositionId
      then (Returned 406, m)
      else
        let shelf := DataManager.get_shelf_by_shelf_number dm ShelfNumber in
        if negb (__validate_shelf PositionId shelf =? 200)
        then (Returned (__validate_shelf PositionId shelf), m)
        else if DataManager.leds_exists dm (ShelfPosition.LEDs shelf_position) ShelfNumber
        then (Returned 406, m)
        else
          and_then (__publish_create_update_position shelf_position mac_address true e m)
            (fun r m =>
               let '(status_code, ret_str) := r in
               if ret_str then (Returned status_code, m)
               else if status_code =? 200 then
                 match shelf with
                 | None => (Raised AttributeError, m)
                 | Some (i, _) =>
                     let '(ok, m) :=
                       with_dm (DataManager.add_position i shelf_position
                                  (Mqtt.data_manager m)) m in
                     if ok then (Returned 200, m) else (Returned 406, m)
                 end
               else (Returned 500, m))
  end.

Definition create_shelf (shelf : Shelf.t) (m : Mqtt.t) : outcome Z * Mqtt.t :=
  let dm := Mqtt.data_manager m in
  if DataManager.shelf_exists dm (Shelf.ShelfNumber shelf) then (Returned 406, m)
  else if negb (DataManager.mac_address_exists dm (Shelf.Mac_Address shelf))
  then (Returned 404, m)
  else
    match DataManager.get_esp32_by_mac_address dm (Shelf.Mac_Address shelf) with
    | None => (Returned 404, m)
    | Some (_, esp32) =>
        if ESP32.isUsed esp32 then (Returned 406, m)
        else
          let '(ok, m) := with_dm (DataManager.add_shelf shelf dm) m in
          if ok then (Returned 200, m) else (Returned 500, m)
    end.

Definition update_position (shelf_position : ShelfPosition.t)
    (e : Mqtt.env) (m : Mqtt.t) : outcome Z * Mqtt.t :=
  let dm := Mqtt.data_manager m in
  let ShelfNumber := ShelfPosition.ShelfNumber shelf_position in
  let PositionId := ShelfPosition.PositionId shelf_position in
  match DataManager.get_mac_address_by_shelf_number dm ShelfNumber with
  | None => (Returned 404, m)
  | Some mac_address =>
      if negb (DataManager.position_id_exists dm ShelfNumber PositionId)
      then (Returned 406, m)
      else
        let shelf := DataManager.get_shelf_by_shelf_number dm ShelfNumber in
        if negb (__validate_shelf PositionId shelf =? 200)
        then (Returned (__validate_shelf PositionId shelf), m)
        else if DataManager.leds_exists_exclusive dm shelf_position
        then (Returned 406, m)
        else
          and_then (__publish_create_update_position shelf_position mac_address false e m)
            (fun r m =>
               let '(status_code, ret_str) := r in
               if ret_str then (Returned status_code, m)
               else if status_code =? 200 then
                 match shelf with
                 | None => (Raised AttributeError, m)
                 | Some (i, _) =>
                     match DataManager.update_position i shelf_position
                             (Mqtt.data_manager m) with
                     | None => (Raised AttributeError, m)
                     | Some r =>
                         let '(ok, m) := with_dm r m in
                         if ok then (Returned 200, m) else (Returned 406, m)
                     end
                 end
               else (Returned 500, m))
  end.

(** The request body is a [DeletePosition]: [ShelfNumber], [PositionId]. *)
Definition delete_position (ShelfNumber PositionId : Z)
    (e : Mqtt.env) (m : Mqtt.t) : outcome Z * Mqtt.t :=
  let dm := Mqtt.data_manager m in
  match DataManager.get_mac_address_by_shelf_number dm ShelfNumber with
  | None => (Returned 404, m)
  | Some mac_address =>
      if negb (DataManager.position_id_exists dm ShelfNumber PositionId)
      then (Returned 406, m)
      else
        match DataManager.get_shelf_by_shelf_number dm ShelfNumber with
        | None => (Returned 404, m)
        | Some (i, sh) =>
            (* __validate_shelf, with the shelf found *)
            if (PositionId >? 255) || (PositionId <? 0) then (Returned 400, m)
            else
              match DataManager.get_position_by_shelf_number_and_position_id
                      dm (Shelf.ShelfNumber sh) PositionId with
              | None => (Returned 404, m)
              | Some (_, _, shelf_position_to_be_deleted) =>
                  let list_of_int :=
                    [ShelfPosition.PositionId shelf_position_to_be_deleted] in
                  match bytearray list_of_int with
                  | None => (Raised ValueError, m)
                  | Some payload =>
                      and_then
                        (Mqtt.publish_with_ack TIMEOUT mac_address "config_ack"
                           ("pbl/" +:+ mac_address +:+ "/config/delete_Position")
                           payload e m)
                        (fun status_code m =>
                           if status_code =? 504 then (Returned 504, m)
                           else if status_code =? 200 then
                             let '(ok, m) :=
                               with_dm (DataManager.delete_position i
                                          shelf_position_to_be_deleted
                                          (Mqtt.data_manager m)) m in
                             if ok then (Returned 200, m) else (Returned 406, m)
                           else (Returned 500, m))
                  end
              end
        end
  end.

(** The request body is a [ShelfSelection]: [ShelfNumber]. *)
Definition delete_shelf (ShelfNumber : Z)
    (e : Mqtt.env) (m : Mqtt.t) : outcome Z * Mqtt.t :=
  let dm := Mqtt.data_manager m in
  match DataManager.get_shelf_by_shelf_number dm ShelfNumber with
  | None => (Returned 404, m)
  | Some (_, shelf) =>
      if negb (DataManager.shelf_exists dm ShelfNumber) then (Returned 404, m)
      else
        match bytearray [] with
        | None => (Raised ValueError, m)
        | Some payload =>
            and_then
              (Mqtt.publish_with_ack (TIMEOUT + 20) (Shelf.Mac_Address shelf) "config_ack"
                 ("pbl/" +:+ Shelf.Mac_Address shelf +:+ "/config/reset") payload e m)
              (fun status_code m =>
                 if status_code =? 504 then (Returned 504, m)
                 else if status_code =? 200 then
                   let '(ok, m) :=
                     with_dm (DataManager.delete_shelf_by_shelf_number
                                (Shelf.ShelfNumber shelf) (Mqtt.data_manager m)) m in
                   if ok then (Returned 200, m) else (Returned 406, m)
                 else (Returned 500, m))
        end
  end.

(** The part shared by the two branches of [get_esp32_config]: publish
    the [config/get] request; [None] when the handler goes on after the
    two [if] on the status code. *)
Definition publish_get (mac_address : string) (e : Mqtt.env) (m : Mqtt.t)
  : outcome (option Z) * Mqtt.t :=
  match bytearray [] with
  | None => (Raised ValueError, m)
  | Some payload =>
      and_then
        (Mqtt.publish_with_ack TIMEOUT mac_address "config_ack"
           ("pbl/" +:+ mac_address +:+ "/config/get") payload e m)
        (fun status_code m =>
           if status_code =? 504 then (Returned (Some 504), m)
           else if status_code =? 200 then (Returned (Some 200), m)
           else (Returned None, m))
  end.

(** [esp32.isUsed], read through the reference. *)
Definition esp32_isUsed (i : nat) (m : Mqtt.t) : bool :=
  match DataManager.esp32s (Mqtt.data_manager m) !! i with
  | Some esp32 => ESP32.isUsed esp32
  | None => false
  end.

(** [if esp32.isUsed: esp32.isUsed = False] and
    [if not esp32.isUsed: esp32.isUsed = True]: the handler assigns to
    the attribute of the object it got from the database. *)
Definition clear_isUsed (esp32 : nat) (m : Mqtt.t) : Mqtt.t :=
  if esp32_isUsed esp32 m
  then Mqtt.set_data_manager
         (DataManager.assign_esp32 esp32 (with_isUsed false) (Mqtt.data_manager m)) m
  else m.

Definition restore_isUsed (esp32 : nat) (m : Mqtt.t) : Mqtt.t :=
  if negb (esp32_isUsed esp32 m)
  then Mqtt.set_data_manager
         (DataManager.assign_esp32 esp32 (with_isUsed true) (Mqtt.data_manager m)) m
  else m.

(** The second [if] of [get_esp32_config] and what follows it; [esp32]
    is the reference obtained at the start of the handler. *)
Definition get_esp32_config_new_shelf (esp32 : nat) (mac_address : string)
    (shelf_number : Z) (e : Mqtt.env) (m : Mqtt.t) : outcome Z * Mqtt.t :=
  if negb (DataManager.shelf_exists (Mqtt.data_manager m) shelf_number) then
    let m := clear_isUsed esp32 m in
    let '(ok, m) :=
      with_dm (DataManager.add_shelf (Shelf.mk shelf_number mac_address [])
                 (Mqtt.data_manager m)) m in
    if ok then
      and_then (publish_get mac_address e m)
        (fun r m =>
           match r with
           | Some code => (Returned code, m)
           | None => (Returned 400, restore_isUsed esp32 m)
           end)
    else (Returned 400, restore_isUsed esp32 m)
  else (Returned 400, m).

Definition get_esp32_config (mac_address : string) (shelf_number : Z)
    (e : Mqtt.env) (m : Mqtt.t) : outcome Z * Mqtt.t :=
  let dm := Mqtt.data_manager m in
  if negb (DataManager.mac_address_exists dm mac_address) then (Returned 404, m)
  else
    match DataManager.get_esp32_by_mac_address dm mac_address with
    | None => (Raised AttributeError, m) (* not reached: the address exists *)
    | Some (esp32, _) =>
        if bool_decide (Some mac_address =
                        DataManager.get_mac_address_by_shelf_number dm shelf_number)
        then
          let '(deleted, m) :=
            with_dm (DataManager.delete_shelf_by_shelf_number shelf_number dm) m in
          if deleted then
            let '(ok, m) :=
              with_dm (DataManager.add_shelf (Shelf.mk shelf_number mac_address [])
                         (Mqtt.data_manager m)) m in
            if ok then
              and_then (publish_get mac_address e m)
                (fun r m =>
                   match r with
                   | Some code => (Returned code, m)
                   | None => (Returned 400, m)
                   end)
            else (Returned 400, m)
          else get_esp32_config_new_shelf esp32 mac_address shelf_number e m
        else get_esp32_config_new_shelf esp32 mac_address shelf_number e m
    end.

(** The four requests that change positions or remove a shelf. *)
Inductive request :=
| CreatePosition (shelf_position : ShelfPosition.t)
| UpdatePosition (shelf_position : ShelfPosition.t)
| DeletePosition (ShelfNumber PositionId : Z)
| DeleteShelf (ShelfNumber : Z).

Definition handle (r : request) (e : Mqtt.env) (m : Mqtt.t) : outcome Z * Mqtt.t :=
  match r with
  | CreatePosition shelf_position => create_position shelf_position e m
  | UpdatePosition shelf_position => update_position shelf_position e m
  | DeletePosition ShelfNumber PositionId => delete_position ShelfNumber PositionId e m
  | DeleteShelf ShelfNumber => delete_shelf ShelfNumber e m
  end.

(** *** The routes that publish and leave the database alone *)

(** The end of these routes:
    [if response.status_code == 504: return ...],
    [if response.status_code == 200: return ...],
    [response.status_code = 500]. *)
Definition status_or_500 (status_code : Z) : Z :=
  if status_code =? 504 then 504
  else if status_code =? 200 then 200
  else 500.

Definition __validate_turn_on_off_parameters (dm : DataManager.t)
    (ShelfNumber PositionId : Z) (mac_address : option string) : Z :=
  match mac_address with
  | None => 404
  | Some _ =>
      if (PositionId >? 255) || (PositionId <? 0) then 400
      else if negb (DataManager.position_id_exists dm ShelfNumber PositionId) then 404
      else 200
  end.

(** The request body is a [TurnOn]: [ShelfNumber], [PositionId], [Color].
    With [mac_address] equal to [None] the call of [publish_with_ack]
    would fail in [ACK(Mac_Address=None, ...)] (pydantic's
    [ValidationError], a [ValueError]); the validation has answered 404
    before. *)
Definition turn_on (ShelfNumber PositionId : Z) (Color : string)
    (e : Mqtt.env) (m : Mqtt.t) : outcome Z * Mqtt.t :=
  let dm := Mqtt.data_manager m in
  let mac_address := DataManager.get_mac_address_by_shelf_number dm ShelfNumber in
  let status_code :=
    __validate_turn_on_off_parameters dm ShelfNumber PositionId mac_address in
  if negb (status_code =? 200) then (Returned status_code, m)
  else
    match color_string_to_byte_array Color with
    | None => (Returned 400, m)
    | Some colors_byte_array =>
        match DataManager.get_leds_by_shelf_number_and_position_id
                dm ShelfNumber PositionId with
        | None => (Returned 404, m)
        | Some leds =>
            match bytearray leds, mac_address with
            | None, _ => (Raised ValueError, m)
            | Some _, None => (Raised ValueError, m)
            | Some leds_byte_array, Some mac_address =>
                and_then
                  (Mqtt.publish_with_ack TIMEOUT mac_address "light_ack"
                     ("pbl/" +:+ mac_address +:+ "/light/set")
                     (leds_byte_array ++ colors_byte_array) e m)
                  (fun status_code m => (Returned (status_or_500 status_code), m))
            end
        end
    end.

(** The request body is a [TurnOff]: [ShelfNumber], [PositionId]. *)
Definition turn_off (ShelfNumber PositionId : Z)
    (e : Mqtt.env) (m : Mqtt.t) : outcome Z * Mqtt.t :=
  let dm := Mqtt.data_manager m in
  let mac_address := DataManager.get_mac_address_by_shelf_number dm ShelfNumber in
  let status_code :=
    __validate_turn_on_off_parameters dm ShelfNumber PositionId mac_address in
  if negb (status_code =? 200) then (Returned status_code, m)
  else
    match DataManager.get_leds_by_shelf_number_and_position_id
            dm ShelfNumber PositionId with
    | None => (Returned 404, m)
    | Some leds =>
        match bytearray leds, mac_address with
        | None, _ => (Raised ValueError, m)
        | Some _, None => (Raised ValueError, m)
        | Some leds_byte_array, Some mac_address =>
            and_then
              (Mqtt.publish_with_ack TIMEOUT mac_address "light_ack"
                 ("pbl/" +:+ mac_address +:+ "/light/unset") leds_byte_array e m)
              (fun status_code m => (Returned (status_or_500 status_code), m))
        end
    end.

(** The request body is a [ShelfSelectionWithColor]: [ShelfNumber],
    [Color].  [colors_byte_array[0..2]] raise [IndexError] on an array
    of fewer than three bytes. *)
Definition turn_on_all (ShelfNumber : Z) (Color : string)
    (e : Mqtt.env) (m : Mqtt.t) : outcome Z * Mqtt.t :=
  let dm := Mqtt.data_manager m in
  match DataManager.get_mac_address_by_shelf_number dm ShelfNumber with
  | None => (Returned 404, m)
  | Some mac_address =>
      match color_string_to_byte_array Color with
      | None => (Returned 400, m)
      | Some (c0 :: c1 :: c2 :: _) =>
          match bytearray [c0; c1; c2] with
          | None => (Raised ValueError, m)
          | Some payload =>
              and_then
                (Mqtt.publish_with_ack TIMEOUT mac_address "light_ack"
                   ("pbl/" +:+ mac_address +:+ "/light/allOn") payload e m)
                (fun status_code m => (Returned (status_or_500 status_code), m))
          end
      | Some _ => (Raised IndexError, m)
      end
  end.

(** The request body is a [ShelfSelection]: [ShelfNumber]. *)
Definition turn_off_all (ShelfNumber : Z)
    (e : Mqtt.env) (m : Mqtt.t) : outcome Z * Mqtt.t :=
  let dm := Mqtt.data_manager m in
  match DataManager.get_mac_address_by_shelf_number dm ShelfNumber with
  | None => (Returned 404, m)
  | Some mac_address =>
      match bytearray [] with
      | None => (Raised ValueError, m)
      | Some payload =>
          and_then
            (Mqtt.publish_with_ack TIMEOUT mac_address "light_ack"
               ("pbl/" +:+ mac_address +:+ "/light/allOff") payload e m)
            (fun status_code m => (Returned (status_or_500 status_code), m))
      end
  end.

Definition __validate_set_unset_parameters (dm : DataManager.t)
    (Mac_Address : string) (LEDs : list Z) : Z :=
  if negb (DataManager.mac_address_exists dm Mac_Address) then 404
  else if existsb (fun led => (led >? 255) || (led <? 0)) LEDs then 400
  else 200.

(** The request body is a [SetLED]: [Mac_Address], [LEDs], [Color]. *)
Definition set_leds (Mac_Address : string) (LEDs : list Z) (Color : string)
    (e : Mqtt.env) (m : Mqtt.t) : outcome Z * Mqtt.t :=
  let dm := Mqtt.data_manager m in
  let status_code := __validate_set_unset_parameters dm Mac_Address LEDs in
  if negb (status_code =? 200) then (Returned status_code, m)
  else
    match color_string_to_byte_array Color with
    | None => (Returned 400, m)
    | Some colors_byte_array =>
        match bytearray LEDs with
        | None => (Raised ValueError, m)
        | Some leds_byte_array =>
            and_then
              (Mqtt.publish_with_ack TIMEOUT Mac_Address "light_ack"
                 ("pbl/" +:+ Mac_Address +:+ "/light/set")
                 (leds_byte_array ++ colors_byte_array) e m)
              (fun status_code m => (Returned (status_or_500 status_code), m))
        end
    end.

(** The request body is an [UnsetLED]: [Mac_Address], [LEDs]. *)
Definition unset_leds (Mac_Address : string) (LEDs : list Z)
    (e : Mqtt.env) (m : Mqtt.t) : outcome Z * Mqtt.t :=
  let dm := Mqtt.data_manager m in
  let status_code := __validate_set_unset_parameters dm Mac_Address LEDs in
  if negb (status_code =? 200) then (Returned status_code, m)
  else
    match bytearray LEDs with
    | None => (Raised ValueError, m)
    | Some leds_byte_array =>
        and_then
          (Mqtt.publish_with_ack TIMEOUT Mac_Address "light_ack"
             ("pbl/" +:+ Mac_Address +:+ "/light/unset") leds_byte_array e m)
          (fun status_code m => (Returned (status_or_500 status_code), m))
    end.

(** The request body is a [ResetESP32]: [Mac_Address]. *)
Definition reset_esp32 (Mac_Address : string)
    (e : Mqtt.env) (m : Mqtt.t) : outcome Z * Mqtt.t :=
  match bytearray [] with
  | None => (Raised ValueError, m)
  | Some payload =>
      and_then
        (Mqtt.publish_with_ack (TIMEOUT + 20) Mac_Address "config_ack"
           ("pbl/" +:+ Mac_Address +:+ "/config/reset") payload e m)
        (fun status_code m => (Returned (status_or_500 status_code), m))
  end.

Inductive command :=
| TurnOn (ShelfNumber PositionId : Z) (Color : string)
| TurnOff (ShelfNumber PositionId : Z)
| TurnOnAll (ShelfNumber : Z) (Color : string)
| TurnOffAll (ShelfNumber : Z)
| SetLEDs (Mac_Address : string) (LEDs : list Z) (Color : string)
| UnsetLEDs (Mac_Address : string) (LEDs : list Z)
| ResetESP32 (Mac_Address : string).

Definition handle_command (c : command) (e : Mqtt.env) (m : Mqtt.t)
  : outcome Z * Mqtt.t :=
  match c with
  | TurnOn ShelfNumber PositionId Color => turn_on ShelfNumber PositionId Color e m
  | TurnOff ShelfNumber PositionId => turn_off ShelfNumber PositionId e m
  | TurnOnAll ShelfNumber Color => turn_on_all ShelfNumber Color e m
  | TurnOffAll ShelfNumber => turn_off_all ShelfNumber e m
  | SetLEDs Mac_Address LEDs Color => set_leds Mac_Address LEDs Color e m
  | UnsetLEDs Mac_Address LEDs => unset_leds Mac_Address LEDs e m
  | ResetESP32 Mac_Address => reset_esp32 Mac_Address e m
  end.

(** *** load_esp32 *)

(** The [for position in positions] loop: [status_code] and
    [timeout_happened] are the two variables it updates; [es] gives the
    environment of each call of [publish_with_ack], in order. *)
Fixpoint load_positions (mac_address : string) (positions : list ShelfPosition.t)
    (es : list Mqtt.env) (status_code : Z) (timeout_happened : bool) (m : Mqtt.t)
  : outcome (Z * bool) * Mqtt.t :=
  match positions with
  | [] => (Returned (status_code, timeout_happened), m)
  | position :: positions' =>
      let list_of_int :=
        ShelfPosition.PositionId position :: ShelfPosition.LEDs position in
      match bytearray list_of_int with
      | None => (Raised ValueError, m)
      | Some payload =>
          match es with
          | [] => (Unfinished, m)
          | e :: es' =>
              and_then
                (Mqtt.publish_with_ack TIMEOUT mac_address "config_ack"
                   ("pbl/" +:+ mac_address +:+ "/config/update_Position") payload e m)
                (fun status_code m =>
                   load_positions mac_address positions' es' status_code
                     (if status_code =? 504 then true else timeout_happened) m)
          end
      end
  end.

(** Which of the texts of [load_esp32] is returned; the status code is
    what [response.status_code] holds at that point. *)
Inductive load_reply := Not_found | Timeout_warning | Loaded | Unexpected.

#[global] Instance load_reply_eq_dec : EqDecision load_reply.
Proof. solve_decision. Defined.

(** The request body is a [ShelfSelection]: [ShelfNumber].  The two
    look-ups read the same database and fail together, so the branch
    for a MAC address without positions (where the [for] loop would be
    handed [None]) is never taken: see [get_positions_of_found_shelf]. *)
Definition load_esp32 (ShelfNumber : Z) (es : list Mqtt.env) (m : Mqtt.t)
  : outcome (Z * load_reply) * Mqtt.t :=
  let dm := Mqtt.data_manager m in
  match DataManager.get_mac_address_by_shelf_number dm ShelfNumber with
  | None => (Returned (404, Not_found), m)
  | Some mac_address =>
      match DataManager.get_positions_by_shelf_number dm ShelfNumber with
      | None => (Raised AttributeError, m)
      | Some positions =>
          and_then (load_positions mac_address positions es 200 false m)
            (fun r m =>
               let '(status_code, timeout_happened) := r in
               if (status_code =? 504) || timeout_happened
               then (Returned (status_code, Timeout_warning), m)
               else if status_code =? 200 then (Returned (status_code, Loaded), m)
               else (Returned (500, Unexpected), m))
      end
  end.

(** *** The routes that read the database *)

(** [GET /light/getPositions/{shelf_number}]: the status code and the
    shelf whose JSON text is returned. *)
Definition get_positions (shelf_number : Z) (m : Mqtt.t) : outcome (Z * option Shelf.t) :=
  let dm := Mqtt.data_manager m in
  match DataManager.get_mac_address_by_shelf_number dm shelf_number with
  | None => Returned (404, None)
  | Some _ =>
      match DataManager.get_shelf_by_shelf_number dm shelf_number with
      | None => Raised AttributeError
      | Some (_, shelf) => Returned (200, Some shelf)
      end
  end.

(** [GET /light/getShelves]; [get_shelf_array] never returns [None]. *)
Definition get_shelves (m : Mqtt.t) : Z * list Shelf.t :=
  (200, DataManager.shelves (Mqtt.data_manager m)).

(** [GET /light/getMACAddresses] *)
Definition get_mac_addresses (m : Mqtt.t) : Z * list string :=
  let unused_mac_addresses :=
    ESP32.Mac_Address <$>
      filter (fun esp32 => ESP32.isUsed esp32 = false)
             (DataManager.esp32s (Mqtt.data_manager m)) in
  match unused_mac_addresses with
  | [] => (404, [])
  | _ => (200, unused_mac_addresses)
  end.

End Api.

(** ** Several callers of [publish_with_ack]

    The REST handlers run on worker threads while the MQTT client runs
    its callbacks on the network thread, and the two queues are shared.
    A caller is followed statement by statement; a schedule says which
    thread moves next, with the value the statement reads from outside
    (a random draw or a clock reading). *)

Module Threads.

Record call := mkCall {
  timeout : Z;
  mac_address : string;
  select_queue : string;
  topic : string;
  payload : list Z
}.

(** Where a caller stands in [publish_with_ack]. *)
Inductive pc :=
| at_choose_queue
| at_draw (q : Mqtt.queue_ref)
| at_unique_test (q : Mqtt.queue_ref) (outgoing_ack : ACK.t)
| at_publish (q : Mqtt.queue_ref) (outgoing_ack : ACK.t)
| at_timestamp (q : Mqtt.queue_ref) (outgoing_ack : ACK.t)
| at_wait_test (q : Mqtt.queue_ref) (outgoing_ack : ACK.t) (timestamp : Z)
| at_timeout_test (q : Mqtt.queue_ref) (outgoing_ack : ACK.t) (timestamp : Z)
| at_remove (q : Mqtt.queue_ref) (outgoing_ack : ACK.t)
| finished (r : outcome Z).

Record thread := mkThread { args : call; at_pc : pc }.

(** One statement of thread [th]; [input] is the value of
    [random.randint(0, 255)] or [time.time()] when the statement reads
    one. *)
Definition step (input : Z) (th : thread) (m : Mqtt.t) : thread * Mqtt.t :=
  let c := args th in
  match at_pc th with
  | at_choose_queue =>
      match Mqtt.choose_queue (select_queue c) with
      | None => (mkThread c (finished (Raised WrongQueue)), m)
      | Some q => (mkThread c (at_draw q), m)
      end
  | at_draw q =>
      (mkThread c (at_unique_test q (ACK.mk (mac_address c) input)), m)
  | at_unique_test q outgoing_ack =>
      if py_in outgoing_ack (Mqtt.queue_of q m)
      then (mkThread c (at_draw q), m)
      else (mkThread c (at_publish q outgoing_ack), m)
  | at_publish q outgoing_ack =>
      match bytearray [ACK.ACK_id outgoing_ack] with
      | None => (mkThread c (finished (Raised ValueError)), m)
      | Some payload_with_ack_id =>
          (mkThread c (at_timestamp q outgoing_ack),
           Mqtt.publish (topic c) (payload_with_ack_id ++ payload c) m)
      end
  | at_timestamp q outgoing_ack =>
      (mkThread c (at_wait_test q outgoing_ack input), m)
  | at_wait_test q outgoing_ack timestamp =>
      if negb (py_in outgoing_ack (Mqtt.queue_of q m))
      then (mkThread c (at_timeout_test q outgoing_ack timestamp), m)
      else (mkThread c (at_remove q outgoing_ack), m)
  | at_timeout_test q outgoing_ack timestamp =>
      if input - timestamp >? timeout c
      then (mkThread c (finished (Returned 504)), m)
      else (mkThread c (at_wait_test q outgoing_ack timestamp), m)
  | at_remove q outgoing_ack =>
      match py_remove outgoing_ack (Mqtt.queue_of q m) with
      | None => (mkThread c (finished (Raised ValueError)), m)
      | Some rest => (mkThread c (finished (Returned 200)), Mqtt.set_queue q rest m)
      end
  | finished r => (th, m)
  end.

Record system := mkSystem { shared : Mqtt.t; threads : list thread }.

Inductive action :=
| enter (c : call)                  (* a new caller enters publish_with_ack *)
| run (tid : nat) (input : Z)       (* thread [tid] executes one statement *)
| deliver (cb : Mqtt.ack_callback). (* the network thread runs a callback *)

Definition exec (s : system) (a : action) : system :=
  match a with
  | enter c => mkSystem (shared s) (threads s ++ [mkThread c at_choose_queue])
  | run tid input =>
      match threads s !! tid with
      | None => s
      | Some th =>
          let '(th', m') := step input th (shared s) in
          mkSystem m' (<[tid := th']> (threads s))
      end
  | deliver cb => mkSystem (Mqtt.run_callback cb (shared s)) (threads s)
  end.

Definition exec_all (s : system) (schedule : list action) : system :=
  foldl exec s schedule.

(** The exchange a thread has published and is still waiting for. *)
Definition outstanding (th : thread) : option (Mqtt.queue_ref * ACK.t) :=
  match at_pc th with
  | at_timestamp q a | at_wait_test q a _ | at_timeout_test q a _ => Some (q, a)
  | _ => None
  end.

(** Two different threads wait on the same queue for the same ACK. *)
Definition shared_correlation_id (s : system) : Prop :=
  exists i j thi thj x,
    i <> j /\ threads s !! i = Some thi /\ threads s !! j = Some thj /\
    outstanding thi = Some x /\ outstanding thj = Some x.

End Threads.

(** ** Properties stated over the model *)

(** The mutating operations of the [DataManager] on shelves and
    positions, as data. *)
Inductive mutation :=
| Do_add_shelf (shelf : Shelf.t)
| Do_delete_shelf_by_shelf_number (shelf_number : Z)
| Do_add_position (shelf : nat) (shelf_position : ShelfPosition.t)
| Do_update_position (shelf : nat) (shelf_position : ShelfPosition.t)
| Do_delete_position (shelf : nat) (shelf_position : ShelfPosition.t).

Definition apply (op : mutation) (dm : DataManager.t) : option (bool * DataManager.t) :=
  match op with
  | Do_add_shelf shelf => Some (DataManager.add_shelf shelf dm)
  | Do_delete_shelf_by_shelf_number n =>
      Some (DataManager.delete_shelf_by_shelf_number n dm)
  | Do_add_position shelf sp => Some (DataManager.add_position shelf sp dm)
  | Do_update_position shelf sp => DataManager.update_position shelf sp dm
  | Do_delete_position shelf sp => Some (DataManager.delete_position shelf sp dm)
  end.

(** The number of shelves that reference a MAC address. *)
Definition assigned_shelves (dm : DataManager.t) (mac_address : string) : nat :=
  length (filter (fun shelf => Shelf.Mac_Address shelf = mac_address)
                 (DataManager.shelves dm)).

(** At most one shelf references each registered ESP32. *)
Definition exclusive (dm : DataManager.t) : bool :=
  forallb (fun esp32 =>
             (assigned_shelves dm (ESP32.Mac_Address esp32) <=? 1)%nat)
          (DataManager.esp32s dm).

(** Every shelf references a registered ESP32. *)
Definition shelves_registered (dm : DataManager.t) : bool :=
  forallb (fun shelf => DataManager.mac_address_exists dm (Shelf.Mac_Address shelf))
          (DataManager.shelves dm).

(** The LED lists of the positions of a list are pairwise disjoint
    (pairs of different entries of the list). *)
Fixpoint leds_disjoint (positions : list ShelfPosition.t) : bool :=
  match positions with
  | [] => true
  | p :: rest =>
      forallb (fun p' => negb (DataManager.shares_led (ShelfPosition.LEDs p) p')) rest
      && leds_disjoint rest
  end.

Definition all_leds_disjoint (dm : DataManager.t) : bool :=
  forallb (fun shelf => leds_disjoint (Shelf.Positions shelf)) (DataManager.shelves dm).

(** The position ids of a shelf are pairwise different. *)
Definition position_ids (shelf : Shelf.t) : list Z :=
  ShelfPosition.PositionId <$> Shelf.Positions shelf.

(** What the checks of [add_position] and [update_position] maintain:
    shelf numbers pairwise different and, in every shelf, position ids
    pairwise different and LED lists pairwise disjoint. *)
Definition shelf_ok (shelf : Shelf.t) : Prop :=
  NoDup (position_ids shelf) /\ leds_disjoint (Shelf.Positions shelf) = true.

Definition positions_ok (dm : DataManager.t) : Prop :=
  NoDup (Shelf.ShelfNumber <$> DataManager.shelves dm) /\
  Forall shelf_ok (DataManager.shelves dm).

(** The [isUsed] flag of every ESP32, in the order of the database. *)
Definition used_flags (dm : DataManager.t) : list (string * bool) :=
  (fun esp32 => (ESP32.Mac_Address esp32, ESP32.isUsed esp32)) <$> DataManager.esp32s dm.

(** The assignment [esp32.isUsed = b] seen on [used_flags]. *)
Definition set_flag (b : bool) (p : string * bool) : string * bool := (fst p, b).

(** What [add_shelf] and [delete_shelf_by_shelf_number] maintain: MAC
    addresses of the ESP32s pairwise different, MAC addresses of the
    shelves pairwise different, and the ESP32 of every shelf registered
    with [isUsed] set. *)
Definition shelf_macs (dm : DataManager.t) : list string :=
  Shelf.Mac_Address <$> DataManager.shelves dm.

Definition assignment_ok (dm : DataManager.t) : Prop :=
  NoDup (fst <$> used_flags dm) /\
  NoDup (shelf_macs dm) /\
  forall mac, mac ∈ shelf_macs dm -> (mac, true) ∈ used_flags dm.

(** The ACK message a device publishes for a request it has carried out:
    its own address in the topic, the first byte of the request as
    payload (the format [receive_ack] reads). *)
Definition light_ack_for (mac_address : string) (request : Mqtt.Message) : Mqtt.Message :=
  Mqtt.mkMessage ("pbl/" +:+ mac_address +:+ "/light/ack")
                 (take 1 (Mqtt.payload request)).

(** All callbacks run during a sequence of polls. *)
Definition all_arrived (ps : list Mqtt.poll) : list Mqtt.ack_callback :=
  mjoin (Mqtt.arrived <$> ps).

(** A system with one caller, standing at [at]. *)
Definition solo (c : Threads.call) (at_ : Threads.pc) (m : Mqtt.t) : Threads.system :=
  Threads.mkSystem m [Threads.mkThread c at_].


(** The exchange a request leads to once it has passed the checks of its
    handler: the arguments of the handler's call of [publish_with_ack]
    (all on [config_ack]). *)
Record exchange := mkExchange {
  ex_timeout : Z; ex_mac_address : string; ex_topic : string; ex_payload : list Z
}.

Definition exchange_of (r : Api.request) (m : Mqtt.t) : option exchange :=
  let dm := Mqtt.data_manager m in
  match r with
  | Api.CreatePosition sp =>
      let n := ShelfPosition.ShelfNumber sp in
      let pid := ShelfPosition.PositionId sp in
      mac ← DataManager.get_mac_address_by_shelf_number dm n;
      if DataManager.position_id_exists dm n pid then None
      else if negb (Api.__validate_shelf pid (DataManager.get_shelf_by_shelf_number dm n) =? 200)
      then None
      else if DataManager.leds_exists dm (ShelfPosition.LEDs sp) n then None
      else
        payload ← bytearray (pid :: ShelfPosition.LEDs sp);
        Some (mkExchange Api.TIMEOUT mac
                ("pbl/" +:+ mac +:+ "/config/create_Position") payload)
  | Api.UpdatePosition sp =>
      let n := ShelfPosition.ShelfNumber sp in
      let pid := ShelfPosition.PositionId sp in
      mac ← DataManager.get_mac_address_by_shelf_number dm n;
      if negb (DataManager.position_id_exists dm n pid) then None
      else if negb (Api.__validate_shelf pid (DataManager.get_shelf_by_shelf_number dm n) =? 200)
      then None
      else if DataManager.leds_exists_exclusive dm sp then None
      else
        payload ← bytearray (pid :: ShelfPosition.LEDs sp);
        Some (mkExchange Api.TIMEOUT mac
                ("pbl/" +:+ mac +:+ "/config/update_Position") payload)
  | Api.DeletePosition n pid =>
      mac ← DataManager.get_mac_address_by_shelf_number dm n;
      if negb (DataManager.position_id_exists dm n pid) then None
      else if negb (Api.__validate_shelf pid (DataManager.get_shelf_by_shelf_number dm n) =? 200)
      then None
      else
        found ← DataManager.get_position_by_shelf_number_and_position_id dm n pid;
        payload ← bytearray [ShelfPosition.PositionId (snd found)];
        Some (mkExchange Api.TIMEOUT mac
                ("pbl/" +:+ mac +:+ "/config/delete_Position") payload)
  | Api.DeleteShelf n =>
      found ← DataManager.get_shelf_by_shelf_number dm n;
      Some (mkExchange (Api.TIMEOUT + 20) (Shelf.Mac_Address (snd found))
              ("pbl/" +:+ Shelf.Mac_Address (snd found) +:+ "/config/reset") [])
  end.

(** The operations of the running system, by origin: the MQTT callbacks
    and the REST routes that reach the [DataManager] or the queues.  The
    routes [turnOn], [turnOff], [turnOnAll], [turnOffAll], [setLEDs],
    [unsetLEDs], [resetESP32] and [loadESP32] only read the database and
    call [publish_with_ack]; they are [POST_publish]. *)
Inductive operation :=
| On_register (incoming_mac_address : string)
| On_offline (msg : Mqtt.Message)
| On_put (msg : Mqtt.Message)
| On_ack (cb : Mqtt.ack_callback)
| PUT_createShelf (shelf : Shelf.t)
| PUT_createPosition (shelf_position : ShelfPosition.t) (e : Mqtt.env)
| PUT_updatePosition (shelf_position : ShelfPosition.t) (e : Mqtt.env)
| DELETE_deletePosition (ShelfNumber PositionId : Z) (e : Mqtt.env)
| DELETE_deleteShelf (ShelfNumber : Z) (e : Mqtt.env)
| GET_getESP32 (mac_address : string) (shelf_number : Z) (e : Mqtt.env)
| POST_publish (timeout : Z) (mac_address select_queue topic : string)
               (payload : list Z) (e : Mqtt.env).

Definition perform (op : operation) (m : Mqtt.t) : Mqtt.t :=
  match op with
  | On_register mac => Mqtt.receive_register mac m
  | On_offline msg => Mqtt.config_offline msg m
  | On_put msg => Mqtt.config_put msg m
  | On_ack cb => Mqtt.run_callback cb m
  | PUT_createShelf shelf => snd (Api.create_shelf shelf m)
  | PUT_createPosition sp e => snd (Api.create_position sp e m)
  | PUT_updatePosition sp e => snd (Api.update_position sp e m)
  | DELETE_deletePosition n pid e => snd (Api.delete_position n pid e m)
  | DELETE_deleteShelf n e => snd (Api.delete_shelf n e m)
  | GET_getESP32 mac n e => snd (Api.get_esp32_config mac n e m)
  | POST_publish timeout mac select_queue topic payload e =>
      snd (Mqtt.publish_with_ack timeout mac select_queue topic payload e m)
  end.

Definition perform_all (ops : list operation) (m : Mqtt.t) : Mqtt.t :=
  foldl (fun m op => perform op m) m ops.

(** The primary file holds the database that is in memory. *)
Definition in_sync (dm : DataManager.t) : Prop :=
  DataManager.json_file dm = Some (DataManager.db dm).

(** Stopping the server and starting it on the files it has left. *)
Definition restart (dm : DataManager.t) : DataManager.t :=
  DataManager.init (DataManager.json_file dm) (DataManager.json_file_backup dm).

(** A value that [bytearray] accepts. *)
Definition is_byte (z : Z) : Prop := 0 <= z < 256.

(** Every stored position has an id and LEDs that fit a byte. *)
Definition position_bytes (position : ShelfPosition.t) : Prop :=
  is_byte (ShelfPosition.PositionId position) /\
  Forall is_byte (ShelfPosition.LEDs position).

Definition bytes_ok (dm : DataManager.t) : Prop :=
  Forall (fun shelf => Forall position_bytes (Shelf.Positions shelf))
         (DataManager.shelves dm).

(** What comes from outside is as its Python type has it: the payload
    of an MQTT message is [bytes]; a shelf sent to [createShelf] has no
    positions, as the route asks. *)
Definition well_formed (op : operation) : Prop :=
  match op with
  | On_put msg => Forall is_byte (Mqtt.payload msg)
  | PUT_createShelf shelf => Shelf.Positions shelf = []
  | _ => True
  end.

(** A MAC address that is one segment of a topic. *)
Fixpoint no_slash (s : string) : bool :=
  match s with
  | EmptyString => true
  | String c s' => negb (Ascii.eqb c "/") && no_slash s'
  end.

(** The callback the network thread runs when the device [mac_address]
    publishes [payload] on its ACK topic for queue [q]. *)
Definition device_ack (q : Mqtt.queue_ref) (mac_address : string) (payload : list Z)
  : Mqtt.ack_callback :=
  match q with
  | Mqtt.light_ack_queue_ref =>
      Mqtt.receive_light_ack
        (Mqtt.mkMessage ("pbl/" +:+ mac_address +:+ "/light/ack") payload)
  | Mqtt.config_ack_queue_ref =>
      Mqtt.receive_config_ack
        (Mqtt.mkMessage ("pbl/" +:+ mac_address +:+ "/config/ack") payload)
  end.

(** The state of the ESP32 registered under a MAC address. *)
Definition esp32_of (dm : DataManager.t) (mac_address : string) : option ESP32.t :=
  snd <$> DataManager.get_esp32_by_mac_address dm mac_address.



(** [GET /light/getESP32] asked for a shelf number that does not exist,
    on an ESP32 that is in use. *)
Definition takes_used_esp32 (op : operation) (m : Mqtt.t) : Prop :=
  exists mac n e i esp32,
    op = GET_getESP32 mac n e /\
    DataManager.get_esp32_by_mac_address (Mqtt.data_manager m) mac = Some (i, esp32) /\
    DataManager.shelf_exists (Mqtt.data_manager m) n = false /\
    ESP32.isUsed esp32 = true.

(** No operation of the sequence is such a request on the state it
    meets. *)
Fixpoint free_of_takeovers (ops : list operation) (m : Mqtt.t) : Prop :=
  match ops with
  | [] => True
  | op :: ops' => ~ takes_used_esp32 op m /\ free_of_takeovers ops' (perform op m)
  end.

(** ** States and inputs used in the examples *)

Definition fresh_mqtt : Mqtt.t :=
  Mqtt.mk (DataManager.init None None) [] [] [].

Definition mac1 : string := "AA:BB:CC:DD:EE:01".

(** The database after [mac1] has registered. *)
Definition registered : Mqtt.t := Mqtt.receive_register mac1 fresh_mqtt.

(** ... and after [PUT /light/createShelf] of shelf 7 on it. *)
Definition with_shelf7 : Mqtt.t :=
  snd (Api.create_shelf (Shelf.mk 7 mac1 []) registered).

(** An environment in which the device acknowledges with the id drawn
    ([7]) at the first poll, and one in which nothing arrives before the
    clock has passed the timeout. *)
Definition config_ack7 : Mqtt.ack_callback :=
  Mqtt.receive_config_ack (Mqtt.mkMessage ("pbl/" +:+ mac1 +:+ "/config/ack") [7]).

Definition acked : Mqtt.env := Mqtt.mkEnv [7] 100 [Mqtt.mkPoll [config_ack7] 101].

Definition silent : Mqtt.env := Mqtt.mkEnv [7] 100 [Mqtt.mkPoll [] 101; Mqtt.mkPoll [] 130].

(** Shelf 7 with position 3 on LEDs 10 and 20. *)
Definition position3 : ShelfPosition.t := ShelfPosition.mk 7 3 [10; 20].

Definition with_position3 : Mqtt.t :=
  snd (Api.create_position position3 acked with_shelf7).


(** A first exchange on [light/set] that times out, the late ACK of the
    device for it, and a second exchange on [light/unset] during which
    that ACK arrives. *)
Definition first_env : Mqtt.env := Mqtt.mkEnv [7] 100 [Mqtt.mkPoll [] 106].

Definition first_call : outcome Z * Mqtt.t :=
  Mqtt.publish_with_ack Api.TIMEOUT mac1 "light_ack"
    ("pbl/" +:+ mac1 +:+ "/light/set") [10; 20; 255; 0; 255] first_env with_position3.

Definition first_request : Mqtt.Message :=
  Mqtt.mkMessage ("pbl/" +:+ mac1 +:+ "/light/set") [7; 10; 20; 255; 0; 255].

Definition second_env : Mqtt.env :=
  Mqtt.mkEnv [7] 200
    [Mqtt.mkPoll [Mqtt.receive_light_ack (light_ack_for mac1 first_request)] 201].


Definition second_request : Mqtt.Message :=
  Mqtt.mkMessage ("pbl/" +:+ mac1 +:+ "/light/unset") [7; 10; 20].

(** A shelf sent to [PUT /light/createShelf] with two positions on the
    same LED. *)
Definition overlapping_shelf : Shelf.t :=
  Shelf.mk 7 mac1 [ShelfPosition.mk 7 1 [10]; ShelfPosition.mk 7 2 [10]].

(** Two callers of [publish_with_ack] for the same device and queue; both
    draw 7 before any ACK has arrived. *)
Definition caller_set : Threads.call :=
  Threads.mkCall Api.TIMEOUT mac1 "light_ack"
    ("pbl/" +:+ mac1 +:+ "/light/set") [10; 20; 255; 0; 255].

Definition caller_unset : Threads.call :=
  Threads.mkCall Api.TIMEOUT mac1 "light_ack"
    ("pbl/" +:+ mac1 +:+ "/light/unset") [10; 20].

Definition two_callers : list Threads.action :=
  [Threads.enter caller_set; Threads.enter caller_unset;
   Threads.run 0 0; Threads.run 0 7; Threads.run 0 0; Threads.run 0 0;
   Threads.run 1 0; Threads.run 1 7; Threads.run 1 0; Threads.run 1 0].

(** ... then both store their timestamp, one ACK with id 7 arrives, both
    find it in the queue and both remove it. *)
Definition one_ack_for_two : list Threads.action :=
  two_callers ++
  [Threads.run 0 100; Threads.run 1 100;
   Threads.deliver
     (Mqtt.receive_light_ack (Mqtt.mkMessage ("pbl/" +:+ mac1 +:+ "/light/ack") [7]));
   Threads.run 0 0; Threads.run 1 0; Threads.run 0 0; Threads.run 1 0].

(** One exchange with [mac1] on [light/allOff] in which [ack_id] is
    drawn and nothing arrives before the clock has passed the timeout,
    followed by the late ACK of the device for it; the outcomes of the
    calls are collected. *)
Definition timed_out_then_acked (s : list (outcome Z) * Mqtt.t) (ack_id : Z)
  : list (outcome Z) * Mqtt.t :=
  let topic := "pbl/" +:+ mac1 +:+ "/light/allOff" in
  let call :=
    Mqtt.publish_with_ack Api.TIMEOUT mac1 "light_ack" topic []
      (Mqtt.mkEnv [ack_id] 100 [Mqtt.mkPoll [] 106]) (snd s) in
  (fst s ++ [fst call],
   Mqtt.run_callback
     (Mqtt.receive_light_ack (light_ack_for mac1 (Mqtt.mkMessage topic [ack_id])))
     (snd call)).

(** ... once for each of the 256 ids. *)
Definition all_ids_stale : list (outcome Z) * Mqtt.t :=
  foldl timed_out_then_acked ([], with_position3) (seqZ 0 256).

(** * Theorems *)

(** ** Python list primitives *)

Lemma py_in_true `{EqDecision A} (x : A) (l : list A) : py_in x l = true <-> x ∈ l.
Proof. unfold py_in. apply bool_decide_eq_true. Qed.

Lemma py_in_false `{EqDecision A} (x : A) (l : list A) : py_in x l = false <-> x ∉ l.
Proof. unfold py_in. apply bool_decide_eq_false. Qed.

Lemma py_remove_Some `{EqDecision A} (x : A) (l : list A) :
  x ∈ l ->
  exists l1 l2, l = l1 ++ x :: l2 /\ (x ∉ l1) /\ py_remove x l = Some (l1 ++ l2).
Proof.
  induction l as [|y l IH]; intros Hin; [inversion Hin|].
  simpl. destruct (decide (x = y)) as [->|Hne].
  - exists [], l. repeat split. intros H; inversion H.
  - apply elem_of_cons in Hin as [?|Hin]; [contradiction|].
    destruct (IH Hin) as (l1 & l2 & -> & Hn & ->).
    exists (y :: l1), l2. repeat split. intros H.
    apply elem_of_cons in H as [?|?]; contradiction.
Qed.

Lemma py_remove_None `{EqDecision A} (x : A) (l : list A) : py_remove x l = None <-> x ∉ l.
Proof.
  induction l as [|y l IH]; simpl.
  - split; [intros _ H; inversion H|reflexivity].
  - destruct (decide (x = y)) as [->|Hne].
    + split; [discriminate|intros H; exfalso; apply H; left].
    + rewrite fmap_None, IH, not_elem_of_cons. tauto.
Qed.

(** ** The ACK queues *)

Section Queues.
Import Mqtt.

Lemma queue_of_set_queue q l m : queue_of q (set_queue q l m) = l.
Proof. destruct q; reflexivity. Qed.

Lemma run_callback_frame c m :
  data_manager (run_callback c m) = data_manager m /\
  client (run_callback c m) = client m.
Proof.
  destruct c as [msg|msg]; simpl; unfold receive_ack;
    repeat case_match; auto.
Qed.

Lemma run_callback_queue c q m :
  exists extra, queue_of q (run_callback c m) = queue_of q m ++ extra.
Proof.
  destruct c as [msg|msg]; simpl; unfold receive_ack;
    repeat case_match; destruct q; simpl;
      first [ by eexists | by (exists []; rewrite app_nil_r) ].
Qed.

Lemma run_callbacks_app cs1 cs2 m :
  run_callbacks (cs1 ++ cs2) m = run_callbacks cs2 (run_callbacks cs1 m).
Proof. unfold run_callbacks. apply foldl_app. Qed.

Lemma run_callbacks_frame cs m :
  data_manager (run_callbacks cs m) = data_manager m /\
  client (run_callbacks cs m) = client m.
Proof.
  revert m. induction cs as [|c cs IH]; intros m; [split; reflexivity|].
  change (run_callbacks (c :: cs) m) with (run_callbacks cs (run_callback c m)).
  destruct (IH (run_callback c m)) as [-> ->]. apply run_callback_frame.
Qed.

Lemma run_callbacks_queue cs q m :
  exists extra, queue_of q (run_callbacks cs m) = queue_of q m ++ extra.
Proof.
  revert m. induction cs as [|c cs IH]; intros m.
  - exists []. simpl. now rewrite app_nil_r.
  - change (run_callbacks (c :: cs) m) with (run_callbacks cs (run_callback c m)).
    destruct (IH (run_callback c m)) as [x2 ->].
    destruct (run_callback_queue c q m) as [x1 ->].
    exists (x1 ++ x2). now rewrite app_assoc.
Qed.

(** An ACK stays in its queue while callbacks run. *)
Lemma run_callbacks_keeps cs q m a :
  a ∈ queue_of q m -> a ∈ queue_of q (run_callbacks cs m).
Proof.
  intros H. destruct (run_callbacks_queue cs q m) as [x ->].
  apply elem_of_app. now left.
Qed.


Lemma all_arrived_cons p ps : all_arrived (p :: ps) = arrived p ++ all_arrived ps.
Proof. reflexivity. Qed.

Lemma publish_frame topic payload m :
  data_manager (publish topic payload m) = data_manager m /\
  (forall q, queue_of q (publish topic payload m) = queue_of q m) /\
  client (publish topic payload m) = client m ++ [mkMessage topic payload].
Proof. split; [reflexivity|split; [intros []; reflexivity|reflexivity]]. Qed.

(** The chosen ACK carries the caller's MAC address and one of the draws,
    and is not in the queue when it is chosen. *)
Lemma draw_outgoing_ack_fresh mac_address queue draws a rest :
  draw_outgoing_ack mac_address queue draws = Some (a, rest) ->
  (a ∉ queue) /\ ACK.Mac_Address a = mac_address /\ (ACK.ACK_id a ∈ draws).
Proof.
  revert a rest. induction draws as [|r draws IH]; intros a rest H; [discriminate|].
  simpl in H. destruct (py_in _ queue) eqn:Hin.
  - destruct (IH _ _ H) as (? & ? & ?). repeat split; auto. now right.
  - injection H as <- <-. apply py_in_false in Hin. repeat split; auto. left.
Qed.

(** The draw loop ends as soon as a draw is not in the queue. *)
Lemma draw_outgoing_ack_total mac_address queue draws r :
  r ∈ draws -> ACK.mk mac_address r ∉ queue ->
  exists a rest, draw_outgoing_ack mac_address queue draws = Some (a, rest).
Proof.
  induction draws as [|r' draws IH]; intros Hin Hfresh; [inversion Hin|].
  simpl. destruct (py_in _ queue) eqn:E; [|eauto].
  apply elem_of_cons in Hin as [->|Hin]; [|auto].
  apply py_in_true in E. contradiction.
Qed.

(** The waiting loop touches neither the database nor the published
    messages. *)
Lemma wait_for_ack_frame q a timeout timestamp ps m :
  data_manager (snd (wait_for_ack q a timeout timestamp ps m)) = data_manager m /\
  client (snd (wait_for_ack q a timeout timestamp ps m)) = client m.
Proof.
  revert m. induction ps as [|p ps IH]; intros m; [split; reflexivity|].
  simpl. destruct (run_callbacks_frame (arrived p) m) as [Hd Hc].
  destruct (py_in a _); simpl.
  - destruct (py_remove a _); simpl; [destruct q|]; simpl; auto.
  - destruct (_ >? _); simpl; [auto|].
    destruct (IH (run_callbacks (arrived p) m)) as [-> ->]. auto.
Qed.

(** The waiting loop returns 200 or 504, or its polls run out. *)
Lemma wait_for_ack_codes q a timeout timestamp ps m :
  fst (wait_for_ack q a timeout timestamp ps m) = Returned 200 \/
  fst (wait_for_ack q a timeout timestamp ps m) = Returned 504 \/
  fst (wait_for_ack q a timeout timestamp ps m) = Unfinished.
Proof.
  revert m. induction ps as [|p ps IH]; intros m; [auto|].
  simpl. destruct (py_in a _) eqn:Hin; simpl.
  - apply py_in_true, py_remove_Some in Hin as (l1 & l2 & _ & _ & ->). auto.
  - destruct (_ >? _); simpl; auto.
Qed.





(** The draw loop does not end on draws that are all in the queue. *)
Lemma draw_outgoing_ack_exhausted mac queue draws :
  Forall (fun r => ACK.mk mac r ∈ queue) draws ->
  draw_outgoing_ack mac queue draws = None.
Proof.
  induction 1 as [|r draws Hr _ IH]; [reflexivity|].
  simpl. now rewrite (proj2 (py_in_true _ _) Hr).
Qed.

End Queues.

(** ** Wrong queue name (C10) *)

Lemma choose_queue_None select_queue :
  select_queue <> "light_ack" -> select_queue <> "config_ack" ->
  Mqtt.choose_queue select_queue = None.
Proof.
  intros Hl Hc. unfold Mqtt.choose_queue.
  destruct (decide (select_queue = "config_ack")); [contradiction|].
  destruct (decide (select_queue = "light_ack")); [contradiction|reflexivity].
Qed.

(** C10: for every [select_queue] other than ["light_ack"] and
    ["config_ack"], [publish_with_ack] raises its exception and the whole
    state (both ACK queues, the database and its files, the list of
    published messages) is as before. *)
Theorem publish_with_ack_wrong_queue :
  forall timeout mac_address select_queue topic payload e m,
    select_queue <> "light_ack" -> select_queue <> "config_ack" ->
    Mqtt.publish_with_ack timeout mac_address select_queue topic payload e m
    = (Raised WrongQueue, m).
Proof.
  intros * Hl Hc. unfold Mqtt.publish_with_ack.
  now rewrite (choose_queue_None _ Hl Hc).
Qed.

Lemma publish_with_ack_wrong_queue_witness :
  Mqtt.publish_with_ack 5 "AA:BB:CC:DD:EE:01" "register" "pbl/x/light/set" [1; 2]
    (Mqtt.mkEnv [7] 0 [Mqtt.mkPoll [] 6]) fresh_mqtt
  = (Raised WrongQueue, fresh_mqtt).
Proof.
  apply publish_with_ack_wrong_queue; intros H; discriminate H.
Defined.

(** ** publish_with_ack (C9, C3) *)

Section PublishWithAck.
Import Mqtt.



(** Once the queue is chosen and an id is drawn, the call publishes and
    waits. *)
Lemma publish_with_ack_unfold timeout mac_address select_queue topic payload e m q a rest :
  choose_queue select_queue = Some q ->
  draw_outgoing_ack mac_address (queue_of q m) (randint e) = Some (a, rest) ->
  0 <= ACK.ACK_id a < 256 ->
  publish_with_ack timeout mac_address select_queue topic payload e m
  = wait_for_ack q a timeout (time e) (polls e)
      (publish topic (ACK.ACK_id a :: payload) m).
Proof.
  intros Hq Hd Hr. unfold publish_with_ack. rewrite Hq, Hd.
  unfold bytearray. simpl.
  rewrite (proj2 (Z.leb_le _ _)) by lia.
  rewrite (proj2 (Z.ltb_lt _ _)) by lia. reflexivity.
Qed.

(** The call never touches the database. *)
Lemma publish_with_ack_data_manager timeout mac_address select_queue topic payload e m :
  data_manager (snd (publish_with_ack timeout mac_address select_queue topic payload e m))
  = data_manager m.
Proof.
  unfold publish_with_ack. repeat case_match; simpl; try reflexivity.
  now destruct (wait_for_ack_frame q t0 timeout (time e) (polls e)
                  (publish topic (l0 ++ payload) m)) as [-> _].
Qed.

(** A call that returns a status code has passed every step. *)
Lemma publish_with_ack_returned timeout mac_address select_queue topic payload e m code m' :
  publish_with_ack timeout mac_address select_queue topic payload e m
  = (Returned code, m') ->
  exists q a rest,
    choose_queue select_queue = Some q /\
    draw_outgoing_ack mac_address (queue_of q m) (randint e) = Some (a, rest) /\
    0 <= ACK.ACK_id a < 256.
Proof.
  unfold publish_with_ack. intros H.
  destruct (choose_queue select_queue) as [q|] eqn:Hq; [|discriminate].
  destruct (draw_outgoing_ack _ _ _) as [[a rest]|] eqn:Hd; [|discriminate].
  unfold bytearray in H. simpl in H.
  destruct (0 <=? ACK.ACK_id a) eqn:E1; [|discriminate].
  destruct (ACK.ACK_id a <? 256) eqn:E2; [|discriminate].
  apply Z.leb_le in E1. apply Z.ltb_lt in E2.
  exists q, a, rest. split; [reflexivity|]. split; [exact Hd|]. lia.
Qed.

Lemma choose_queue_valid select_queue :
  select_queue = "light_ack" \/ select_queue = "config_ack" <->
  exists q, choose_queue select_queue = Some q.
Proof.
  unfold choose_queue. split.
  - intros [->| ->]; eexists; reflexivity.
  - intros [q H]. repeat case_match; auto. discriminate.
Qed.

(** X25: a call that no other call of [publish_with_ack] overlaps
    (the environment of [Mqtt.env]) returns as soon as some draw is a
    byte that is not in the queue for this device and some poll reads
    the clock past the timeout: 200 or 504, nothing else.  With a second
    caller waiting for the same ACK the [remove] can raise instead (the
    two callers of [Threads] below). *)
Lemma publish_with_ack_returns timeout mac_address select_queue topic payload e m q r p :
  choose_queue select_queue = Some q ->
  r ∈ randint e -> ACK.mk mac_address r ∉ queue_of q m ->
  Forall (fun r => 0 <= r < 256) (randint e) ->
  p ∈ polls e -> now p - time e > timeout ->
  exists code m',
    publish_with_ack timeout mac_address select_queue topic payload e m
    = (Returned code, m') /\ (code = 200 \/ code = 504).
Proof.
  intros Hq Hr Hfresh Hbytes Hp Hlate.
  destruct (draw_outgoing_ack_total _ _ _ _ Hr Hfresh) as (a & rest & Hd).
  destruct (draw_outgoing_ack_fresh _ _ _ _ _ Hd) as (_ & _ & Hin).
  rewrite Forall_forall in Hbytes. specialize (Hbytes _ Hin).
  rewrite (publish_with_ack_unfold _ _ _ _ _ _ _ _ _ _ Hq Hd Hbytes).
  set (m1 := publish _ _ m). clearbody m1.
  assert (Hex : exists code,
             fst (wait_for_ack q a timeout (time e) (polls e) m1) = Returned code
             /\ (code = 200 \/ code = 504)).
  { revert m1. induction (polls e) as [|p' ps IH]; intros m1; [inversion Hp|].
    simpl. destruct (py_in a _) eqn:Ein; simpl.
    - apply py_in_true, py_remove_Some in Ein as (l1 & l2 & _ & _ & ->).
      exists 200. auto.
    - destruct (_ >? _) eqn:Et; [exists 504; auto|].
      apply elem_of_cons in Hp as [->|Hp]; [lia|]. now apply IH. }
  destruct Hex as (code & Hc & Hcode).
  destruct (wait_for_ack _ _ _ _ _ _) as [o m']. simpl in Hc. subst o.
  eauto.
Qed.

Lemma publish_with_ack_returns_witness :
  exists code m',
    publish_with_ack 5 mac1 "light_ack" ("pbl/" +:+ mac1 +:+ "/light/allOff") []
      first_env with_position3 = (Returned code, m') /\
    (code = 200 \/ code = 504).
Proof.
  apply (publish_with_ack_returns 5 mac1 "light_ack"
           ("pbl/" +:+ mac1 +:+ "/light/allOff") [] first_env with_position3
           light_ack_queue_ref 7 (mkPoll [] 106)).
  - reflexivity.
  - vm_compute. left.
  - vm_compute. intros H. inversion H.
  - unfold first_env. cbn [randint]. constructor; [lia|constructor].
  - vm_compute. left.
  - cbn [now time first_env]. lia.
Defined.

End PublishWithAck.

(** C9, as the code has it: in a call with a valid [select_queue], once
    the draws (bytes, as [random.randint(0, 255)] gives them) contain one
    that is not in the queue for this device, the call publishes exactly
    one message, on the given topic: the id of the ACK it chose, a byte,
    followed by the caller's payload as it was given; this whatever the
    waiting loop does afterwards.  Without such a draw the call
    publishes nothing (the counterexample that follows). *)
Theorem publish_with_ack_framing :
  forall timeout mac_address select_queue topic payload e m q r,
    select_queue = "light_ack" \/ select_queue = "config_ack" ->
    Mqtt.choose_queue select_queue = Some q ->
    Forall (fun r => 0 <= r <= 255) (Mqtt.randint e) ->
    r ∈ Mqtt.randint e ->
    ACK.mk mac_address r ∉ Mqtt.queue_of q m ->
    exists ack_id rest,
      Mqtt.draw_outgoing_ack mac_address (Mqtt.queue_of q m) (Mqtt.randint e)
      = Some (ACK.mk mac_address ack_id, rest) /\
      0 <= ack_id <= 255 /\
      Mqtt.client
        (snd (Mqtt.publish_with_ack timeout mac_address select_queue topic payload e m))
      = Mqtt.client m ++ [Mqtt.mkMessage topic (ack_id :: payload)].
Proof.
  intros * _ Hq Hbytes Hr Hfresh.
  destruct (draw_outgoing_ack_total _ _ _ _ Hr Hfresh) as (a & rest & Hd).
  destruct (draw_outgoing_ack_fresh _ _ _ _ _ Hd) as (_ & Hmac & Hin).
  rewrite Forall_forall in Hbytes. specialize (Hbytes _ Hin).
  destruct a as [mac ack_id]. simpl in Hmac, Hbytes. subst mac.
  exists ack_id, rest. split; [exact Hd|]. split; [exact Hbytes|].
  rewrite (publish_with_ack_unfold _ _ _ _ _ _ _ _ _ _ Hq Hd); [|simpl; lia].
  cbn [ACK.ACK_id].
  now destruct (wait_for_ack_frame q (ACK.mk mac_address ack_id) timeout
                  (Mqtt.time e) (Mqtt.polls e)
                  (Mqtt.publish topic (ack_id :: payload) m)) as [_ ->].
Qed.

Lemma publish_with_ack_framing_witness :
  exists ack_id rest,
    Mqtt.draw_outgoing_ack mac1 (Mqtt.queue_of Mqtt.light_ack_queue_ref with_position3)
      (Mqtt.randint first_env)
    = Some (ACK.mk mac1 ack_id, rest) /\
    0 <= ack_id <= 255 /\
    Mqtt.client (snd first_call)
    = Mqtt.client with_position3
      ++ [Mqtt.mkMessage ("pbl/" +:+ mac1 +:+ "/light/set")
            (ack_id :: [10; 20; 255; 0; 255])].
Proof.
  apply (publish_with_ack_framing Api.TIMEOUT mac1 "light_ack"
           ("pbl/" +:+ mac1 +:+ "/light/set") [10; 20; 255; 0; 255]
           first_env with_position3 Mqtt.light_ack_queue_ref 7).
  - left; reflexivity.
  - reflexivity.
  - repeat constructor; simpl; lia.
  - left.
  - vm_compute. intros H. inversion H.
Defined.

(** C9 as stated fails: each of the 256 ids has been used by an exchange
    with [mac1] that timed out (504) and whose ACK arrived afterwards,
    so the queue holds an ACK of [mac1] for every id.  From then on every
    draw of every call for [mac1] on that queue is rejected by the
    uniqueness test: the call publishes no message and does not leave
    the draw loop, however many draws it makes. *)
Lemma full_queue_publishes_nothing :
  fst all_ids_stale = replicate 256 (Returned 504) /\
  Mqtt.light_ack_queue (snd all_ids_stale) = ACK.mk mac1 <$> seqZ 0 256 /\
  forall timeout topic payload e,
    Forall (fun r => 0 <= r <= 255) (Mqtt.randint e) ->
    Mqtt.publish_with_ack timeout mac1 "light_ack" topic payload e (snd all_ids_stale)
    = (Unfinished, snd all_ids_stale).
Proof.
  assert (Hq : Mqtt.light_ack_queue (snd all_ids_stale) = ACK.mk mac1 <$> seqZ 0 256)
    by (vm_compute; reflexivity).
  split; [vm_compute; reflexivity|]. split; [exact Hq|].
  intros timeout topic payload e Hb. unfold Mqtt.publish_with_ack.
  change (Mqtt.choose_queue "light_ack") with (Some Mqtt.light_ack_queue_ref).
  cbn [Mqtt.queue_of]. rewrite Hq.
  rewrite draw_outgoing_ack_exhausted; [reflexivity|].
  eapply Forall_impl; [exact Hb|]. intros r Hr. cbv beta in Hr |- *.
  apply list_elem_of_fmap. exists r. split; [reflexivity|].
  apply elem_of_seqZ. lia.
Qed.

(** A call that returns a status code has published that one message. *)
Lemma publish_with_ack_returned_framing
    timeout mac_address select_queue topic payload e m code m' :
  Mqtt.publish_with_ack timeout mac_address select_queue topic payload e m
  = (Returned code, m') ->
  exists q outgoing_ack rest,
    Mqtt.choose_queue select_queue = Some q /\
    Mqtt.draw_outgoing_ack mac_address (Mqtt.queue_of q m) (Mqtt.randint e)
    = Some (outgoing_ack, rest) /\
    0 <= ACK.ACK_id outgoing_ack <= 255 /\
    Mqtt.client m'
    = Mqtt.client m ++ [Mqtt.mkMessage topic (ACK.ACK_id outgoing_ack :: payload)].
Proof.
  intros H.
  destruct (publish_with_ack_returned _ _ _ _ _ _ _ _ _ H) as (q & a & rest & Hq & Hd & Hr).
  exists q, a, rest. split; [exact Hq|]. split; [exact Hd|]. split; [lia|].
  rewrite (publish_with_ack_unfold _ _ _ _ _ _ _ _ _ _ Hq Hd Hr) in H.
  pose proof (wait_for_ack_frame q a timeout (Mqtt.time e) (Mqtt.polls e)
                (Mqtt.publish topic (ACK.ACK_id a :: payload) m)) as [_ Hc].
  rewrite H in Hc. simpl in Hc. exact Hc.
Qed.




(** ** One caller alone: the statement-by-statement model agrees with
    [publish_with_ack] *)

Section Solo.
Import Threads.

Lemma exec_all_app s l1 l2 : exec_all s (l1 ++ l2) = exec_all (exec_all s l1) l2.
Proof. unfold exec_all. apply foldl_app. Qed.

Lemma exec_all_cons s a l : exec_all s (a :: l) = exec_all (exec s a) l.
Proof. reflexivity. Qed.

Lemma exec_all_nil s : exec_all s [] = s.
Proof. reflexivity. Qed.

Lemma exec_solo_run c at_ m input :
  exec (solo c at_ m) (run 0 input)
  = mkSystem (snd (step input (mkThread c at_) m))
             [fst (step input (mkThread c at_) m)].
Proof.
  unfold exec, solo. simpl. now destruct (step input (mkThread c at_) m).
Qed.

Lemma exec_all_deliver c at_ m cs :
  exec_all (solo c at_ m) (deliver <$> cs) = solo c at_ (Mqtt.run_callbacks cs m).
Proof.
  revert m. induction cs as [|cb cs IH]; intros m; [reflexivity|].
  simpl. exact (IH (Mqtt.run_callback cb m)).
Qed.

Ltac solo_step :=
  rewrite exec_all_cons, exec_solo_run; cbn [step args at_pc fst snd].

Lemma solo_draw c q m a rest draws :
  Mqtt.draw_outgoing_ack (mac_address c) (Mqtt.queue_of q m) draws = Some (a, rest) ->
  exists schedule,
    exec_all (solo c (at_draw q) m) schedule = solo c (at_publish q a) m.
Proof.
  revert a rest. induction draws as [|r draws IH]; intros a rest H; [discriminate|].
  simpl in H. destruct (py_in _ _) eqn:Hin.
  - destruct (IH _ _ H) as [schedule Hs].
    exists ([run 0 r; run 0 0] ++ schedule). rewrite exec_all_app.
    solo_step. fold (solo c (at_unique_test q (ACK.mk (mac_address c) r)) m).
    solo_step. rewrite Hin. cbn [fst snd]. exact Hs.
  - injection H as <- <-. exists [run 0 r; run 0 0].
    solo_step. fold (solo c (at_unique_test q (ACK.mk (mac_address c) r)) m).
    solo_step. rewrite Hin. reflexivity.
Qed.

Lemma solo_wait c q a timestamp ps m o m' :
  Mqtt.wait_for_ack q a (timeout c) timestamp ps m = (o, m') ->
  o <> Unfinished ->
  exists schedule,
    exec_all (solo c (at_wait_test q a timestamp) m) schedule = solo c (finished o) m'.
Proof.
  revert m. induction ps as [|p ps IH]; intros m H Hfin; simpl in H.
  - injection H as <- <-. contradiction.
  - set (m1 := Mqtt.run_callbacks (Mqtt.arrived p) m) in *.
    destruct (py_in a (Mqtt.queue_of q m1)) eqn:Hin; simpl in H.
    + exists ((deliver <$> Mqtt.arrived p) ++ [run 0 0; run 0 0]).
      rewrite exec_all_app, exec_all_deliver. fold m1.
      solo_step. rewrite Hin. cbn [negb fst snd].
      fold (solo c (at_remove q a) m1). solo_step.
      destruct (py_remove a _) as [rest|] eqn:Hr; injection H as <- <-; reflexivity.
    + destruct (_ >? _) eqn:Ht.
      * injection H as <- <-.
        exists ((deliver <$> Mqtt.arrived p) ++ [run 0 0; run 0 (Mqtt.now p)]).
        rewrite exec_all_app, exec_all_deliver. fold m1.
        solo_step. rewrite Hin. cbn [negb fst snd].
        fold (solo c (at_timeout_test q a timestamp) m1). solo_step.
        rewrite Ht. reflexivity.
      * destruct (IH _ H Hfin) as [schedule Hs].
        exists ((deliver <$> Mqtt.arrived p) ++ [run 0 0; run 0 (Mqtt.now p)] ++ schedule).
        rewrite exec_all_app, exec_all_deliver. fold m1.
        rewrite exec_all_app.
        solo_step. rewrite Hin. cbn [negb fst snd].
        fold (solo c (at_timeout_test q a timestamp) m1).
        solo_step. rewrite Ht. cbn [fst snd].
        rewrite exec_all_nil. exact Hs.
Qed.

(** X26: whatever [publish_with_ack] returns or raises is what one
    caller, followed statement by statement and run alone under some
    schedule, ends with, in the same state. *)
Lemma solo_publish_with_ack c e m o m' :
  Mqtt.publish_with_ack (timeout c) (mac_address c) (select_queue c) (topic c)
    (payload c) e m = (o, m') ->
  o <> Unfinished ->
  exists schedule,
    exec_all (solo c at_choose_queue m) schedule = solo c (finished o) m'.
Proof.
  unfold Mqtt.publish_with_ack. intros H Hfin.
  destruct (Mqtt.choose_queue (select_queue c)) as [q|] eqn:Hq.
  - destruct (Mqtt.draw_outgoing_ack _ _ _) as [[a rest]|] eqn:Hd;
      [|injection H as <- <-; contradiction].
    destruct (solo_draw c q m a rest _ Hd) as [s1 Hs1].
    destruct (bytearray [ACK.ACK_id a]) as [bytes|] eqn:Hb.
    + destruct (solo_wait c q a (Mqtt.time e) _ _ _ _ H Hfin) as [s2 Hs2].
      exists ([run 0 0] ++ s1 ++ [run 0 0; run 0 (Mqtt.time e)] ++ s2).
      rewrite exec_all_app. solo_step. rewrite Hq. cbn [fst snd].
      fold (solo c (at_draw q) m). rewrite exec_all_nil.
      rewrite exec_all_app, Hs1, exec_all_app. solo_step. rewrite Hb. cbn [fst snd].
      fold (solo c (at_timestamp q a) (Mqtt.publish (topic c) (bytes ++ payload c) m)).
      solo_step. rewrite exec_all_nil. exact Hs2.
    + injection H as <- <-. exists ([run 0 0] ++ s1 ++ [run 0 0]).
      rewrite exec_all_app. solo_step. rewrite Hq. cbn [fst snd].
      fold (solo c (at_draw q) m). rewrite exec_all_nil.
      rewrite exec_all_app, Hs1. solo_step. rewrite Hb. reflexivity.
  - injection H as <- <-. exists [run 0 0].
    solo_step. rewrite Hq. reflexivity.
Qed.

Lemma solo_publish_with_ack_witness :
  exists schedule,
    exec_all (solo caller_set at_choose_queue with_position3) schedule
    = solo caller_set (finished (Returned 504)) (snd first_call).
Proof.
  apply (solo_publish_with_ack caller_set first_env with_position3
           (Returned 504) (snd first_call)).
  - vm_compute. reflexivity.
  - discriminate.
Defined.

End Solo.

(** ** Concurrent callers (C5) *)

(** What the redraw loop does compare: a caller goes on to publish only
    with an ACK that is not among the ACKs received and not yet
    consumed. *)
Lemma unique_test_passes c q a m input :
  Threads.step input (Threads.mkThread c (Threads.at_unique_test q a)) m
  = (Threads.mkThread c (Threads.at_publish q a), m) <->
  a ∉ Mqtt.queue_of q m.
Proof.
  unfold Threads.step. cbn [Threads.args Threads.at_pc].
  destruct (py_in a (Mqtt.queue_of q m)) eqn:Hin.
  - apply py_in_true in Hin.
    split; [intros H; discriminate H|intros H; contradiction].
  - apply py_in_false in Hin. split; [intros _; exact Hin|reflexivity].
Qed.

(** C5 with two callers for the same device and queue: the draw is
    compared with the ACKs received so far, not with the exchanges that
    are waiting, so both callers publish with id 7 and wait for the same
    ACK; when one ACK arrives, one caller returns 200 and the [remove] of
    the other raises [ValueError]. *)
Theorem two_callers_share_id :
  let s0 := Threads.mkSystem with_position3 [] in
  let s := Threads.exec_all s0 two_callers in
  Threads.shared_correlation_id s /\
  Threads.outstanding <$> Threads.threads s
  = [Some (Mqtt.light_ack_queue_ref, ACK.mk mac1 7);
     Some (Mqtt.light_ack_queue_ref, ACK.mk mac1 7)] /\
  Mqtt.client (Threads.shared s)
  = Mqtt.client with_position3 ++ [first_request; second_request] /\
  Threads.at_pc <$> Threads.threads (Threads.exec_all s0 one_ack_for_two)
  = [Threads.finished (Returned 200); Threads.finished (Raised ValueError)].
Proof.
  split.
  - exists 0%nat, 1%nat. do 3 eexists.
    split; [discriminate|]. repeat split; vm_compute; reflexivity.
  - vm_compute. repeat split; reflexivity.
Qed.

(** ** Colour strings (C8) *)

(** A hex digit, upper-cased, is read by [fromhex] as a value below 16. *)
Lemma hex_digit_value c :
  Api.is_hex_digit c = true ->
  Api.is_space (Api.upper_char c) = false /\
  exists v, Api.hex_value (Api.upper_char c) = Some v /\ 0 <= v < 16.
Proof.
  destruct c as [[] [] [] [] [] [] [] []]; intros H; vm_compute in H;
    try discriminate H; clear H;
    (split; [reflexivity | eexists; split; [reflexivity | ]]);
    vm_compute; (split; [intros E; discriminate E | reflexivity]).
Qed.

(** What [re.match] accepts: ['#'] and six hex digits, then any text. *)
Lemma re_match_shape s :
  Api.re_match s = true <->
  exists c1 c2 c3 c4 c5 c6 rest,
    s = String "#" (String c1 (String c2 (String c3 (String c4
          (String c5 (String c6 rest)))))) /\
    Forall (fun c => Api.is_hex_digit c = true) [c1; c2; c3; c4; c5; c6].
Proof.
  split.
  - unfold Api.re_match. intros H.
    destruct s as [|c s]; [discriminate|].
    destruct (decide (c = "#"%char)) as [->|Hc];
      [|destruct c as [[] [] [] [] [] [] [] []]; try discriminate; congruence].
    simpl in H.
    repeat match type of H with
           | match ?s with EmptyString => _ | String _ _ => _ end = true =>
               destruct s; [discriminate|]
           | (_ && _) = true => apply andb_prop in H; destruct H as [? H]
           end.
    repeat eexists; repeat constructor; assumption.
  - intros (c1 & c2 & c3 & c4 & c5 & c6 & rest & -> & HF).
    repeat match goal with
           | H : Forall _ (_ :: _) |- _ => inversion H; subst; clear H
           end.
    simpl. repeat (apply andb_true_intro; split; [assumption|]). reflexivity.
Qed.

Lemma substring_0_0 s : substring 0 0 s = EmptyString.
Proof. destruct s; reflexivity. Qed.

(** The function never fails on an accepted string, returns three bytes,
    and reads only the first seven characters. *)
Lemma color_accepted s :
  Api.re_match s = true ->
  (exists r g b, Api.color_string_to_byte_array s = Some [r; g; b] /\
                 0 <= r < 256 /\ 0 <= g < 256 /\ 0 <= b < 256) /\
  Api.color_string_to_byte_array s
  = Api.color_string_to_byte_array (substring 0 7 s).
Proof.
  intros H. pose proof H as H'. apply re_match_shape in H'.
  destruct H' as (c1 & c2 & c3 & c4 & c5 & c6 & rest & -> & HF).
  repeat match goal with
         | H : Forall _ (_ :: _) |- _ => inversion H; subst; clear H
         end.
  assert (Hm : Api.re_match (substring 0 7
            (String "#" (String c1 (String c2 (String c3 (String c4
               (String c5 (String c6 rest)))))))) = true).
  { apply re_match_shape. exists c1, c2, c3, c4, c5, c6, EmptyString.
    split; [cbn [substring]; now rewrite substring_0_0|].
    repeat constructor; assumption. }
  unfold Api.color_string_to_byte_array. rewrite H, Hm.
  cbn [substring]. rewrite !substring_0_0. cbn [substring].
  split; [|reflexivity].
  repeat match goal with
         | H : Api.is_hex_digit _ = true |- _ =>
             apply hex_digit_value in H; destruct H as (? & ? & ? & ?)
         end.
  cbn [Api.upper Api.tail Api.fromhex].
  repeat match goal with
         | H : Api.is_space _ = false |- _ => rewrite H; clear H
         | H : Api.hex_value _ = Some _ |- _ => rewrite H; clear H
         end.
  cbn [fmap option_fmap option_map Api.fromhex].
  do 3 eexists. split; [reflexivity|]. lia.
Qed.

Lemma color_rejected s :
  Api.re_match s = false -> Api.color_string_to_byte_array s = None.
Proof. intros H. unfold Api.color_string_to_byte_array. now rewrite H. Qed.

(** C8 at a string of nine characters: the claim requires [None], the
    function returns the bytes of the first seven characters. *)
Theorem color_accepts_trailing_text :
  String.length "#FF00FF00" = 9%nat /\
  Api.color_string_to_byte_array "#FF00FF00" = Some [255; 0; 255] /\
  Api.color_string_to_byte_array "#ff00ffxyz" = Some [255; 0; 255] /\
  Api.color_string_to_byte_array "#FF00FF" = Some [255; 0; 255] /\
  Api.color_string_to_byte_array "FF00FF" = None.
Proof. repeat split; reflexivity. Qed.

(** ** Persistence (C6) *)

Lemma add_shelf_files shelf dm dm' :
  DataManager.add_shelf shelf dm = (true, dm') ->
  DataManager.json_file dm' = Some (DataManager.db dm') /\
  DataManager.json_file_backup dm' = DataManager.json_file_backup dm.
Proof.
  unfold DataManager.add_shelf. intros H.
  repeat case_match; simplify_eq; split; reflexivity.
Qed.

Lemma delete_shelf_files n dm dm' :
  DataManager.delete_shelf_by_shelf_number n dm = (true, dm') ->
  DataManager.json_file dm' = Some (DataManager.db dm') /\
  DataManager.json_file_backup dm' = DataManager.json_file_backup dm.
Proof.
  unfold DataManager.delete_shelf_by_shelf_number. intros H.
  repeat case_match; simplify_eq; split; reflexivity.
Qed.

Lemma add_position_files i sp dm dm' :
  DataManager.add_position i sp dm = (true, dm') ->
  DataManager.json_file dm' = Some (DataManager.db dm') /\
  DataManager.json_file_backup dm' = DataManager.json_file_backup dm.
Proof.
  unfold DataManager.add_position. intros H.
  repeat case_match; simplify_eq; split; reflexivity.
Qed.

Lemma update_position_files i sp dm dm' :
  DataManager.update_position i sp dm = Some (true, dm') ->
  DataManager.json_file dm' = Some (DataManager.db dm') /\
  DataManager.json_file_backup dm' = DataManager.json_file_backup dm.
Proof.
  unfold DataManager.update_position. intros H.
  repeat case_match; simplify_eq; split; reflexivity.
Qed.

Lemma delete_position_files i sp dm dm' :
  DataManager.delete_position i sp dm = (true, dm') ->
  DataManager.json_file dm' = Some (DataManager.db dm') /\
  DataManager.json_file_backup dm' = DataManager.json_file_backup dm.
Proof.
  unfold DataManager.delete_position. intros H.
  repeat case_match; simplify_eq; split; reflexivity.
Qed.

(** C6, as the code has it: a mutating operation that returns [True] has
    written the whole database to the primary file and has left the
    backup file as it was; the backup is written when the [DataManager]
    is constructed, and then holds the same snapshot as the primary
    file. *)
Theorem mutation_saves_primary_only :
  forall op dm dm',
    apply op dm = Some (true, dm') ->
    DataManager.json_file dm' = Some (DataManager.db dm') /\
    DataManager.json_file_backup dm' = DataManager.json_file_backup dm /\
    (forall stored backup,
        DataManager.json_file_backup (DataManager.init stored backup)
        = DataManager.json_file (DataManager.init stored backup)).
Proof.
  intros op dm dm' H.
  assert (Hinit : forall stored backup,
             DataManager.json_file_backup (DataManager.init stored backup)
             = DataManager.json_file (DataManager.init stored backup)).
  { intros [d|] backup; reflexivity. }
  destruct op; simpl in H; simplify_eq.
  - destruct (add_shelf_files _ _ _ H); auto.
  - destruct (delete_shelf_files _ _ _ H); auto.
  - destruct (add_position_files _ _ _ _ H); auto.
  - destruct (update_position_files _ _ _ _ H); auto.
  - destruct (delete_position_files _ _ _ _ H); auto.
Qed.

Lemma mutation_saves_primary_only_witness :
  let dm := Mqtt.data_manager registered in
  let dm' := snd (DataManager.add_shelf (Shelf.mk 7 mac1 []) dm) in
  DataManager.json_file dm' = Some (DataManager.db dm') /\
  DataManager.json_file_backup dm' = DataManager.json_file_backup dm.
Proof.
  intros dm dm'.
  destruct (mutation_saves_primary_only (Do_add_shelf (Shelf.mk 7 mac1 [])) dm dm')
    as (H1 & H2 & _); [vm_compute; reflexivity|].
  split; [exact H1|exact H2].
Defined.

(** C6 as stated fails: after a shelf has been added with success, the
    backup file still holds the empty database written at start-up and
    differs from the primary file. *)
Lemma backup_not_written_on_add_shelf :
  let dm := Mqtt.data_manager registered in
  let r := DataManager.add_shelf (Shelf.mk 7 mac1 []) dm in
  fst r = true /\
  DataManager.json_file (snd r) = Some (DataManager.db (snd r)) /\
  DataManager.json_file_backup (snd r) <> DataManager.json_file (snd r) /\
  DataManager.json_file_backup (snd r)
  = Some (DB.mk (ShelfArray.mk []) (ESP32Array.mk [])).
Proof.
  vm_compute. repeat split; try reflexivity. intros H; discriminate H.
Qed.

(** ** Timeouts of the requests that change the database (C4) *)

Lemma publish_with_ack_keeps_database timeout mac_address select_queue topic payload e m o m1 :
  Mqtt.publish_with_ack timeout mac_address select_queue topic payload e m = (o, m1) ->
  Mqtt.data_manager m1 = Mqtt.data_manager m.
Proof.
  intros H.
  pose proof (publish_with_ack_data_manager timeout mac_address select_queue
                topic payload e m) as Hd.
  now rewrite H in Hd.
Qed.

Lemma get_shelf_by_shelf_number_Some dm n i sh :
  DataManager.get_shelf_by_shelf_number dm n = Some (i, sh) ->
  Shelf.ShelfNumber sh = n /\ DataManager.shelves dm !! i = Some sh.
Proof.
  unfold DataManager.get_shelf_by_shelf_number.
  destruct (negb _); [discriminate|].
  intros H. apply list_find_Some in H as (? & ? & _). auto.
Qed.

(** C4: when the exchange of a create-position, update-position,
    delete-position or delete-shelf request times out
    ([publish_with_ack] returns 504), the handler returns 504 and the
    [DataManager] (the database in memory and both files) is as it was
    before the request. *)
Theorem timeout_leaves_database :
  forall r e m x m1,
    exchange_of r m = Some x ->
    Mqtt.publish_with_ack (ex_timeout x) (ex_mac_address x) "config_ack"
      (ex_topic x) (ex_payload x) e m = (Returned 504, m1) ->
    Api.handle r e m = (Returned 504, m1) /\
    Mqtt.data_manager m1 = Mqtt.data_manager m.
Proof.
  intros r e m x m1 Hx Hp.
  split; [|exact (publish_with_ack_keeps_database _ _ _ _ _ _ _ _ _ Hp)].
  destruct r as [sp|sp|n pid|n]; simpl in *.
  - unfold Api.create_position, Api.__publish_create_update_position.
    destruct (DataManager.get_mac_address_by_shelf_number _ _) as [mac|];
      simpl in Hx; [|discriminate].
    destruct (DataManager.position_id_exists _ _ _); [discriminate|].
    destruct (negb (Api.__validate_shelf _ _ =? 200)); [discriminate|].
    destruct (DataManager.leds_exists _ _ _); [discriminate|].
    destruct (bytearray _) as [payload|]; simpl in Hx; [|discriminate].
    injection Hx as <-. simpl in Hp. rewrite Hp. reflexivity.
  - unfold Api.update_position, Api.__publish_create_update_position.
    destruct (DataManager.get_mac_address_by_shelf_number _ _) as [mac|];
      simpl in Hx; [|discriminate].
    destruct (DataManager.position_id_exists _ _ _); [|discriminate].
    destruct (negb (Api.__validate_shelf _ _ =? 200)); [discriminate|].
    destruct (DataManager.leds_exists_exclusive _ _); [discriminate|].
    destruct (bytearray _) as [payload|]; simpl in Hx; [|discriminate].
    injection Hx as <-. simpl in Hp. rewrite Hp. reflexivity.
  - unfold Api.delete_position.
    destruct (DataManager.get_mac_address_by_shelf_number _ _) as [mac|];
      simpl in Hx; [|discriminate].
    destruct (DataManager.position_id_exists _ _ _); [|discriminate].
    simpl in Hx. unfold Api.__validate_shelf in Hx.
    destruct (DataManager.get_shelf_by_shelf_number _ _) as [[i sh]|] eqn:Hs;
      [|discriminate].
    destruct (get_shelf_by_shelf_number_Some _ _ _ _ Hs) as [-> _].
    destruct ((pid >? 255) || (pid <? 0)); [discriminate|]. simpl in Hx.
    destruct (DataManager.get_position_by_shelf_number_and_position_id _ _ _)
      as [[[i' j] pos]|]; simpl in Hx; [|discriminate].
    destruct (bytearray _) as [payload|]; simpl in Hx; [|discriminate].
    injection Hx as <-. simpl in Hp. rewrite Hp. reflexivity.
  - unfold Api.delete_shelf.
    destruct (DataManager.get_shelf_by_shelf_number _ _) as [[i sh]|] eqn:Hs;
      simpl in Hx; [|discriminate].
    assert (He : DataManager.shelf_exists (Mqtt.data_manager m) n = true).
    { unfold DataManager.get_shelf_by_shelf_number in Hs.
      destruct (DataManager.shelf_exists _ _); [reflexivity|discriminate]. }
    rewrite He. injection Hx as <-. simpl in *. rewrite Hp. reflexivity.
Qed.

Lemma timeout_leaves_database_witness :
  exchange_of (Api.CreatePosition (ShelfPosition.mk 7 4 [30])) with_position3
  = Some (mkExchange 5 mac1 ("pbl/" +:+ mac1 +:+ "/config/create_Position") [4; 30]) /\
  fst (Api.handle (Api.CreatePosition (ShelfPosition.mk 7 4 [30])) silent with_position3)
  = Returned 504 /\
  Mqtt.data_manager
    (snd (Api.handle (Api.CreatePosition (ShelfPosition.mk 7 4 [30])) silent with_position3))
  = Mqtt.data_manager with_position3.
Proof.
  split; [vm_compute; reflexivity|].
  destruct (timeout_leaves_database
              (Api.CreatePosition (ShelfPosition.mk 7 4 [30])) silent with_position3
              (mkExchange 5 mac1 ("pbl/" +:+ mac1 +:+ "/config/create_Position") [4; 30])
              (snd (Mqtt.publish_with_ack 5 mac1 "config_ack"
                      ("pbl/" +:+ mac1 +:+ "/config/create_Position") [4; 30]
                      silent with_position3)))
    as [H1 H2]; [vm_compute; reflexivity|vm_compute; reflexivity|].
  rewrite H1. split; [reflexivity|exact H2].
Defined.

Lemma publish_create_update_database sp mac_address create e m o m1 :
  Api.__publish_create_update_position sp mac_address create e m = (o, m1) ->
  Mqtt.data_manager m1 = Mqtt.data_manager m /\
  forall code ret_str, o = Returned (code, ret_str) -> ret_str = false -> code <> 504.
Proof.
  unfold Api.__publish_create_update_position.
  destruct (bytearray _) as [payload|]; [|intros [= <- <-]; split; [reflexivity|discriminate]].
  destruct (Mqtt.publish_with_ack _ _ _ _ _ _ _) as [[code| |] mp] eqn:Hp;
    apply publish_with_ack_keeps_database in Hp; simpl;
    [|intros [= <- <-]; split; [assumption|discriminate] ..].
  destruct (code =? 504) eqn:E; intros [= <- <-]; (split; [assumption|]);
    intros c f [= <- <-]; [discriminate|]. lia.
Qed.

Ltac commit_not_504 H :=
  simpl in H; unfold Api.with_dm in H; simpl in H;
  repeat match type of H with
         | context [match ?x with _ => _ end] => destruct x
         end; simpl in H; discriminate H.

(** The converse reading: a handler that answers 504 has left the
    [DataManager] as it was. *)
Lemma handle_504_database r e m m' :
  Api.handle r e m = (Returned 504, m') ->
  Mqtt.data_manager m' = Mqtt.data_manager m.
Proof.
  destruct r as [sp|sp|n pid|n]; simpl.
  - unfold Api.create_position.
    destruct (DataManager.get_mac_address_by_shelf_number _ _) as [mac|];
      [|intros [= <-]; reflexivity].
    destruct (DataManager.position_id_exists _ _ _); [intros [= <-]; reflexivity|].
    destruct (negb _); [intros [= _ <-]; reflexivity|].
    destruct (DataManager.leds_exists _ _ _); [intros [= <-]; reflexivity|].
    destruct (Api.__publish_create_update_position _ _ _ _ _) as [[[code f]| |] mp] eqn:Hp;
      simpl; try discriminate.
    apply publish_create_update_database in Hp as [Hd Hc].
    destruct f; [intros [= _ <-]; exact Hd|].
    specialize (Hc _ _ eq_refl eq_refl).
    destruct (code =? 200) eqn:E; [|discriminate].
    intros H. exfalso. commit_not_504 H.
  - unfold Api.update_position.
    destruct (DataManager.get_mac_address_by_shelf_number _ _) as [mac|];
      [|intros [= <-]; reflexivity].
    destruct (negb (DataManager.position_id_exists _ _ _)); [intros [= <-]; reflexivity|].
    destruct (negb _); [intros [= _ <-]; reflexivity|].
    destruct (DataManager.leds_exists_exclusive _ _); [intros [= <-]; reflexivity|].
    destruct (Api.__publish_create_update_position _ _ _ _ _) as [[[code f]| |] mp] eqn:Hp;
      simpl; try discriminate.
    apply publish_create_update_database in Hp as [Hd Hc].
    destruct f; [intros [= _ <-]; exact Hd|].
    destruct (code =? 200) eqn:E; [|discriminate].
    intros H. exfalso. commit_not_504 H.
  - unfold Api.delete_position.
    destruct (DataManager.get_mac_address_by_shelf_number _ _) as [mac|];
      [|intros [= <-]; reflexivity].
    destruct (negb (DataManager.position_id_exists _ _ _)); [intros [= <-]; reflexivity|].
    destruct (DataManager.get_shelf_by_shelf_number _ _) as [[i sh]|];
      [|intros [= <-]; reflexivity].
    destruct (_ || _); [intros [= <-]; reflexivity|].
    destruct (DataManager.get_position_by_shelf_number_and_position_id _ _ _)
      as [[[i' j] pos]|]; [|intros [= <-]; reflexivity].
    destruct (bytearray _) as [payload|]; [|discriminate].
    destruct (Mqtt.publish_with_ack _ _ _ _ _ _ _) as [[code| |] mp] eqn:Hp;
      apply publish_with_ack_keeps_database in Hp; simpl; try discriminate.
    destruct (code =? 504); [intros [= <-]; exact Hp|].
    destruct (code =? 200); [|discriminate].
    intros H. exfalso. commit_not_504 H.
  - unfold Api.delete_shelf.
    destruct (DataManager.get_shelf_by_shelf_number _ _) as [[i sh]|];
      [|intros [= <-]; reflexivity].
    destruct (negb _); [intros [= <-]; reflexivity|].
    simpl.
    destruct (Mqtt.publish_with_ack _ _ _ _ _ _ _) as [[code| |] mp] eqn:Hp;
      apply publish_with_ack_keeps_database in Hp; simpl; try discriminate.
    destruct (code =? 504); [intros [= <-]; exact Hp|].
    destruct (code =? 200); [|discriminate].
    intros H. exfalso. commit_not_504 H.
Qed.

(** A request that does not pass the checks of its handler is answered
    without any contact with the device and without any change of
    state. *)
Lemma rejected_request_no_effect r e m :
  exchange_of r m = None -> snd (Api.handle r e m) = m.
Proof.
  destruct r as [sp|sp|n pid|n]; simpl.
  - unfold Api.create_position, Api.__publish_create_update_position.
    destruct (DataManager.get_mac_address_by_shelf_number _ _) as [mac|];
      simpl; [|reflexivity].
    destruct (DataManager.position_id_exists _ _ _); [reflexivity|].
    destruct (negb (Api.__validate_shelf _ _ =? 200)); [reflexivity|].
    destruct (DataManager.leds_exists _ _ _); [reflexivity|].
    destruct (bytearray _) as [payload|]; simpl; [discriminate|reflexivity].
  - unfold Api.update_position, Api.__publish_create_update_position.
    destruct (DataManager.get_mac_address_by_shelf_number _ _) as [mac|];
      simpl; [|reflexivity].
    destruct (DataManager.position_id_exists _ _ _); [|reflexivity].
    destruct (negb (Api.__validate_shelf _ _ =? 200)); [reflexivity|].
    destruct (DataManager.leds_exists_exclusive _ _); [reflexivity|].
    destruct (bytearray _) as [payload|]; simpl; [discriminate|reflexivity].
  - unfold Api.delete_position.
    destruct (DataManager.get_mac_address_by_shelf_number _ _) as [mac|];
      simpl; [|reflexivity].
    destruct (DataManager.position_id_exists _ _ _); [|reflexivity].
    simpl. unfold Api.__validate_shelf.
    destruct (DataManager.get_shelf_by_shelf_number _ _) as [[i sh]|] eqn:Hs;
      [|reflexivity].
    destruct (get_shelf_by_shelf_number_Some _ _ _ _ Hs) as [-> _].
    destruct ((pid >? 255) || (pid <? 0)); [reflexivity|]. simpl.
    destruct (DataManager.get_position_by_shelf_number_and_position_id _ _ _)
      as [[[i' j] pos]|]; simpl; [|reflexivity].
    destruct (bytearray _) as [payload|]; simpl; [discriminate|reflexivity].
  - unfold Api.delete_shelf.
    destruct (DataManager.get_shelf_by_shelf_number _ _) as [[i sh]|];
      simpl; [discriminate|reflexivity].
Qed.

(** ** What a handler or callback does to the DataManager *)

Section Effects.
Import DataManager.

Lemma get_shelf_by_mac_address_Some dm mac i sh :
  get_shelf_by_mac_address dm mac = Some (i, sh) ->
  Shelf.Mac_Address sh = mac /\ shelves dm !! i = Some sh.
Proof.
  unfold get_shelf_by_mac_address. destruct (negb _); [discriminate|].
  intros H. apply list_find_Some in H as (? & ? & _). auto.
Qed.

Lemma create_position_effect sp e m :
  let dm := Mqtt.data_manager m in
  let dm' := Mqtt.data_manager (snd (Api.create_position sp e m)) in
  dm' = dm \/
  exists i sh, shelves dm !! i = Some sh /\
               ShelfPosition.ShelfNumber sp = Shelf.ShelfNumber sh /\
               dm' = snd (add_position i sp dm).
Proof.
  simpl. unfold Api.create_position.
  destruct (get_mac_address_by_shelf_number _ _) as [mac|]; [|now left].
  destruct (position_id_exists _ _ _); [now left|].
  destruct (negb _); [now left|].
  destruct (leds_exists _ _ _); [now left|].
  destruct (Api.__publish_create_update_position _ _ _ _ _) as [[[code f]| |] mp] eqn:Hp;
    apply publish_create_update_database in Hp as [Hd _]; simpl; auto.
  destruct f; [auto|]. destruct (code =? 200); [|auto].
  destruct (get_shelf_by_shelf_number _ _) as [[i sh]|] eqn:Hs; [|auto].
  apply get_shelf_by_shelf_number_Some in Hs as [Hn Hi].
  unfold Api.with_dm. rewrite Hd.
  destruct (add_position i sp (Mqtt.data_manager m)) as [ok dm1] eqn:Ha. simpl.
  right. exists i, sh. split; [exact Hi|]. split; [now rewrite Hn|].
  rewrite Ha. destruct ok; reflexivity.
Qed.

Lemma update_position_effect sp e m :
  let dm := Mqtt.data_manager m in
  let dm' := Mqtt.data_manager (snd (Api.update_position sp e m)) in
  dm' = dm \/
  exists i sh r, shelves dm !! i = Some sh /\
                 ShelfPosition.ShelfNumber sp = Shelf.ShelfNumber sh /\
                 update_position i sp dm = Some r /\ dm' = snd r.
Proof.
  simpl. unfold Api.update_position.
  destruct (get_mac_address_by_shelf_number _ _) as [mac|]; [|now left].
  destruct (negb (position_id_exists _ _ _)); [now left|].
  destruct (negb _); [now left|].
  destruct (leds_exists_exclusive _ _); [now left|].
  destruct (Api.__publish_create_update_position _ _ _ _ _) as [[[code f]| |] mp] eqn:Hp;
    apply publish_create_update_database in Hp as [Hd _]; simpl; auto.
  destruct f; [auto|]. destruct (code =? 200); [|auto].
  destruct (get_shelf_by_shelf_number _ _) as [[i sh]|] eqn:Hs; [|auto].
  apply get_shelf_by_shelf_number_Some in Hs as [Hn Hi].
  unfold Api.with_dm. rewrite Hd.
  destruct (update_position i sp (Mqtt.data_manager m)) as [[ok dm1]|] eqn:Ha;
    simpl; [|auto].
  right. exists i, sh, (ok, dm1). split; [exact Hi|]. split; [now rewrite Hn|].
  split; [exact Ha|]. destruct ok; reflexivity.
Qed.

Lemma delete_position_effect n pid e m :
  let dm := Mqtt.data_manager m in
  let dm' := Mqtt.data_manager (snd (Api.delete_position n pid e m)) in
  dm' = dm \/ exists i p, dm' = snd (delete_position i p dm).
Proof.
  simpl. unfold Api.delete_position.
  destruct (get_mac_address_by_shelf_number _ _) as [mac|]; [|now left].
  destruct (negb (position_id_exists _ _ _)); [now left|].
  destruct (get_shelf_by_shelf_number _ _) as [[i sh]|]; [|now left].
  destruct (_ || _); [now left|].
  destruct (get_position_by_shelf_number_and_position_id _ _ _)
    as [[[i' j] pos]|]; [|now left].
  destruct (bytearray _) as [payload|]; [|now left].
  destruct (Mqtt.publish_with_ack _ _ _ _ _ _ _) as [[code| |] mp] eqn:Hp;
    apply publish_with_ack_keeps_database in Hp; simpl; auto.
  destruct (code =? 504); [auto|]. destruct (code =? 200); [|auto].
  unfold Api.with_dm. rewrite Hp.
  destruct (delete_position i pos (Mqtt.data_manager m)) as [ok dm1] eqn:Ha. simpl.
  right. exists i, pos. rewrite Ha. destruct ok; reflexivity.
Qed.

Lemma delete_shelf_effect n e m :
  let dm := Mqtt.data_manager m in
  let dm' := Mqtt.data_manager (snd (Api.delete_shelf n e m)) in
  dm' = dm \/ exists n', dm' = snd (delete_shelf_by_shelf_number n' dm).
Proof.
  simpl. unfold Api.delete_shelf.
  destruct (get_shelf_by_shelf_number _ _) as [[i sh]|]; [|now left].
  destruct (negb _); [now left|]. simpl.
  destruct (Mqtt.publish_with_ack _ _ _ _ _ _ _) as [[code| |] mp] eqn:Hp;
    apply publish_with_ack_keeps_database in Hp; simpl; auto.
  destruct (code =? 504); [auto|]. destruct (code =? 200); [|auto].
  unfold Api.with_dm. rewrite Hp.
  destruct (delete_shelf_by_shelf_number _ _) as [ok dm1] eqn:Ha. simpl.
  right. eexists. rewrite Ha. destruct ok; reflexivity.
Qed.

Lemma create_shelf_effect shelf m :
  let dm := Mqtt.data_manager m in
  let dm' := Mqtt.data_manager (snd (Api.create_shelf shelf m)) in
  dm' = dm \/ dm' = snd (add_shelf shelf dm).
Proof.
  simpl. unfold Api.create_shelf.
  destruct (shelf_exists _ _); [now left|].
  destruct (negb _); [now left|].
  destruct (get_esp32_by_mac_address _ _) as [[i esp32]|]; [|now left].
  destruct (ESP32.isUsed esp32); [now left|].
  unfold Api.with_dm.
  destruct (add_shelf shelf (Mqtt.data_manager m)) as [ok dm1]. simpl.
  right. destruct ok; reflexivity.
Qed.

Lemma config_put_effect msg m :
  let dm := Mqtt.data_manager m in
  let dm' := Mqtt.data_manager (Mqtt.config_put msg m) in
  dm' = dm \/
  exists i sh sp, shelves dm !! i = Some sh /\
                  ShelfPosition.ShelfNumber sp = Shelf.ShelfNumber sh /\
                  dm' = snd (add_position i sp dm).
Proof.
  simpl. unfold Mqtt.config_put.
  destruct (_ !! 1%nat) as [mac|]; [|now left].
  destruct (get_shelf_by_mac_address _ _) as [[i sh]|] eqn:Hs; [|now left].
  apply get_shelf_by_mac_address_Some in Hs as [_ Hi].
  destruct (Mqtt.payload msg) as [|pid leds]; [now left|].
  destruct (bool_decide _); [now left|].
  right. exists i, sh, (ShelfPosition.mk (Shelf.ShelfNumber sh) pid leds).
  split; [exact Hi|]. split; reflexivity.
Qed.

Lemma receive_register_effect mac m :
  let dm := Mqtt.data_manager m in
  let dm' := Mqtt.data_manager (Mqtt.receive_register mac m) in
  dm' = dm \/
  (exists i, dm' = save_data (assign_esp32 i (with_isOnline true) dm)) \/
  dm' = snd (add_esp32 (ESP32.mk mac false true) dm).
Proof.
  simpl. unfold Mqtt.receive_register.
  destruct (mac_address_exists _ _); [|auto].
  destruct (get_esp32_by_mac_address _ _) as [[i esp32]|]; [|auto].
  right. left. exists i. reflexivity.
Qed.

Lemma config_offline_effect msg m :
  let dm := Mqtt.data_manager m in
  let dm' := Mqtt.data_manager (Mqtt.config_offline msg m) in
  dm' = dm \/ exists i, dm' = save_data (assign_esp32 i (with_isOnline false) dm).
Proof.
  simpl. unfold Mqtt.config_offline.
  destruct (_ !! 1%nat) as [mac|]; [|auto].
  destruct (mac_address_exists _ _); [|auto].
  destruct (get_esp32_by_mac_address _ _) as [[i esp32]|]; [|auto].
  right. exists i. reflexivity.
Qed.

Lemma publish_get_database mac e m o m1 :
  Api.publish_get mac e m = (o, m1) -> Mqtt.data_manager m1 = Mqtt.data_manager m.
Proof.
  unfold Api.publish_get. simpl.
  destruct (Mqtt.publish_with_ack _ _ _ _ _ _ _) as [[code| |] mp] eqn:Hp;
    apply publish_with_ack_keeps_database in Hp; simpl;
    repeat case_match; intros [= <- <-]; exact Hp.
Qed.

End Effects.

(** [get_esp32_config] is made of [delete_shelf_by_shelf_number],
    [add_shelf] of a shelf without positions, the two assignments to
    [isUsed], and a publish.  The assignment [esp32.isUsed = False] is
    reached only for a shelf number that does not exist, on the database
    of the request. *)
Lemma get_esp32_config_preserves (P : DataManager.t -> Prop) mac n e m :
  (forall dm k, P dm -> P (snd (DataManager.delete_shelf_by_shelf_number k dm))) ->
  (forall dm sh, Shelf.Positions sh = [] -> P dm -> P (snd (DataManager.add_shelf sh dm))) ->
  (forall dm i, P dm -> P (DataManager.assign_esp32 i (with_isUsed true) dm)) ->
  (forall i esp32 m0,
      Mqtt.data_manager m0 = Mqtt.data_manager m ->
      DataManager.get_esp32_by_mac_address (Mqtt.data_manager m) mac = Some (i, esp32) ->
      DataManager.shelf_exists (Mqtt.data_manager m) n = false ->
      P (Mqtt.data_manager (Api.clear_isUsed i m0))) ->
  P (Mqtt.data_manager m) ->
  P (Mqtt.data_manager (snd (Api.get_esp32_config mac n e m))).
Proof.
  intros Hdel Hadd Hset Hclear HP.
  unfold Api.get_esp32_config.
  destruct (negb _); [exact HP|].
  destruct (DataManager.get_esp32_by_mac_address _ _) as [[i esp32]|] eqn:Hesp;
    [|exact HP].
  assert (Hnew : forall m0, Mqtt.data_manager m0 = Mqtt.data_manager m ->
             P (Mqtt.data_manager (snd (Api.get_esp32_config_new_shelf i mac n e m0)))).
  { intros m0 H0. unfold Api.get_esp32_config_new_shelf. rewrite H0.
    destruct (DataManager.shelf_exists _ _) eqn:He; simpl; [now rewrite H0|].
    pose proof (Hclear i esp32 m0 H0 eq_refl eq_refl) as Hc.
    set (mc := Api.clear_isUsed i m0) in *. clearbody mc.
    unfold Api.with_dm.
    pose proof (Hadd _ (Shelf.mk n mac []) eq_refl Hc) as Ha.
    destruct (DataManager.add_shelf _ (Mqtt.data_manager mc)) as [ok dma]. simpl in *.
    assert (Hr : forall mr, P (Mqtt.data_manager mr) ->
               P (Mqtt.data_manager (Api.restore_isUsed i mr))).
    { intros mr Hmr. unfold Api.restore_isUsed.
      destruct (negb _); [apply Hset|]; exact Hmr. }
    destruct ok; [|apply Hr; exact Ha].
    destruct (Api.publish_get mac e _) as [[[code|]| |] mp] eqn:Hp;
      apply publish_get_database in Hp; simpl in *; rewrite <-Hp in Ha;
      [exact Ha|apply Hr; exact Ha|exact Ha|exact Ha]. }
  destruct (bool_decide _); [|apply Hnew; reflexivity].
  unfold Api.with_dm.
  pose proof (Hdel _ n HP) as Hd.
  destruct (DataManager.delete_shelf_by_shelf_number n _) as [deleted dmd] eqn:Hdd.
  simpl in *.
  destruct deleted.
  - pose proof (Hadd _ (Shelf.mk n mac []) eq_refl Hd) as Ha.
    destruct (DataManager.add_shelf _ dmd) as [ok dma]. simpl in *.
    destruct ok; [|exact Ha].
    destruct (Api.publish_get mac e _) as [[[code|]| |] mp] eqn:Hp;
      apply publish_get_database in Hp; simpl in *; rewrite <-Hp in Ha; exact Ha.
  - apply Hnew. simpl.
    unfold DataManager.delete_shelf_by_shelf_number in Hdd.
    repeat case_match; simplify_eq; reflexivity.
Qed.

(** ** Positions of a shelf: what the checks maintain *)

Section Positions.
Import DataManager.

Lemma shares_led_true leds p :
  shares_led leds p = true <-> exists led, led ∈ leds /\ led ∈ ShelfPosition.LEDs p.
Proof.
  unfold shares_led. rewrite existsb_exists. split.
  - intros (led & Hin & H). exists led. split; [now apply list_elem_of_In|].
    now apply py_in_true.
  - intros (led & Hin & H). exists led. split; [now apply list_elem_of_In|].
    now apply py_in_true.
Qed.

Lemma shares_led_sym p p' :
  shares_led (ShelfPosition.LEDs p) p' = shares_led (ShelfPosition.LEDs p') p.
Proof.
  apply eq_true_iff_eq. rewrite !shares_led_true.
  split; intros (led & ? & ?); exists led; auto.
Qed.

(** [leds_disjoint] says what the claim says: two different entries of
    the list share no LED. *)
Lemma leds_disjoint_lookup ps :
  leds_disjoint ps = true <->
  forall j k pj pk, j <> k -> ps !! j = Some pj -> ps !! k = Some pk ->
                    shares_led (ShelfPosition.LEDs pj) pk = false.
Proof.
  induction ps as [|p ps IH]; simpl.
  - split; [intros _ j k pj pk _ H; discriminate H|reflexivity].
  - rewrite andb_true_iff, IH, forallb_forall. split.
    + intros [Hp Hps] [|j] [|k] pj pk Hne Hj Hk; simpl in *; simplify_eq.
      * apply negb_true_iff, Hp, list_elem_of_In. eapply list_elem_of_lookup_2, Hk.
      * rewrite shares_led_sym.
        apply negb_true_iff, Hp, list_elem_of_In. eapply list_elem_of_lookup_2, Hj.
      * eapply (Hps j k); eauto.
    + intros H. split.
      * intros p' Hin. apply list_elem_of_In, list_elem_of_lookup in Hin as [k Hk].
        apply negb_true_iff. apply (H 0%nat (S k)); auto.
      * intros j k pj pk Hne Hj Hk. apply (H (S j) (S k)); auto.
Qed.

Lemma leds_disjoint_snoc ps p :
  leds_disjoint ps = true ->
  (forall p', p' ∈ ps -> shares_led (ShelfPosition.LEDs p) p' = false) ->
  leds_disjoint (ps ++ [p]) = true.
Proof.
  intros Hps Hp. induction ps as [|p0 ps IH]; [reflexivity|].
  simpl in *. apply andb_true_iff in Hps as [H0 Hps].
  apply andb_true_iff. split.
  - rewrite forallb_app. apply andb_true_iff. split; [exact H0|].
    simpl. rewrite shares_led_sym, Hp; [reflexivity|left].
  - apply IH; [exact Hps|]. intros p' Hin. apply Hp. now right.
Qed.

Lemma leds_disjoint_remove ps1 p ps2 :
  leds_disjoint (ps1 ++ p :: ps2) = true -> leds_disjoint (ps1 ++ ps2) = true.
Proof.
  induction ps1 as [|p0 ps1 IH]; simpl.
  - intros H. now apply andb_true_iff in H as [_ H].
  - rewrite !andb_true_iff, !forallb_app. simpl. rewrite !andb_true_iff.
    intros [(? & ? & ?) ?]. auto.
Qed.

Lemma shelf_exists_true dm n :
  shelf_exists dm n = true <-> exists sh, sh ∈ shelves dm /\ Shelf.ShelfNumber sh = n.
Proof.
  unfold shelf_exists. rewrite existsb_exists. split.
  - intros (sh & Hin & H). exists sh. apply bool_decide_eq_true in H.
    split; [now apply list_elem_of_In|auto].
  - intros (sh & Hin & H). exists sh. split; [now apply list_elem_of_In|].
    now apply bool_decide_eq_true.
Qed.

(** With pairwise different shelf numbers, the shelf the database
    returns for the number of a shelf is that shelf. *)
Lemma get_shelf_by_own_number dm i sh :
  NoDup (Shelf.ShelfNumber <$> shelves dm) ->
  shelves dm !! i = Some sh ->
  get_shelf_by_shelf_number dm (Shelf.ShelfNumber sh) = Some (i, sh).
Proof.
  intros Hnd Hi. unfold get_shelf_by_shelf_number.
  assert (He : shelf_exists dm (Shelf.ShelfNumber sh) = true).
  { apply shelf_exists_true. exists sh. split; [|reflexivity].
    eapply list_elem_of_lookup_2, Hi. }
  rewrite He. simpl. apply list_find_Some. split; [exact Hi|]. split; [reflexivity|].
  intros j y Hj Hlt Heq.
  assert (j = i); [|lia].
  eapply (NoDup_lookup _ j i (Shelf.ShelfNumber sh) Hnd);
    rewrite list_lookup_fmap; [rewrite Hj|rewrite Hi]; simpl; congruence.
Qed.

Lemma position_id_exists_false dm i sh pid :
  shelves dm !! i = Some sh ->
  position_id_exists dm (Shelf.ShelfNumber sh) pid = false ->
  pid ∉ position_ids sh.
Proof.
  intros Hi H Hin. unfold position_id_exists in H.
  assert (He : shelf_exists dm (Shelf.ShelfNumber sh) = true).
  { apply shelf_exists_true. exists sh. split; [|reflexivity].
    eapply list_elem_of_lookup_2, Hi. }
  rewrite He in H. simpl in H.
  apply not_true_iff_false in H. apply H. apply existsb_exists.
  exists sh. split; [eapply list_elem_of_In, list_elem_of_lookup_2, Hi|].
  apply andb_true_iff. split; [now apply bool_decide_eq_true|].
  apply existsb_exists. unfold position_ids in Hin.
  apply list_elem_of_fmap in Hin as (p & -> & Hp).
  exists p. split; [now apply list_elem_of_In|now apply bool_decide_eq_true].
Qed.

Lemma get_positions_by_own_number dm i sh :
  NoDup (Shelf.ShelfNumber <$> shelves dm) ->
  shelves dm !! i = Some sh ->
  get_positions_by_shelf_number dm (Shelf.ShelfNumber sh) = Some (Shelf.Positions sh).
Proof.
  intros Hnd Hi. unfold get_positions_by_shelf_number.
  rewrite (get_shelf_by_own_number _ _ _ Hnd Hi).
  destruct (negb _) eqn:E; [|reflexivity].
  apply negb_true_iff in E.
  assert (shelf_exists dm (Shelf.ShelfNumber sh) = true); [|congruence].
  apply shelf_exists_true. exists sh. split; [|reflexivity].
  eapply list_elem_of_lookup_2, Hi.
Qed.

Lemma leds_exists_false dm i sh leds :
  NoDup (Shelf.ShelfNumber <$> shelves dm) ->
  shelves dm !! i = Some sh ->
  leds_exists dm leds (Shelf.ShelfNumber sh) = false ->
  forall p, p ∈ Shelf.Positions sh -> shares_led leds p = false.
Proof.
  intros Hnd Hi H p Hp. unfold leds_exists in H.
  rewrite (get_positions_by_own_number _ _ _ Hnd Hi) in H.
  destruct (negb _) eqn:E.
  { apply negb_true_iff in E.
    assert (shelf_exists dm (Shelf.ShelfNumber sh) = true); [|congruence].
    apply shelf_exists_true. exists sh. split; [|reflexivity].
    eapply list_elem_of_lookup_2, Hi. }
  destruct (Shelf.Positions sh) as [|p0 ps] eqn:Eps; [inversion Hp|].
  apply not_true_iff_false. intros Hs. apply not_true_iff_false in H. apply H.
  apply existsb_exists. exists p. split; [now apply list_elem_of_In|exact Hs].
Qed.

Lemma leds_exists_exclusive_false dm i sh sp :
  NoDup (Shelf.ShelfNumber <$> shelves dm) ->
  shelves dm !! i = Some sh ->
  ShelfPosition.ShelfNumber sp = Shelf.ShelfNumber sh ->
  position_id_exists dm (Shelf.ShelfNumber sh) (ShelfPosition.PositionId sp) = true ->
  leds_exists_exclusive dm sp = false ->
  forall p, p ∈ Shelf.Positions sh ->
            ShelfPosition.PositionId p <> ShelfPosition.PositionId sp ->
            shares_led (ShelfPosition.LEDs sp) p = false.
Proof.
  intros Hnd Hi Hn Hpid H p Hp Hne. unfold leds_exists_exclusive in H.
  rewrite Hn, Hpid in H.
  rewrite (get_positions_by_own_number _ _ _ Hnd Hi) in H.
  destruct (negb _) eqn:E.
  { apply negb_true_iff in E.
    assert (shelf_exists dm (Shelf.ShelfNumber sh) = true); [|congruence].
    apply shelf_exists_true. exists sh. split; [|reflexivity].
    eapply list_elem_of_lookup_2, Hi. }
  simpl in H.
  destruct (Shelf.Positions sh) as [|p0 ps] eqn:Eps; [inversion Hp|].
  apply not_true_iff_false. intros Hs. apply not_true_iff_false in H. apply H.
  apply existsb_exists. exists p. split; [now apply list_elem_of_In|].
  rewrite bool_decide_eq_false_2 by exact Hne. exact Hs.
Qed.

(** [add_position] on a shelf of the database, for a position that names
    that shelf, keeps the property. *)
Lemma add_position_ok dm i sh sp :
  positions_ok dm ->
  shelves dm !! i = Some sh ->
  ShelfPosition.ShelfNumber sp = Shelf.ShelfNumber sh ->
  positions_ok (snd (add_position i sp dm)).
Proof.
  intros [Hnd Hok] Hi Hn. unfold add_position. rewrite Hi, Hn.
  destruct (negb _); [split; assumption|].
  destruct (position_id_exists _ _ _) eqn:Hpid; [split; assumption|].
  destruct (_ || _); [split; assumption|].
  destruct (bool_decide _); [split; assumption|].
  destruct (leds_exists _ _ _) eqn:Hleds; [split; assumption|].
  simpl. unfold positions_ok, shelves. simpl. fold (shelves dm).
  pose proof (Forall_lookup_1 _ _ _ _ Hok Hi) as [Hids Hdis].
  split.
  - rewrite list_fmap_insert. simpl. rewrite list_insert_id; [exact Hnd|].
    now rewrite list_lookup_fmap, Hi.
  - apply Forall_insert; [exact Hok|]. split.
    + unfold position_ids. simpl. rewrite fmap_app. simpl.
      apply NoDup_app. split; [exact Hids|]. split; [|apply NoDup_singleton].
      intros x Hx Hx'. apply list_elem_of_singleton in Hx'. subst x.
      revert Hx. eapply position_id_exists_false; eauto.
    + simpl. apply leds_disjoint_snoc; [exact Hdis|].
      intros p' Hp'. simpl. eapply leds_exists_false; eauto.
Qed.

Lemma update_position_ok dm i sh sp r :
  positions_ok dm ->
  shelves dm !! i = Some sh ->
  ShelfPosition.ShelfNumber sp = Shelf.ShelfNumber sh ->
  update_position i sp dm = Some r ->
  positions_ok (snd r).
Proof.
  intros [Hnd Hok] Hi Hn. unfold update_position. rewrite Hi.
  destruct (negb _); [intros [= <-]; split; assumption|].
  destruct (position_id_exists _ _ _) eqn:Hpid; simpl;
    [|intros [= <-]; split; assumption].
  destruct (bool_decide _); [intros [= <-]; split; assumption|].
  destruct (leds_exists_exclusive _ _) eqn:Hleds; [intros [= <-]; split; assumption|].
  unfold get_position_by_shelf_number_and_position_id.
  rewrite (get_shelf_by_own_number _ _ _ Hnd Hi).
  destruct (negb _); [discriminate|].
  destruct (list_find _ _) as [[j pos]|] eqn:Hfind; [|discriminate].
  intros [= <-]. simpl.
  apply list_find_Some in Hfind as (Hj & Hid & _).
  pose proof (Forall_lookup_1 _ _ _ _ Hok Hi) as [Hids Hdis].
  unfold positions_ok, shelves. simpl. fold (shelves dm). split.
  - erewrite list_fmap_alter with (h := id).
    + now rewrite list_alter_id.
    + apply Forall_forall. intros x _. reflexivity.
  - apply Forall_alter; [exact Hok|]. intros x Hx _.
    rewrite Hi in Hx. injection Hx as <-. split.
    + unfold position_ids. simpl. rewrite list_fmap_insert. simpl.
      rewrite list_insert_id; [exact Hids|].
      now rewrite list_lookup_fmap, Hj.
    + simpl. apply leds_disjoint_lookup.
      assert (Hothers : forall k pk, k <> j -> Shelf.Positions sh !! k = Some pk ->
                 shares_led (ShelfPosition.LEDs sp) pk = false).
      { intros k pk Hk Hpk.
        eapply leds_exists_exclusive_false; eauto.
        - eapply list_elem_of_lookup_2, Hpk.
        - intros Heq. apply Hk.
          eapply (NoDup_lookup _ k j (ShelfPosition.PositionId pk) Hids);
            unfold position_ids; rewrite list_lookup_fmap;
            [rewrite Hpk|rewrite Hj]; simpl; congruence. }
      pose proof (proj1 (leds_disjoint_lookup _) Hdis) as Hold.
      intros a b pa pb Hab Ha Hb.
      apply list_lookup_insert_Some in Ha as [(Hja & <- & _)|(Hja & Ha)];
        apply list_lookup_insert_Some in Hb as [(Hjb & <- & _)|(Hjb & Hb)];
        try congruence; simpl.
      * apply (Hothers b pb); [congruence|exact Hb].
      * rewrite shares_led_sym. simpl. apply (Hothers a pa); [congruence|exact Ha].
      * apply (Hold a b pa pb); assumption.
Qed.

Lemma delete_position_ok dm i sp :
  positions_ok dm -> positions_ok (snd (delete_position i sp dm)).
Proof.
  intros [Hnd Hok]. unfold delete_position.
  destruct (shelves dm !! i) as [sh|] eqn:Hi; [|split; assumption].
  destruct (negb _); [split; assumption|].
  destruct (negb _); [split; assumption|].
  destruct (py_remove _ _) as [rest|] eqn:Hr; [|split; assumption].
  simpl. unfold positions_ok, shelves. simpl. fold (shelves dm).
  pose proof (Forall_lookup_1 _ _ _ _ Hok Hi) as [Hids Hdis].
  assert (Hin : sp ∈ Shelf.Positions sh).
  { destruct (decide (sp ∈ Shelf.Positions sh)) as [|Hn]; [assumption|].
    apply py_remove_None in Hn. congruence. }
  destruct (py_remove_Some _ _ Hin) as (l1 & l2 & Heq & _ & Hr').
  rewrite Hr in Hr'. injection Hr' as ->.
  split.
  - rewrite list_fmap_insert. simpl. rewrite list_insert_id; [exact Hnd|].
    now rewrite list_lookup_fmap, Hi.
  - apply Forall_insert; [exact Hok|]. split.
    + unfold position_ids in *. simpl. rewrite Heq in Hids.
      rewrite fmap_app in *. simpl in Hids.
      apply NoDup_app in Hids as (H1 & H2 & H3).
      apply NoDup_cons in H3 as [_ H3].
      apply NoDup_app. split; [exact H1|]. split; [|exact H3].
      intros x Hx Hx'. apply (H2 x Hx). now right.
    + simpl. rewrite Heq in Hdis. eapply leds_disjoint_remove, Hdis.
Qed.

(** A shelf created without positions keeps the property, and so does
    the removal of a shelf. *)
Lemma add_shelf_ok dm shelf :
  positions_ok dm -> Shelf.Positions shelf = [] ->
  positions_ok (snd (add_shelf shelf dm)).
Proof.
  intros [Hnd Hok] Hempty. unfold add_shelf.
  destruct (shelf_exists _ _) eqn:He; [split; assumption|].
  destruct (get_esp32_by_mac_address _ _) as [[i esp32]|]; [|split; assumption].
  destruct (ESP32.isUsed esp32); [split; assumption|].
  simpl. unfold positions_ok, shelves. simpl. fold (shelves dm). split.
  - rewrite fmap_app. simpl. apply NoDup_app. split; [exact Hnd|].
    split; [|apply NoDup_singleton].
    intros n Hn Hn'. apply list_elem_of_singleton in Hn'. subst n.
    apply list_elem_of_fmap in Hn as (sh & Heq & Hin).
    assert (shelf_exists dm (Shelf.ShelfNumber shelf) = true); [|congruence].
    apply shelf_exists_true. exists sh. auto.
  - apply Forall_app. split; [exact Hok|]. constructor; [|constructor].
    unfold shelf_ok, position_ids. rewrite Hempty. split; [constructor|reflexivity].
Qed.

Lemma delete_shelf_ok dm n :
  positions_ok dm -> positions_ok (snd (delete_shelf_by_shelf_number n dm)).
Proof.
  intros [Hnd Hok]. unfold delete_shelf_by_shelf_number.
  destruct (get_shelf_by_shelf_number _ _) as [[i sh]|]; [|split; assumption].
  destruct (get_mac_address_by_shelf_number _ _); [|split; assumption].
  destruct (get_esp32_by_mac_address _ _) as [[k e]|]; [|split; assumption].
  destruct (py_remove _ _) as [rest|] eqn:Hr; [|split; assumption].
  simpl. unfold positions_ok, shelves. simpl. fold (shelves dm).
  assert (Hin : sh ∈ shelves dm).
  { destruct (decide (sh ∈ shelves dm)) as [|Hn]; [assumption|].
    apply py_remove_None in Hn. congruence. }
  destruct (py_remove_Some _ _ Hin) as (l1 & l2 & Heq & _ & Hr').
  rewrite Hr in Hr'. injection Hr' as ->.
  rewrite Heq in Hnd, Hok. split.
  - rewrite fmap_app in *. simpl in Hnd.
    apply NoDup_app in Hnd as (H1 & H2 & H3).
    apply NoDup_cons in H3 as [_ H3].
    apply NoDup_app. split; [exact H1|]. split; [|exact H3].
    intros x Hx Hx'. apply (H2 x Hx). now right.
  - apply Forall_app in Hok as [H1 H2]. apply Forall_cons in H2 as [_ H2].
    apply Forall_app. auto.
Qed.

End Positions.

(** ** LED sets in the running system *)

Lemma positions_ok_shelves dm dm' :
  DataManager.shelves dm' = DataManager.shelves dm -> positions_ok dm -> positions_ok dm'.
Proof. unfold positions_ok. now intros ->. Qed.

Lemma positions_ok_disjoint dm : positions_ok dm -> all_leds_disjoint dm = true.
Proof.
  intros [_ H]. unfold all_leds_disjoint. apply forallb_forall.
  intros sh Hin. apply list_elem_of_In in Hin.
  rewrite Forall_forall in H. now destruct (H sh Hin).
Qed.

(** Every operation of the system keeps the LED sets of each shelf
    pairwise disjoint, [createShelf] as long as the shelf it is given has
    no positions. *)
Lemma perform_positions_ok op m :
  (forall shelf, op = PUT_createShelf shelf -> Shelf.Positions shelf = []) ->
  positions_ok (Mqtt.data_manager m) ->
  positions_ok (Mqtt.data_manager (perform op m)).
Proof.
  intros Hempty Hok. destruct op; simpl.
  - destruct (receive_register_effect incoming_mac_address m) as [->|[[i ->]| ->]];
      [exact Hok| |].
    + eapply positions_ok_shelves, Hok. reflexivity.
    + eapply positions_ok_shelves, Hok. unfold DataManager.add_esp32.
      now destruct (DataManager.mac_address_exists _ _).
  - destruct (config_offline_effect msg m) as [->|[i ->]]; [exact Hok|].
    eapply positions_ok_shelves, Hok. reflexivity.
  - destruct (config_put_effect msg m) as [->|(i & sh & sp & Hi & Hn & ->)];
      [exact Hok|]. eapply add_position_ok; eauto.
  - destruct (run_callback_frame cb m) as [-> _]. exact Hok.
  - destruct (create_shelf_effect shelf m) as [->| ->]; [exact Hok|].
    apply add_shelf_ok; [exact Hok|]. now apply Hempty.
  - destruct (create_position_effect shelf_position e m)
      as [->|(i & sh & Hi & Hn & ->)]; [exact Hok|]. eapply add_position_ok; eauto.
  - destruct (update_position_effect shelf_position e m)
      as [->|(i & sh & r & Hi & Hn & Hu & ->)]; [exact Hok|].
    eapply update_position_ok; eauto.
  - destruct (delete_position_effect ShelfNumber PositionId e m) as [->|(i & p & ->)];
      [exact Hok|]. now apply delete_position_ok.
  - destruct (delete_shelf_effect ShelfNumber e m) as [->|(n' & ->)];
      [exact Hok|]. now apply delete_shelf_ok.
  - apply get_esp32_config_preserves; [| | | |exact Hok].
    + intros. now apply delete_shelf_ok.
    + intros. now apply add_shelf_ok.
    + intros. eapply positions_ok_shelves; [|eassumption]. reflexivity.
    + intros i esp32 m0 H0 _ _. unfold Api.clear_isUsed.
      destruct (Api.esp32_isUsed i m0); simpl; rewrite H0; [|exact Hok].
      eapply positions_ok_shelves, Hok. reflexivity.
  - now rewrite publish_with_ack_data_manager.
Qed.

(** X27: on a database with pairwise different shelf numbers and, in
    every shelf, pairwise different position ids and pairwise disjoint
    LED lists, every sequence of MQTT callbacks and REST requests in
    which [createShelf] is given shelves without positions leaves the
    LED lists of every shelf pairwise disjoint. *)
Lemma perform_all_positions_ok ops m :
  Forall (fun op => forall shelf, op = PUT_createShelf shelf -> Shelf.Positions shelf = [])
         ops ->
  positions_ok (Mqtt.data_manager m) ->
  all_leds_disjoint (Mqtt.data_manager (perform_all ops m)) = true.
Proof.
  intros Hops Hok. apply positions_ok_disjoint. revert m Hok.
  induction Hops as [|op ops Hop Hops IH]; intros m Hok; [exact Hok|].
  simpl. apply IH. now apply perform_positions_ok.
Qed.

Lemma fresh_positions_ok : positions_ok (Mqtt.data_manager fresh_mqtt).
Proof. split; constructor. Qed.

Lemma perform_all_positions_ok_witness :
  all_leds_disjoint
    (Mqtt.data_manager
       (perform_all [On_register mac1; PUT_createShelf (Shelf.mk 7 mac1 []);
                     PUT_createPosition position3 acked;
                     PUT_createPosition (ShelfPosition.mk 7 4 [20; 30]) acked]
          fresh_mqtt)) = true.
Proof.
  apply (perform_all_positions_ok
           [On_register mac1; PUT_createShelf (Shelf.mk 7 mac1 []);
            PUT_createPosition position3 acked;
            PUT_createPosition (ShelfPosition.mk 7 4 [20; 30]) acked]
           fresh_mqtt).
  - repeat constructor; intros shelf H; try discriminate H.
    now injection H as <-.
  - apply fresh_positions_ok.
Defined.

(** C2 at [PUT /light/createShelf] with a shelf that carries two
    positions on LED 10: [add_shelf] stores the positions as they come.
    [add_position] checks the LEDs against the shelf named by the
    position, not against the shelf it appends to. *)
Theorem create_shelf_overlapping_leds :
  let m' := snd (Api.create_shelf overlapping_shelf registered) in
  all_leds_disjoint (Mqtt.data_manager registered) = true /\
  fst (Api.create_shelf overlapping_shelf registered) = Returned 200 /\
  DataManager.shelves (Mqtt.data_manager m') = [overlapping_shelf] /\
  all_leds_disjoint (Mqtt.data_manager m') = false /\
  let r := DataManager.add_position 0 (ShelfPosition.mk 99 4 [20])
             (Mqtt.data_manager with_position3) in
  fst r = true /\ all_leds_disjoint (snd r) = false.
Proof. vm_compute. repeat split; reflexivity. Qed.

(** ** The isUsed flags (C7): operations that leave them alone *)

Section Flags.
Import DataManager.

Lemma used_flags_esp32s dm dm' : esp32s dm' = esp32s dm -> used_flags dm' = used_flags dm.
Proof. unfold used_flags. now intros ->. Qed.

Lemma esp32s_assign_esp32 i f dm :
  esp32s (assign_esp32 i f dm) = alter f i (esp32s dm).
Proof. reflexivity. Qed.

Lemma shelves_assign_esp32 i f dm : shelves (assign_esp32 i f dm) = shelves dm.
Proof. reflexivity. Qed.

Lemma used_flags_assign_isOnline i b dm :
  used_flags (assign_esp32 i (with_isOnline b) dm) = used_flags dm.
Proof.
  unfold used_flags. rewrite esp32s_assign_esp32.
  erewrite list_fmap_alter with (h := id).
  - now rewrite list_alter_id.
  - apply Forall_forall. intros x _. reflexivity.
Qed.

Lemma used_flags_add_position i sp dm :
  used_flags (snd (add_position i sp dm)) = used_flags dm.
Proof. unfold add_position. repeat case_match; reflexivity. Qed.

Lemma used_flags_update_position i sp dm r :
  update_position i sp dm = Some r -> used_flags (snd r) = used_flags dm.
Proof.
  unfold update_position. intros H. repeat case_match; simplify_eq; reflexivity.
Qed.

Lemma used_flags_delete_position i sp dm :
  used_flags (snd (delete_position i sp dm)) = used_flags dm.
Proof. unfold delete_position. repeat case_match; reflexivity. Qed.

Lemma used_flags_add_esp32 esp32 dm :
  used_flags (snd (add_esp32 esp32 dm)) = used_flags dm \/
  used_flags (snd (add_esp32 esp32 dm))
  = used_flags dm ++ [(ESP32.Mac_Address esp32, ESP32.isUsed esp32)].
Proof.
  unfold add_esp32. destruct (mac_address_exists _ _); [now left|].
  right. unfold used_flags.
  change (esp32s (snd (true, save_data (set_esp32s (esp32s dm ++ [esp32]) dm))))
    with (esp32s dm ++ [esp32]).
  now rewrite fmap_app.
Qed.

Lemma used_flags_set_all_esp32s_offline dm :
  used_flags (set_all_esp32s_offline dm) = used_flags dm.
Proof.
  unfold set_all_esp32s_offline, used_flags.
  destruct (esp32s dm) as [|e l] eqn:E; [now rewrite E|].
  change (esp32s (set_esp32s ?x dm)) with x.
  rewrite <-list_fmap_compose. reflexivity.
Qed.

(** X28: every operation of the system other than the three routes
    that call [add_shelf] or [delete_shelf_by_shelf_number] leaves the
    [isUsed] flag of every ESP32 as it is; a registration may append an
    ESP32. *)
Lemma perform_keeps_isUsed op m :
  (forall shelf, op <> PUT_createShelf shelf) ->
  (forall n e, op <> DELETE_deleteShelf n e) ->
  (forall mac n e, op <> GET_getESP32 mac n e) ->
  used_flags (Mqtt.data_manager m) `prefix_of`
  used_flags (Mqtt.data_manager (perform op m)).
Proof.
  intros H1 H2 H3.
  destruct op; cbn [perform];
    try solve [ exfalso; eapply H1; reflexivity
              | exfalso; eapply H2; reflexivity
              | exfalso; eapply H3; reflexivity ].
  - destruct (receive_register_effect incoming_mac_address m) as [->|[[i ->]| ->]].
    + reflexivity.
    + change (used_flags (save_data ?x)) with (used_flags x).
      now rewrite used_flags_assign_isOnline.
    + destruct (used_flags_add_esp32 (ESP32.mk incoming_mac_address false true)
                  (Mqtt.data_manager m)) as [-> | ->];
        [reflexivity|apply prefix_app_r; reflexivity].
  - destruct (config_offline_effect msg m) as [->|[i ->]]; [reflexivity|].
    change (used_flags (save_data ?x)) with (used_flags x).
    now rewrite used_flags_assign_isOnline.
  - destruct (config_put_effect msg m) as [->|(i & sh & sp & _ & _ & ->)];
      [reflexivity|]. now rewrite used_flags_add_position.
  - destruct (run_callback_frame cb m) as [-> _]. reflexivity.
  - destruct (create_position_effect shelf_position e m)
      as [->|(i & sh & _ & _ & ->)]; [reflexivity|].
    now rewrite used_flags_add_position.
  - destruct (update_position_effect shelf_position e m)
      as [->|(i & sh & r & _ & _ & Hu & ->)]; [reflexivity|].
    now rewrite (used_flags_update_position _ _ _ _ Hu).
  - destruct (delete_position_effect ShelfNumber PositionId e m) as [->|(i & p & ->)];
      [reflexivity|]. now rewrite used_flags_delete_position.
  - now rewrite publish_with_ack_data_manager.
Qed.

Lemma perform_keeps_isUsed_witness :
  used_flags (Mqtt.data_manager with_shelf7) `prefix_of`
  used_flags (Mqtt.data_manager (perform (PUT_createPosition position3 acked) with_shelf7)).
Proof.
  apply (perform_keeps_isUsed (PUT_createPosition position3 acked) with_shelf7);
    intros; discriminate.
Defined.

End Flags.

(** C7 at [GET /light/getESP32] for a device that is assigned to shelf 7
    and a shelf number, 8, that does not exist: the flag of the device is
    [True] before the request; the handler's own assignment
    [esp32.isUsed = False] changes it, outside [add_shelf] and
    [delete_shelf_by_shelf_number]; on the state of the request
    [add_shelf] refuses the shelf, after the assignment it accepts it. *)
Theorem get_esp32_config_writes_isUsed :
  let dm := Mqtt.data_manager with_shelf7 in
  let cleared := Api.clear_isUsed 0 with_shelf7 in
  used_flags dm = [(mac1, true)] /\
  used_flags (Mqtt.data_manager cleared) = [(mac1, false)] /\
  fst (DataManager.add_shelf (Shelf.mk 8 mac1 []) dm) = false /\
  fst (DataManager.add_shelf (Shelf.mk 8 mac1 []) (Mqtt.data_manager cleared)) = true /\
  Api.get_esp32_config mac1 8 acked with_shelf7
  = Api.get_esp32_config_new_shelf 0 mac1 8 acked with_shelf7 /\
  fst (Api.get_esp32_config mac1 8 acked with_shelf7) = Returned 200.
Proof. vm_compute. repeat split; reflexivity. Qed.

(** ** Device assignment in the running system (C1) *)

Section Assignment.
Import DataManager.

Lemma used_flags_lookup dm i :
  used_flags dm !! i
  = (fun e => (ESP32.Mac_Address e, ESP32.isUsed e)) <$> esp32s dm !! i.
Proof. unfold used_flags. apply list_lookup_fmap. Qed.

Lemma get_esp32_by_mac_address_Some dm mac i e :
  get_esp32_by_mac_address dm mac = Some (i, e) ->
  esp32s dm !! i = Some e /\ ESP32.Mac_Address e = mac.
Proof.
  unfold get_esp32_by_mac_address. destruct (negb _); [discriminate|].
  intros H. apply list_find_Some in H as (? & ? & _). auto.
Qed.

Lemma mac_address_exists_true dm mac :
  mac_address_exists dm mac = true <-> mac ∈ fst <$> used_flags dm.
Proof.
  unfold mac_address_exists, used_flags. rewrite existsb_exists.
  rewrite <-list_fmap_compose. split.
  - intros (e & Hin & H). apply bool_decide_eq_true in H. subst mac.
    apply list_elem_of_fmap. exists e. split; [reflexivity|now apply list_elem_of_In].
  - intros H. apply list_elem_of_fmap in H as (e & -> & Hin).
    exists e. split; [now apply list_elem_of_In|now apply bool_decide_eq_true].
Qed.

Lemma used_flags_assign_isUsed i b dm :
  used_flags (assign_esp32 i (with_isUsed b) dm) = alter (set_flag b) i (used_flags dm).
Proof.
  unfold used_flags. rewrite esp32s_assign_esp32.
  apply list_fmap_alter. apply Forall_forall. intros x _. reflexivity.
Qed.

Lemma fst_alter_set_flag b i (l : list (string * bool)) :
  fst <$> alter (set_flag b) i l = fst <$> l.
Proof.
  erewrite list_fmap_alter with (h := id).
  - now rewrite list_alter_id.
  - apply Forall_forall. intros x _. reflexivity.
Qed.

(** With pairwise different keys, a key has one flag. *)
Lemma flag_unique (l : list (string * bool)) i x a b :
  NoDup (fst <$> l) -> l !! i = Some (x, a) -> (x, b) ∈ l -> b = a.
Proof.
  intros Hnd Hi Hin. apply list_elem_of_lookup in Hin as [j Hj].
  assert (j = i); [|congruence].
  eapply (NoDup_lookup _ j i x Hnd); rewrite list_lookup_fmap;
    [rewrite Hj|rewrite Hi]; reflexivity.
Qed.

Lemma elem_alter_set_true (l : list (string * bool)) i x :
  (x, true) ∈ l -> (x, true) ∈ alter (set_flag true) i l.
Proof.
  intros Hin. apply list_elem_of_lookup in Hin as [j Hj].
  apply list_elem_of_lookup. exists j.
  destruct (decide (i = j)) as [->|Hne].
  - now rewrite list_lookup_alter_eq, Hj.
  - now rewrite list_lookup_alter_ne.
Qed.

Lemma elem_alter_other (l : list (string * bool)) i b x y a :
  l !! i = Some (y, a) -> x <> y -> (x, true) ∈ l -> (x, true) ∈ alter (set_flag b) i l.
Proof.
  intros Hi Hne Hin. apply list_elem_of_lookup in Hin as [j Hj].
  apply list_elem_of_lookup. exists j.
  rewrite list_lookup_alter_ne; [exact Hj|]. intros ->. congruence.
Qed.

Lemma assignment_ok_same dm dm' :
  shelf_macs dm' = shelf_macs dm -> used_flags dm' = used_flags dm ->
  assignment_ok dm -> assignment_ok dm'.
Proof. unfold assignment_ok. now intros -> ->. Qed.

Lemma add_shelf_assignment_ok shelf dm :
  assignment_ok dm -> assignment_ok (snd (add_shelf shelf dm)).
Proof.
  intros (Hesp & Hsh & Hused). unfold add_shelf.
  destruct (shelf_exists _ _); [repeat split; assumption|].
  destruct (get_esp32_by_mac_address _ _) as [[i e]|] eqn:Hg; [|repeat split; assumption].
  destruct (ESP32.isUsed e) eqn:Hu; [repeat split; assumption|].
  apply get_esp32_by_mac_address_Some in Hg as [Hi Hmac].
  assert (Hflag : used_flags dm !! i = Some (Shelf.Mac_Address shelf, false)).
  { rewrite used_flags_lookup, Hi. simpl. now rewrite Hmac, Hu. }
  set (dm1 := assign_esp32 i (with_isUsed true) dm).
  assert (Hf' : used_flags (snd (true, save_data (set_shelves (shelves dm1 ++ [shelf]) dm1)))
                = alter (set_flag true) i (used_flags dm)).
  { rewrite <-used_flags_assign_isUsed. reflexivity. }
  assert (Hs' : shelf_macs (snd (true, save_data (set_shelves (shelves dm1 ++ [shelf]) dm1)))
                = shelf_macs dm ++ [Shelf.Mac_Address shelf]).
  { unfold shelf_macs.
    change (shelves (snd (true, save_data (set_shelves (shelves dm1 ++ [shelf]) dm1))))
      with (shelves dm ++ [shelf]).
    now rewrite fmap_app. }
  unfold assignment_ok. rewrite Hf', Hs', fst_alter_set_flag.
  split; [exact Hesp|]. split.
  - apply NoDup_app. split; [exact Hsh|]. split; [|apply NoDup_singleton].
    intros x Hx Hx'. apply list_elem_of_singleton in Hx'. subst x.
    pose proof (flag_unique _ _ _ _ _ Hesp Hflag (Hused _ Hx)). discriminate.
  - intros x Hx. apply elem_of_app in Hx as [Hx|Hx].
    + apply elem_alter_set_true. now apply Hused.
    + apply list_elem_of_singleton in Hx. subst x.
      apply list_elem_of_lookup. exists i.
      now rewrite list_lookup_alter_eq, Hflag.
Qed.

Lemma get_mac_of_found_shelf dm n k sh :
  get_shelf_by_shelf_number dm n = Some (k, sh) ->
  get_mac_address_by_shelf_number dm n = Some (Shelf.Mac_Address sh).
Proof.
  unfold get_shelf_by_shelf_number, get_mac_address_by_shelf_number.
  destruct (negb _); [discriminate|]. now intros ->.
Qed.

Lemma delete_shelf_assignment_ok n dm :
  assignment_ok dm -> assignment_ok (snd (delete_shelf_by_shelf_number n dm)).
Proof.
  intros (Hesp & Hsh & Hused). unfold delete_shelf_by_shelf_number.
  destruct (get_shelf_by_shelf_number _ _) as [[k sh]|] eqn:Hg;
    [|repeat split; assumption].
  rewrite (get_mac_of_found_shelf _ _ _ _ Hg).
  destruct (get_esp32_by_mac_address _ _) as [[i e]|] eqn:He;
    [|repeat split; assumption].
  destruct (py_remove _ _) as [rest|] eqn:Hr; [|repeat split; assumption].
  apply get_esp32_by_mac_address_Some in He as [Hi Hmac].
  assert (Hin : sh ∈ shelves dm).
  { destruct (decide (sh ∈ shelves dm)) as [|Hn]; [assumption|].
    apply py_remove_None in Hn. congruence. }
  destruct (py_remove_Some _ _ Hin) as (l1 & l2 & Heq & _ & Hr').
  rewrite Hr in Hr'. injection Hr' as ->.
  assert (Hflag : used_flags dm !! i = Some (Shelf.Mac_Address sh, ESP32.isUsed e)).
  { rewrite used_flags_lookup, Hi. simpl. now rewrite Hmac. }
  set (dm1 := set_shelves (l1 ++ l2) dm).
  assert (Hf' : used_flags (snd (true, save_data (assign_esp32 i (with_isUsed false) dm1)))
                = alter (set_flag false) i (used_flags dm)).
  { change (used_flags (snd (true, save_data (assign_esp32 i (with_isUsed false) dm1))))
      with (used_flags (assign_esp32 i (with_isUsed false) dm1)).
    rewrite used_flags_assign_isUsed. reflexivity. }
  assert (Hs' : shelf_macs (snd (true, save_data (assign_esp32 i (with_isUsed false) dm1)))
                = Shelf.Mac_Address <$> (l1 ++ l2)) by reflexivity.
  unfold assignment_ok. rewrite Hf', Hs', fst_alter_set_flag.
  unfold shelf_macs in Hsh, Hused. rewrite Heq in Hsh, Hused.
  rewrite fmap_app in *. simpl in Hsh.
  apply NoDup_app in Hsh as (H1 & H2 & H3).
  apply NoDup_cons in H3 as [H3 H4].
  split; [exact Hesp|]. split.
  - apply NoDup_app. split; [exact H1|]. split; [|exact H4].
    intros x Hx Hx'. apply (H2 x Hx). now right.
  - intros x Hx.
    assert (Hne : x <> Shelf.Mac_Address sh).
    { intros ->. apply elem_of_app in Hx as [Hx|Hx]; [|contradiction].
      apply (H2 _ Hx). left. }
    eapply elem_alter_other; [exact Hflag|exact Hne|].
    apply Hused. simpl. apply elem_of_app in Hx as [Hx|Hx]; apply elem_of_app;
      [now left|right; now right].
Qed.

Lemma add_esp32_assignment_ok esp32 dm :
  assignment_ok dm -> assignment_ok (snd (add_esp32 esp32 dm)).
Proof.
  intros (Hesp & Hsh & Hused). unfold add_esp32.
  destruct (mac_address_exists _ _) eqn:He; [repeat split; assumption|].
  assert (Hf' : used_flags (snd (true, save_data (set_esp32s (esp32s dm ++ [esp32]) dm)))
                = used_flags dm ++ [(ESP32.Mac_Address esp32, ESP32.isUsed esp32)]).
  { unfold used_flags.
    change (esp32s (snd (true, save_data (set_esp32s (esp32s dm ++ [esp32]) dm))))
      with (esp32s dm ++ [esp32]).
    now rewrite fmap_app. }
  unfold assignment_ok. rewrite Hf'. split; [|split; [exact Hsh|]].
  - rewrite fmap_app. simpl. apply NoDup_app. split; [exact Hesp|].
    split; [|apply NoDup_singleton].
    intros x Hx Hx'. apply list_elem_of_singleton in Hx'. subst x.
    apply mac_address_exists_true in Hx. congruence.
  - intros x Hx. apply elem_of_app. left. now apply Hused.
Qed.

Lemma shelf_macs_insert dm i sh sh' :
  shelves dm !! i = Some sh -> Shelf.Mac_Address sh' = Shelf.Mac_Address sh ->
  Shelf.Mac_Address <$> <[i := sh']> (shelves dm) = shelf_macs dm.
Proof.
  intros Hi Hm. rewrite list_fmap_insert, Hm. apply list_insert_id.
  unfold shelf_macs. now rewrite list_lookup_fmap, Hi.
Qed.

Lemma shelf_macs_add_position i sp dm :
  shelf_macs (snd (add_position i sp dm)) = shelf_macs dm.
Proof.
  unfold add_position. destruct (shelves dm !! i) as [sh|] eqn:Hi; [|reflexivity].
  repeat (case_match; [reflexivity|]).
  refine (shelf_macs_insert dm i sh _ Hi _); reflexivity.
Qed.

Lemma shelf_macs_delete_position i sp dm :
  shelf_macs (snd (delete_position i sp dm)) = shelf_macs dm.
Proof.
  unfold delete_position. destruct (shelves dm !! i) as [sh|] eqn:Hi; [|reflexivity].
  repeat (case_match; try reflexivity).
  refine (shelf_macs_insert dm i sh _ Hi _); reflexivity.
Qed.

Lemma shelf_macs_update_position i sp dm r :
  update_position i sp dm = Some r -> shelf_macs (snd r) = shelf_macs dm.
Proof.
  unfold update_position. intros H.
  repeat case_match; simplify_eq; try reflexivity.
  unfold shelf_macs.
  change (shelves (snd (true, save_data (set_shelves ?l dm)))) with l.
  erewrite list_fmap_alter with (h := id).
  - now rewrite list_alter_id.
  - apply Forall_forall. intros x _. reflexivity.
Qed.

Lemma assign_true_assignment_ok i dm :
  assignment_ok dm -> assignment_ok (assign_esp32 i (with_isUsed true) dm).
Proof.
  intros (Hesp & Hsh & Hused). unfold assignment_ok.
  rewrite used_flags_assign_isUsed, fst_alter_set_flag.
  split; [exact Hesp|]. split; [exact Hsh|].
  intros x Hx. apply elem_alter_set_true. now apply Hused.
Qed.

Lemma filter_mac_nil (l : list Shelf.t) mac :
  mac ∉ Shelf.Mac_Address <$> l ->
  filter (fun shelf => Shelf.Mac_Address shelf = mac) l = [].
Proof.
  intros H.
  destruct (filter (fun shelf => Shelf.Mac_Address shelf = mac) l) as [|x t] eqn:E;
    [reflexivity|].
  assert (Hx : x ∈ filter (fun shelf => Shelf.Mac_Address shelf = mac) l)
    by (rewrite E; left).
  apply list_elem_of_filter in Hx as [Hp Hin]. exfalso. apply H.
  apply list_elem_of_fmap. exists x. auto.
Qed.

(** The invariant gives what C1 asks of a state. *)
Lemma assignment_ok_exclusive dm :
  assignment_ok dm -> exclusive dm = true /\ shelves_registered dm = true.
Proof.
  intros (Hesp & Hsh & Hused). split.
  - unfold exclusive. apply forallb_forall. intros e _.
    apply Nat.leb_le. unfold assigned_shelves, shelf_macs in *.
    revert Hsh. clear. induction (shelves dm) as [|sh l IH]; intros Hnd; [simpl; lia|].
    simpl in Hnd. apply NoDup_cons in Hnd as [Hn Hnd].
    rewrite filter_cons. case_decide as Hm; [|auto].
    rewrite filter_mac_nil; [simpl; lia|]. now rewrite <-Hm.
  - unfold shelves_registered. apply forallb_forall. intros sh Hin.
    apply mac_address_exists_true.
    assert (Hm : Shelf.Mac_Address sh ∈ shelf_macs dm).
    { apply list_elem_of_fmap. exists sh. split; [reflexivity|now apply list_elem_of_In]. }
    apply Hused in Hm. apply list_elem_of_fmap. now exists (Shelf.Mac_Address sh, true).
Qed.

(** Every operation of the system keeps the invariant, except
    [GET /light/getESP32] when it is asked for a shelf number that does
    not exist and a device that is in use. *)
Lemma perform_assignment_ok op m :
  (forall mac n e i esp32,
      op = GET_getESP32 mac n e ->
      get_esp32_by_mac_address (Mqtt.data_manager m) mac = Some (i, esp32) ->
      shelf_exists (Mqtt.data_manager m) n = false ->
      ESP32.isUsed esp32 = false) ->
  assignment_ok (Mqtt.data_manager m) ->
  assignment_ok (Mqtt.data_manager (perform op m)).
Proof.
  intros Hget Hok. destruct op; cbn [perform].
  - destruct (receive_register_effect incoming_mac_address m) as [->|[[i ->]| ->]];
      [exact Hok| |].
    + eapply assignment_ok_same, Hok; [reflexivity|].
      change (used_flags (save_data ?x)) with (used_flags x).
      apply used_flags_assign_isOnline.
    + now apply add_esp32_assignment_ok.
  - destruct (config_offline_effect msg m) as [->|[i ->]]; [exact Hok|].
    eapply assignment_ok_same, Hok; [reflexivity|].
    change (used_flags (save_data ?x)) with (used_flags x).
    apply used_flags_assign_isOnline.
  - destruct (config_put_effect msg m) as [->|(i & sh & sp & _ & _ & ->)];
      [exact Hok|].
    eapply assignment_ok_same, Hok;
      [apply shelf_macs_add_position|apply used_flags_add_position].
  - destruct (run_callback_frame cb m) as [-> _]. exact Hok.
  - destruct (create_shelf_effect shelf m) as [->| ->]; [exact Hok|].
    now apply add_shelf_assignment_ok.
  - destruct (create_position_effect shelf_position e m)
      as [->|(i & sh & _ & _ & ->)]; [exact Hok|].
    eapply assignment_ok_same, Hok;
      [apply shelf_macs_add_position|apply used_flags_add_position].
  - destruct (update_position_effect shelf_position e m)
      as [->|(i & sh & r & _ & _ & Hu & ->)]; [exact Hok|].
    eapply assignment_ok_same, Hok;
      [eapply shelf_macs_update_position, Hu|eapply used_flags_update_position, Hu].
  - destruct (delete_position_effect ShelfNumber PositionId e m) as [->|(i & p & ->)];
      [exact Hok|].
    eapply assignment_ok_same, Hok;
      [apply shelf_macs_delete_position|apply used_flags_delete_position].
  - destruct (delete_shelf_effect ShelfNumber e m) as [->|(n' & ->)];
      [exact Hok|]. now apply delete_shelf_assignment_ok.
  - apply get_esp32_config_preserves; [| | | |exact Hok].
    + intros. now apply delete_shelf_assignment_ok.
    + intros. now apply add_shelf_assignment_ok.
    + intros. now apply assign_true_assignment_ok.
    + intros i esp32 m0 H0 Hg He.
      pose proof (Hget _ _ _ _ _ eq_refl Hg He) as Hu.
      apply get_esp32_by_mac_address_Some in Hg as [Hi _].
      unfold Api.clear_isUsed, Api.esp32_isUsed. rewrite H0, Hi, Hu, H0. exact Hok.
  - now rewrite publish_with_ack_data_manager.
Qed.

Lemma fresh_assignment_ok : assignment_ok (Mqtt.data_manager fresh_mqtt).
Proof.
  split; [constructor|]. split; [constructor|]. intros mac H. inversion H.
Qed.

End Assignment.

(** ** What add_shelf and delete_shelf_by_shelf_number do when they succeed *)

(** [add_shelf] returns [True] only for a registered ESP32 whose [isUsed]
    is [False]; it sets the flag and appends the shelf. *)
Lemma add_shelf_true shelf dm dm' :
  DataManager.add_shelf shelf dm = (true, dm') ->
  exists i esp32,
    DataManager.get_esp32_by_mac_address dm (Shelf.Mac_Address shelf) = Some (i, esp32) /\
    ESP32.isUsed esp32 = false /\
    DataManager.esp32s dm' = <[i := with_isUsed true esp32]> (DataManager.esp32s dm) /\
    DataManager.shelves dm' = DataManager.shelves dm ++ [shelf].
Proof.
  unfold DataManager.add_shelf.
  destruct (DataManager.shelf_exists _ _); [discriminate|].
  destruct (DataManager.get_esp32_by_mac_address _ _) as [[i esp32]|] eqn:Hg;
    [|discriminate].
  destruct (ESP32.isUsed esp32) eqn:Hu; [discriminate|].
  intros [= <-]. exists i, esp32. repeat split; try assumption.
  apply get_esp32_by_mac_address_Some in Hg as [Hi _].
  change (alter (with_isUsed true) i (DataManager.esp32s dm)
          = <[i := with_isUsed true esp32]> (DataManager.esp32s dm)).
  apply list_eq. intros j. destruct (decide (i = j)) as [->|Hne].
  - rewrite list_lookup_alter_eq, Hi.
    now rewrite list_lookup_insert_eq by (eapply lookup_lt_Some, Hi).
  - now rewrite list_lookup_alter_ne, list_lookup_insert_ne.
Qed.

(** [delete_shelf_by_shelf_number] returns [True] only after it has
    removed the shelf with that number and cleared the flag of its
    ESP32. *)
Lemma delete_shelf_true n dm dm' :
  DataManager.delete_shelf_by_shelf_number n dm = (true, dm') ->
  exists k shelf i esp32 l1 l2,
    DataManager.get_shelf_by_shelf_number dm n = Some (k, shelf) /\
    DataManager.get_esp32_by_mac_address dm (Shelf.Mac_Address shelf) = Some (i, esp32) /\
    DataManager.shelves dm = l1 ++ shelf :: l2 /\
    DataManager.shelves dm' = l1 ++ l2 /\
    DataManager.esp32s dm' = <[i := with_isUsed false esp32]> (DataManager.esp32s dm).
Proof.
  unfold DataManager.delete_shelf_by_shelf_number.
  destruct (DataManager.get_shelf_by_shelf_number _ _) as [[k sh]|] eqn:Hg;
    [|discriminate].
  rewrite (get_mac_of_found_shelf _ _ _ _ Hg).
  destruct (DataManager.get_esp32_by_mac_address _ _) as [[i e]|] eqn:He;
    [|discriminate].
  destruct (py_remove _ _) as [rest|] eqn:Hr; [|discriminate].
  intros [= <-].
  assert (Hin : sh ∈ DataManager.shelves dm).
  { destruct (decide (sh ∈ DataManager.shelves dm)) as [|Hn]; [assumption|].
    apply py_remove_None in Hn. congruence. }
  destruct (py_remove_Some _ _ Hin) as (l1 & l2 & Heq & _ & Hr').
  rewrite Hr in Hr'. injection Hr' as ->.
  exists k, sh, i, e, l1, l2. repeat split; try assumption.
  apply get_esp32_by_mac_address_Some in He as [Hi _].
  change (alter (with_isUsed false) i (DataManager.esp32s dm)
          = <[i := with_isUsed false e]> (DataManager.esp32s dm)).
  apply list_eq. intros j. destruct (decide (i = j)) as [->|Hne].
  - rewrite list_lookup_alter_eq, Hi.
    now rewrite list_lookup_insert_eq by (eapply lookup_lt_Some, Hi).
  - now rewrite list_lookup_alter_ne, list_lookup_insert_ne.
Qed.

(** C1 at [GET /light/getESP32] for a device that is assigned to shelf 7
    and a shelf number, 8, that does not exist: the handler clears
    [isUsed] itself, [add_shelf] then accepts, and two shelves reference
    the device.  [create_shelf] refuses the same assignment. *)
Theorem get_esp32_config_double_assignment :
  let m' := snd (Api.get_esp32_config mac1 8 acked with_shelf7) in
  exclusive (Mqtt.data_manager with_shelf7) = true /\
  shelves_registered (Mqtt.data_manager with_shelf7) = true /\
  fst (Api.create_shelf (Shelf.mk 8 mac1 []) with_shelf7) = Returned 406 /\
  fst (Api.get_esp32_config mac1 8 acked with_shelf7) = Returned 200 /\
  DataManager.shelves (Mqtt.data_manager m') = [Shelf.mk 7 mac1 []; Shelf.mk 8 mac1 []] /\
  assigned_shelves (Mqtt.data_manager m') mac1 = 2%nat /\
  exclusive (Mqtt.data_manager m') = false.
Proof. vm_compute. repeat split; reflexivity. Qed.

(** * The rest of the package

    The exchange with an ESP32 from end to end, what the REST routes
    leave in the database, the routes that only publish, the files, the
    MQTT callbacks that keep the connection status and load positions. *)

(** ** An exchange that is acknowledged *)

Lemma split_no_slash s rest :
  no_slash s = true -> split "/" (s +:+ String "/" rest) = s :: split "/" rest.
Proof.
  induction s as [|c s IH]; simpl; [reflexivity|].
  intros H. apply andb_prop in H as [Hc Hs].
  apply negb_true_iff in Hc. rewrite Hc, (IH Hs). reflexivity.
Qed.

Lemma topic_mac_address mac rest :
  no_slash mac = true ->
  split "/" ("pbl/" +:+ mac +:+ String "/" rest) !! 1%nat = Some mac.
Proof.
  intros H. change ("pbl/" +:+ mac +:+ String "/" rest)
    with ("pbl" +:+ String "/" (mac +:+ String "/" rest)).
  rewrite (split_no_slash "pbl") by reflexivity.
  now rewrite split_no_slash.
Qed.

(** The ACK of a device is queued under its MAC address and the first
    byte of its payload. *)
Lemma device_ack_queued q mac id rest m :
  no_slash mac = true ->
  Mqtt.run_callback (device_ack q mac (id :: rest)) m
  = Mqtt.set_queue q (Mqtt.queue_of q m ++ [ACK.mk mac id]) m.
Proof.
  intros H. destruct q; simpl; unfold Mqtt.receive_ack; simpl Mqtt.topic.
  - change "/light/ack" with (String "/" "light/ack").
    now rewrite (topic_mac_address _ _ H).
  - change "/config/ack" with (String "/" "config/ack").
    now rewrite (topic_mac_address _ _ H).
Qed.

Lemma py_remove_snoc `{EqDecision A} (x : A) (l : list A) :
  x ∉ l -> py_remove x (l ++ [x]) = Some l.
Proof.
  induction l as [|y l IH]; simpl; intros H.
  - now rewrite decide_True.
  - apply not_elem_of_cons in H as [Hne Hl].
    rewrite decide_False by exact Hne. now rewrite (IH Hl).
Qed.

(** X1: an exchange with an ESP32 that answers completes: when the
    first id drawn is a byte that is not in the selected queue for the
    MAC address (an address without a slash), and the ACK of the ESP32
    carrying that id has arrived on the ACK topic of the queue by the
    first test of the waiting loop, [publish_with_ack] returns 200
    whatever the clock reads; the request, the id followed by the
    payload, has been published, and the queue is as it was before the
    call. *)
Theorem exchange_acknowledged
    timeout mac select_queue topic payload q id rest draws t now polls m :
  Mqtt.choose_queue select_queue = Some q ->
  no_slash mac = true ->
  0 <= id < 256 ->
  ACK.mk mac id ∉ Mqtt.queue_of q m ->
  Mqtt.publish_with_ack timeout mac select_queue topic payload
    (Mqtt.mkEnv (id :: draws) t
       (Mqtt.mkPoll [device_ack q mac (id :: rest)] now :: polls)) m
  = (Returned 200, Mqtt.publish topic (id :: payload) m).
Proof.
  intros Hq Hmac Hid Hfresh.
  unfold Mqtt.publish_with_ack. rewrite Hq. cbn [Mqtt.randint Mqtt.draw_outgoing_ack].
  rewrite (proj2 (py_in_false _ _) Hfresh). cbn [ACK.ACK_id].
  unfold bytearray. cbn [forallb].
  rewrite (proj2 (Z.leb_le 0 id)) by lia. rewrite (proj2 (Z.ltb_lt id 256)) by lia.
  cbn [andb app Mqtt.time Mqtt.polls Mqtt.wait_for_ack Mqtt.arrived].
  unfold Mqtt.run_callbacks. cbn [foldl].
  rewrite (device_ack_queued _ _ _ _ _ Hmac).
  rewrite queue_of_set_queue.
  destruct (publish_frame topic (id :: payload) m) as (_ & Hqs & _).
  rewrite Hqs.
  assert (Hin : py_in (ACK.mk mac id) (Mqtt.queue_of q m ++ [ACK.mk mac id]) = true).
  { apply py_in_true, elem_of_app. right. left. }
  rewrite Hin. cbn [negb]. rewrite (py_remove_snoc _ _ Hfresh).
  f_equal. destruct q, m; reflexivity.
Qed.

Lemma exchange_acknowledged_witness :
  Mqtt.publish_with_ack Api.TIMEOUT mac1 "config_ack"
    ("pbl/" +:+ mac1 +:+ "/config/reset") []
    (Mqtt.mkEnv [7] 100 [Mqtt.mkPoll [device_ack Mqtt.config_ack_queue_ref mac1 [7]] 101])
    with_shelf7
  = (Returned 200,
     Mqtt.publish ("pbl/" +:+ mac1 +:+ "/config/reset") [7] with_shelf7).
Proof.
  apply (exchange_acknowledged Api.TIMEOUT mac1 "config_ack"
           ("pbl/" +:+ mac1 +:+ "/config/reset") [] Mqtt.config_ack_queue_ref
           7 [] [] 100 101 [] with_shelf7).
  - reflexivity.
  - reflexivity.
  - lia.
  - vm_compute. intros H. inversion H.
Defined.
Section Lookups.
Import DataManager.

Lemma first_some_Some {A B} (f : A -> option B) (l : list A) k x y :
  l !! k = Some x -> f x = Some y ->
  (forall j x', (j < k)%nat -> l !! j = Some x' -> f x' = None) ->
  first_some f l = Some y.
Proof.
  revert k. induction l as [|a l IH]; intros k Hk Hf Hbefore; [discriminate|].
  destruct k as [|k]; simpl in *.
  - injection Hk as ->. now rewrite Hf.
  - rewrite (Hbefore 0%nat a) by (simpl; auto; lia).
    apply (IH k Hk Hf). intros j x' Hj Hx'. apply (Hbefore (S j)); [lia|exact Hx'].
Qed.

Lemma list_find_None_ids pid (ps : list ShelfPosition.t) :
  pid ∉ (ShelfPosition.PositionId <$> ps) ->
  list_find (fun position => ShelfPosition.PositionId position = pid) ps = None.
Proof.
  intros H. apply list_find_None. apply Forall_forall. intros p Hp Heq.
  apply H. apply list_elem_of_fmap. exists p. auto.
Qed.

(** The LEDs the database returns are those of the first position with
    the id in the first shelf with the number that has one. *)
Lemma get_leds_found dm n pid k sh j p :
  shelves dm !! k = Some sh ->
  Shelf.ShelfNumber sh = n ->
  list_find (fun position => ShelfPosition.PositionId position = pid)
            (Shelf.Positions sh) = Some (j, p) ->
  (forall k' x, (k' < k)%nat -> shelves dm !! k' = Some x ->
                Shelf.ShelfNumber x = n -> pid ∉ position_ids x) ->
  position_id_exists dm n pid = true /\
  get_leds_by_shelf_number_and_position_id dm n pid = Some (ShelfPosition.LEDs p).
Proof.
  intros Hk Hn Hj Hbefore.
  assert (He : shelf_exists dm n = true).
  { apply shelf_exists_true. exists sh. split; [|exact Hn].
    eapply list_elem_of_lookup_2, Hk. }
  assert (Hp : position_id_exists dm n pid = true).
  { unfold position_id_exists. rewrite He. simpl. apply existsb_exists.
    exists sh. split; [eapply list_elem_of_In, list_elem_of_lookup_2, Hk|].
    apply andb_true_iff. split; [now apply bool_decide_eq_true|].
    apply list_find_Some in Hj as (Hj & Hpid & _).
    apply existsb_exists. exists p.
    split; [eapply list_elem_of_In, list_elem_of_lookup_2, Hj|].
    now apply bool_decide_eq_true. }
  split; [exact Hp|].
  unfold get_leds_by_shelf_number_and_position_id. rewrite He, Hp. simpl.
  erewrite first_some_Some; [reflexivity|exact Hk| |].
  - rewrite bool_decide_eq_true_2 by exact Hn. now rewrite Hj.
  - intros k' x Hlt Hx. simpl. case_bool_decide as Hnx; [|reflexivity].
    rewrite list_find_None_ids; [reflexivity|]. now apply (Hbefore k' x).
Qed.

Lemma lookup_shelf_exists dm i sh :
  shelves dm !! i = Some sh -> shelf_exists dm (Shelf.ShelfNumber sh) = true.
Proof.
  intros Hi. apply shelf_exists_true. exists sh. split; [|reflexivity].
  eapply list_elem_of_lookup_2, Hi.
Qed.

(** What [add_position] has stored can be looked up. *)
Lemma add_position_lookup i sp dm dm' sh :
  add_position i sp dm = (true, dm') ->
  shelves dm !! i = Some sh ->
  position_id_exists dm' (Shelf.ShelfNumber sh) (ShelfPosition.PositionId sp) = true /\
  get_leds_by_shelf_number_and_position_id
    dm' (Shelf.ShelfNumber sh) (ShelfPosition.PositionId sp)
  = Some (ShelfPosition.LEDs sp).
Proof.
  unfold add_position. intros H Hi. rewrite Hi in H.
  rewrite (lookup_shelf_exists _ _ _ Hi) in H. simpl in H.
  destruct (position_id_exists dm _ _) eqn:Hpid; [discriminate|].
  destruct (_ || _); [discriminate|].
  destruct (bool_decide _); [discriminate|].
  destruct (leds_exists _ _ _); [discriminate|].
  injection H as <-.
  set (stored := ShelfPosition.mk _ _ _).
  set (sh' := Shelf.mk _ _ _).
  change (ShelfPosition.LEDs sp) with (ShelfPosition.LEDs stored).
  apply (get_leds_found _ _ _ i sh' (length (Shelf.Positions sh)) stored).
  - change (shelves (save_data (set_shelves ?l dm))) with l.
    apply list_lookup_insert_eq. eapply lookup_lt_Some, Hi.
  - reflexivity.
  - apply list_find_Some. split; [|split; [reflexivity|]].
    + simpl. now rewrite lookup_app_r, Nat.sub_diag by lia.
    + intros j y Hj Hlt Hy. simpl in Hj. rewrite lookup_app_l in Hj by exact Hlt.
      apply (position_id_exists_false _ _ _ _ Hi Hpid).
      apply list_elem_of_fmap. exists y. split; [now rewrite Hy|].
      eapply list_elem_of_lookup_2, Hj.
  - intros k' x Hlt Hx Hnx.
    change (shelves (save_data (set_shelves ?l dm))) with l in Hx.
    rewrite list_lookup_insert_ne in Hx by lia.
    eapply position_id_exists_false; [exact Hx|]. now rewrite Hnx.
Qed.

(** What [update_position] has stored can be looked up. *)
Lemma update_position_lookup i sp dm dm' sh :
  update_position i sp dm = Some (true, dm') ->
  shelves dm !! i = Some sh ->
  get_leds_by_shelf_number_and_position_id
    dm' (Shelf.ShelfNumber sh) (ShelfPosition.PositionId sp)
  = Some (ShelfPosition.LEDs sp).
Proof.
  unfold update_position. intros H Hi. rewrite Hi in H.
  rewrite (lookup_shelf_exists _ _ _ Hi) in H. simpl in H.
  destruct (position_id_exists dm _ _) eqn:Hpid; [|discriminate]. simpl in H.
  destruct (bool_decide _); [discriminate|].
  destruct (leds_exists_exclusive _ _); [discriminate|].
  unfold get_position_by_shelf_number_and_position_id in H.
  rewrite (lookup_shelf_exists _ _ _ Hi) in H. simpl in H.
  destruct (get_shelf_by_shelf_number dm _) as [[i0 sh0]|] eqn:Hs; [|discriminate].
  destruct (list_find _ (Shelf.Positions sh0)) as [[j pos]|] eqn:Hj; [|discriminate].
  injection H as <-.
  unfold get_shelf_by_shelf_number in Hs.
  rewrite (lookup_shelf_exists _ _ _ Hi) in Hs. simpl in Hs.
  apply list_find_Some in Hs as (Hi0 & Hn0 & Hfirst).
  apply list_find_Some in Hj as (Hjp & Hpos & Hjfirst).
  set (updated := ShelfPosition.mk _ _ _).
  change (ShelfPosition.LEDs sp) with (ShelfPosition.LEDs updated).
  eapply (get_leds_found _ _ _ i0 _ j updated).
  - change (shelves (save_data (set_shelves ?l dm))) with l.
    rewrite list_lookup_alter_eq, Hi0. reflexivity.
  - exact Hn0.
  - apply list_find_Some. simpl. split; [|split; [exact Hpos|]].
    + apply list_lookup_insert_eq. eapply lookup_lt_Some, Hjp.
    + intros j' y Hj' Hlt. rewrite list_lookup_insert_ne in Hj' by lia.
      now apply (Hjfirst j').
  - intros k' x Hlt Hx Hnx.
    change (shelves (save_data (set_shelves ?l dm))) with l in Hx.
    rewrite list_lookup_alter_ne in Hx by lia.
    exfalso. now apply (Hfirst k' x).
Qed.

End Lookups.

(** ** What a request that was answered 200 has left in the database *)

Section Stored.
Import DataManager.

Lemma create_position_200 sp e m m' :
  Api.create_position sp e m = (Returned 200, m') ->
  exists i sh,
    shelves (Mqtt.data_manager m) !! i = Some sh /\
    Shelf.ShelfNumber sh = ShelfPosition.ShelfNumber sp /\
    add_position i sp (Mqtt.data_manager m) = (true, Mqtt.data_manager m').
Proof.
  unfold Api.create_position.
  destruct (get_mac_address_by_shelf_number _ _) as [mac|]; [|discriminate].
  destruct (position_id_exists _ _ _); [discriminate|].
  destruct (negb _) eqn:Hv.
  { intros H. injection H as E _. rewrite E in Hv. discriminate Hv. }
  destruct (leds_exists _ _ _); [discriminate|].
  destruct (Api.__publish_create_update_position _ _ _ _ _) as [[[code f]| |] mp] eqn:Hp;
    simpl; [|discriminate..].
  pose proof Hp as Hp'. apply publish_create_update_database in Hp' as [Hd _].
  destruct f.
  { intros [= -> <-]. exfalso. revert Hp. unfold Api.__publish_create_update_position.
    destruct (bytearray _); [|discriminate].
    destruct (Mqtt.publish_with_ack _ _ _ _ _ _ _) as [[c| |] ?]; simpl;
      [|discriminate..].
    destruct (c =? 504); discriminate. }
  destruct (code =? 200); [|discriminate].
  destruct (get_shelf_by_shelf_number _ _) as [[i sh]|] eqn:Hs; [|discriminate].
  apply get_shelf_by_shelf_number_Some in Hs as [Hn Hi].
  unfold Api.with_dm. rewrite Hd.
  destruct (add_position i sp (Mqtt.data_manager m)) as [ok dm1] eqn:Ha. simpl.
  destruct ok; [|discriminate]. intros [= <-]. exists i, sh. auto.
Qed.

Lemma update_position_200 sp e m m' :
  Api.update_position sp e m = (Returned 200, m') ->
  exists i sh,
    shelves (Mqtt.data_manager m) !! i = Some sh /\
    Shelf.ShelfNumber sh = ShelfPosition.ShelfNumber sp /\
    update_position i sp (Mqtt.data_manager m) = Some (true, Mqtt.data_manager m').
Proof.
  unfold Api.update_position.
  destruct (get_mac_address_by_shelf_number _ _) as [mac|]; [|discriminate].
  destruct (negb (position_id_exists _ _ _)); [discriminate|].
  destruct (negb _) eqn:Hv.
  { intros H. injection H as E _. rewrite E in Hv. discriminate Hv. }
  destruct (leds_exists_exclusive _ _); [discriminate|].
  destruct (Api.__publish_create_update_position _ _ _ _ _) as [[[code f]| |] mp] eqn:Hp;
    simpl; [|discriminate..].
  pose proof Hp as Hp'. apply publish_create_update_database in Hp' as [Hd _].
  destruct f.
  { intros [= -> <-]. exfalso. revert Hp. unfold Api.__publish_create_update_position.
    destruct (bytearray _); [|discriminate].
    destruct (Mqtt.publish_with_ack _ _ _ _ _ _ _) as [[c| |] ?]; simpl;
      [|discriminate..].
    destruct (c =? 504); discriminate. }
  destruct (code =? 200); [|discriminate].
  destruct (get_shelf_by_shelf_number _ _) as [[i sh]|] eqn:Hs; [|discriminate].
  apply get_shelf_by_shelf_number_Some in Hs as [Hn Hi].
  unfold Api.with_dm. rewrite Hd.
  destruct (update_position i sp (Mqtt.data_manager m)) as [[ok dm1]|] eqn:Ha;
    [|discriminate]. simpl.
  destruct ok; [|discriminate]. intros [= <-]. exists i, sh. auto.
Qed.

End Stored.

(** X2: a position that [PUT /light/createPosition] or
    [PUT /light/updatePosition] has answered 200 for is in the database:
    the lookup by its shelf number and position id returns the LEDs of
    the request. *)
Theorem position_stored_after_200 r sp e m m' :
  r = Api.CreatePosition sp \/ r = Api.UpdatePosition sp ->
  Api.handle r e m = (Returned 200, m') ->
  DataManager.get_leds_by_shelf_number_and_position_id
    (Mqtt.data_manager m') (ShelfPosition.ShelfNumber sp) (ShelfPosition.PositionId sp)
  = Some (ShelfPosition.LEDs sp).
Proof.
  intros [-> | ->] H; simpl in H.
  - apply create_position_200 in H as (i & sh & Hi & <- & Ha).
    now destruct (add_position_lookup _ _ _ _ _ Ha Hi).
  - apply update_position_200 in H as (i & sh & Hi & <- & Ha).
    exact (update_position_lookup _ _ _ _ _ Ha Hi).
Qed.

Lemma position_stored_after_200_witness :
  fst (Api.handle (Api.CreatePosition position3) acked with_shelf7) = Returned 200 /\
  DataManager.get_leds_by_shelf_number_and_position_id
    (Mqtt.data_manager with_position3) 7 3 = Some [10; 20].
Proof.
  split; [vm_compute; reflexivity|].
  apply (position_stored_after_200 (Api.CreatePosition position3) position3
           acked with_shelf7 with_position3); [left; reflexivity|].
  vm_compute. reflexivity.
Defined.

Section Gone.
Import DataManager.

(** With pairwise different shelf numbers and position ids, a position
    that [delete_position] has removed cannot be looked up any more. *)
Lemma delete_position_gone i p dm dm' sh :
  NoDup (Shelf.ShelfNumber <$> shelves dm) ->
  Forall (fun shelf => NoDup (position_ids shelf)) (shelves dm) ->
  delete_position i p dm = (true, dm') ->
  shelves dm !! i = Some sh ->
  position_id_exists dm' (Shelf.ShelfNumber sh) (ShelfPosition.PositionId p) = false.
Proof.
  intros Hnd Hok H Hi. unfold delete_position in H. rewrite Hi in H.
  destruct (negb _); [discriminate|].
  destruct (negb _); [discriminate|].
  destruct (py_remove _ _) as [rest|] eqn:Hr; [|discriminate].
  injection H as <-.
  assert (Hin : p ∈ Shelf.Positions sh).
  { destruct (decide (p ∈ Shelf.Positions sh)) as [|Hn]; [assumption|].
    apply py_remove_None in Hn. congruence. }
  destruct (py_remove_Some _ _ Hin) as (l1 & l2 & Heq & _ & Hr').
  rewrite Hr in Hr'. injection Hr' as ->.
  pose proof (Forall_lookup_1 _ _ _ _ Hok Hi) as Hids.
  unfold position_ids in Hids. rewrite Heq, fmap_app in Hids. simpl in Hids.
  apply NoDup_app in Hids as (_ & H2 & H3). apply NoDup_cons in H3 as [H3 _].
  unfold position_id_exists.
  destruct (negb _); [reflexivity|].
  apply not_true_iff_false. intros He. apply existsb_exists in He as (x & Hx & He).
  apply andb_true_iff in He as [Hn Hp]. apply bool_decide_eq_true in Hn.
  apply list_elem_of_In, list_elem_of_lookup in Hx as [k Hk].
  change (shelves (save_data (set_shelves ?l dm))) with l in Hk.
  destruct (decide (k = i)) as [->|Hne].
  - rewrite list_lookup_insert_eq in Hk by (eapply lookup_lt_Some, Hi).
    injection Hk as <-. simpl in Hp.
    apply existsb_exists in Hp as (y & Hy & Hpid).
    apply bool_decide_eq_true in Hpid. apply list_elem_of_In in Hy.
    apply elem_of_app in Hy as [Hy|Hy].
    + apply (H2 (ShelfPosition.PositionId p)); [|left].
      apply list_elem_of_fmap. exists y. auto.
    + apply H3. apply list_elem_of_fmap. exists y. auto.
  - rewrite list_lookup_insert_ne in Hk by auto.
    apply Hne. eapply (NoDup_lookup _ k i (Shelf.ShelfNumber sh) Hnd);
      rewrite list_lookup_fmap; [rewrite Hk|rewrite Hi]; simpl; congruence.
Qed.

Lemma delete_position_200 n pid e m m' :
  Api.delete_position n pid e m = (Returned 200, m') ->
  exists i sh p,
    shelves (Mqtt.data_manager m) !! i = Some sh /\
    Shelf.ShelfNumber sh = n /\ ShelfPosition.PositionId p = pid /\
    delete_position i p (Mqtt.data_manager m) = (true, Mqtt.data_manager m').
Proof.
  unfold Api.delete_position.
  destruct (get_mac_address_by_shelf_number _ _) as [mac|]; [|discriminate].
  destruct (negb (position_id_exists _ _ _)); [discriminate|].
  destruct (get_shelf_by_shelf_number _ _) as [[i sh]|] eqn:Hs; [|discriminate].
  apply get_shelf_by_shelf_number_Some in Hs as [Hn Hi].
  destruct (_ || _); [discriminate|].
  destruct (get_position_by_shelf_number_and_position_id _ _ _)
    as [[[i' j] pos]|] eqn:Hg; [|discriminate].
  assert (Hpos : ShelfPosition.PositionId pos = pid).
  { unfold get_position_by_shelf_number_and_position_id in Hg.
    repeat case_match; simplify_eq.
    match goal with H : list_find _ _ = Some _ |- _ =>
      apply list_find_Some in H as (_ & H & _); exact H end. }
  destruct (bytearray _) as [payload|]; [|discriminate].
  destruct (Mqtt.publish_with_ack _ _ _ _ _ _ _) as [[code| |] mp] eqn:Hp;
    simpl; [|discriminate..].
  apply publish_with_ack_keeps_database in Hp.
  destruct (code =? 504); [discriminate|]. destruct (code =? 200); [|discriminate].
  unfold Api.with_dm. rewrite Hp.
  destruct (delete_position i pos (Mqtt.data_manager m)) as [ok dm1] eqn:Ha. simpl.
  destruct ok; [|discriminate]. intros [= <-]. exists i, sh, pos. auto.
Qed.

Lemma delete_shelf_200 n e m m' :
  Api.delete_shelf n e m = (Returned 200, m') ->
  delete_shelf_by_shelf_number n (Mqtt.data_manager m) = (true, Mqtt.data_manager m').
Proof.
  unfold Api.delete_shelf.
  destruct (get_shelf_by_shelf_number _ _) as [[i sh]|] eqn:Hs; [|discriminate].
  apply get_shelf_by_shelf_number_Some in Hs as [Hn Hi].
  destruct (negb _); [discriminate|]. simpl.
  destruct (Mqtt.publish_with_ack _ _ _ _ _ _ _) as [[code| |] mp] eqn:Hp;
    simpl; [|discriminate..].
  apply publish_with_ack_keeps_database in Hp.
  destruct (code =? 504); [discriminate|]. destruct (code =? 200); [|discriminate].
  unfold Api.with_dm. rewrite Hp, Hn.
  destruct (delete_shelf_by_shelf_number n (Mqtt.data_manager m)) as [ok dm1]. simpl.
  destruct ok; [|discriminate]. now intros [= <-].
Qed.

(** The ESP32 found for a MAC address after an assignment to the
    attributes of the one found before. *)
Lemma get_esp32_after_insert dm dm' mac i esp32 esp32' :
  get_esp32_by_mac_address dm mac = Some (i, esp32) ->
  esp32s dm' = <[i := esp32']> (esp32s dm) ->
  ESP32.Mac_Address esp32' = mac ->
  get_esp32_by_mac_address dm' mac = Some (i, esp32').
Proof.
  unfold get_esp32_by_mac_address. intros H Hl Hmac.
  destruct (negb (mac_address_exists dm mac)) eqn:E; [discriminate|].
  apply list_find_Some in H as (Hi & _ & Hfirst).
  assert (Hi' : esp32s dm' !! i = Some esp32').
  { rewrite Hl. apply list_lookup_insert_eq. eapply lookup_lt_Some, Hi. }
  assert (He : mac_address_exists dm' mac = true).
  { unfold mac_address_exists. apply existsb_exists. exists esp32'.
    split; [eapply list_elem_of_In, list_elem_of_lookup_2, Hi'|].
    now apply bool_decide_eq_true. }
  rewrite He. simpl. apply list_find_Some. split; [exact Hi'|]. split; [exact Hmac|].
  intros j y Hj Hlt. rewrite Hl, list_lookup_insert_ne in Hj by lia.
  now apply (Hfirst j).
Qed.

End Gone.

(** X3: with shelf numbers and, per shelf, position ids pairwise
    different, a position that [DELETE /light/deletePosition] has
    answered 200 for is no longer in the database. *)
Theorem position_gone_after_200 n pid e m m' :
  NoDup (Shelf.ShelfNumber <$> DataManager.shelves (Mqtt.data_manager m)) ->
  Forall (fun shelf => NoDup (position_ids shelf))
         (DataManager.shelves (Mqtt.data_manager m)) ->
  Api.delete_position n pid e m = (Returned 200, m') ->
  DataManager.position_id_exists (Mqtt.data_manager m') n pid = false /\
  DataManager.get_leds_by_shelf_number_and_position_id (Mqtt.data_manager m') n pid
  = None.
Proof.
  intros Hnd Hok H.
  apply delete_position_200 in H as (i & sh & p & Hi & <- & <- & Hd).
  pose proof (delete_position_gone _ _ _ _ _ Hnd Hok Hd Hi) as Hg.
  split; [exact Hg|].
  unfold DataManager.get_leds_by_shelf_number_and_position_id. rewrite Hg.
  now destruct (negb (DataManager.shelf_exists _ _)).
Qed.

Lemma position_gone_after_200_witness :
  fst (Api.delete_position 7 3 acked with_position3) = Returned 200 /\
  DataManager.position_id_exists
    (Mqtt.data_manager (snd (Api.delete_position 7 3 acked with_position3))) 7 3
  = false.
Proof.
  split; [vm_compute; reflexivity|].
  refine (proj1 (position_gone_after_200 7 3 acked with_position3 _ _ _ _)).
  - vm_compute. apply NoDup_singleton.
  - vm_compute. constructor; [|constructor]. apply NoDup_singleton.
  - vm_compute. reflexivity.
Defined.

Section StoredShelves.
Import DataManager.

Lemma create_shelf_200 shelf m m' :
  Api.create_shelf shelf m = (Returned 200, m') ->
  shelf_exists (Mqtt.data_manager m) (Shelf.ShelfNumber shelf) = false /\
  add_shelf shelf (Mqtt.data_manager m) = (true, Mqtt.data_manager m').
Proof.
  unfold Api.create_shelf.
  destruct (shelf_exists _ _) eqn:He; [discriminate|].
  destruct (negb _); [discriminate|].
  destruct (get_esp32_by_mac_address _ _) as [[i esp32]|]; [|discriminate].
  destruct (ESP32.isUsed esp32); [discriminate|].
  unfold Api.with_dm.
  destruct (add_shelf shelf (Mqtt.data_manager m)) as [ok dm1]. simpl.
  destruct ok; [|discriminate]. now intros [= <-].
Qed.

Lemma shelf_exists_false dm n :
  shelf_exists dm n = false <-> n ∉ Shelf.ShelfNumber <$> shelves dm.
Proof.
  rewrite <-not_true_iff_false, shelf_exists_true, list_elem_of_fmap.
  split; intros H (sh & ? & ?); apply H; exists sh; auto.
Qed.

End StoredShelves.

(** X4: a shelf that [PUT /light/createShelf] has answered 200 for is in
    the database as it was sent, positions included, after the shelves
    that were there: [GET /light/getPositions] returns it with 200 and
    [GET /light/getShelves] lists it last; its ESP32 is marked as
    used. *)
Theorem shelf_stored_after_200 shelf m m' :
  Api.create_shelf shelf m = (Returned 200, m') ->
  Api.get_positions (Shelf.ShelfNumber shelf) m' = Returned (200, Some shelf) /\
  Api.get_shelves m' = (200, snd (Api.get_shelves m) ++ [shelf]) /\
  DataManager.get_mac_address_by_shelf_number
    (Mqtt.data_manager m') (Shelf.ShelfNumber shelf)
  = Some (Shelf.Mac_Address shelf) /\
  exists esp32,
    esp32_of (Mqtt.data_manager m') (Shelf.Mac_Address shelf) = Some esp32 /\
    ESP32.isUsed esp32 = true.
Proof.
  intros H. apply create_shelf_200 in H as [He Ha].
  destruct (add_shelf_true _ _ _ Ha) as (i & esp32 & Hg & Hu & Hes & Hsh).
  assert (Hfind : DataManager.get_shelf_by_shelf_number
                    (Mqtt.data_manager m') (Shelf.ShelfNumber shelf)
                  = Some (length (DataManager.shelves (Mqtt.data_manager m)), shelf)).
  { unfold DataManager.get_shelf_by_shelf_number.
    assert (He' : DataManager.shelf_exists (Mqtt.data_manager m')
                    (Shelf.ShelfNumber shelf) = true).
    { apply shelf_exists_true. exists shelf. split; [|reflexivity].
      rewrite Hsh. apply elem_of_app. right. left. }
    rewrite He'. simpl. rewrite Hsh. apply list_find_Some.
    split; [now rewrite lookup_app_r, Nat.sub_diag by lia|].
    split; [reflexivity|].
    intros j y Hj Hlt Hy. rewrite lookup_app_l in Hj by exact Hlt.
    apply shelf_exists_false in He. apply He.
    apply list_elem_of_fmap. exists y. split; [now rewrite Hy|].
    eapply list_elem_of_lookup_2, Hj. }
  pose proof (get_mac_of_found_shelf _ _ _ _ Hfind) as Hmac.
  split; [unfold Api.get_positions; now rewrite Hmac, Hfind|].
  split; [unfold Api.get_shelves; simpl; now rewrite Hsh|].
  split; [exact Hmac|].
  exists (with_isUsed true esp32). split; [|reflexivity].
  unfold esp32_of.
  rewrite (get_esp32_after_insert _ _ _ _ _ _ Hg Hes); [reflexivity|].
  apply get_esp32_by_mac_address_Some in Hg as [_ Hm]. exact Hm.
Qed.

Lemma shelf_stored_after_200_witness :
  Api.get_positions 7 with_shelf7 = Returned (200, Some (Shelf.mk 7 mac1 [])).
Proof.
  refine (proj1 (shelf_stored_after_200 (Shelf.mk 7 mac1 []) registered with_shelf7 _)).
  vm_compute. reflexivity.
Defined.

(** X5: with pairwise different shelf numbers, a shelf that
    [DELETE /light/deleteShelf] has answered 200 for is no longer in the
    database ([GET /light/getPositions] answers 404 for its number), and
    the ESP32 it was assigned to is marked as unused. *)
Theorem shelf_gone_after_200 n e m m' :
  NoDup (Shelf.ShelfNumber <$> DataManager.shelves (Mqtt.data_manager m)) ->
  Api.delete_shelf n e m = (Returned 200, m') ->
  DataManager.shelf_exists (Mqtt.data_manager m') n = false /\
  Api.get_positions n m' = Returned (404, None) /\
  exists mac esp32,
    DataManager.get_mac_address_by_shelf_number (Mqtt.data_manager m) n = Some mac /\
    esp32_of (Mqtt.data_manager m') mac = Some esp32 /\
    ESP32.isUsed esp32 = false.
Proof.
  intros Hnd H. apply delete_shelf_200 in H.
  destruct (delete_shelf_true _ _ _ H) as (k & sh & i & esp32 & l1 & l2 &
                                           Hg & Hesp & Hl & Hl' & Hes).
  pose proof (get_shelf_by_shelf_number_Some _ _ _ _ Hg) as [Hn _].
  assert (Hgone : DataManager.shelf_exists (Mqtt.data_manager m') n = false);
    [|split; [exact Hgone|split]].
  - apply shelf_exists_false. rewrite Hl'. rewrite Hl in Hnd.
    rewrite fmap_app in *. simpl in Hnd. rewrite Hn in Hnd.
    apply NoDup_app in Hnd as (_ & H2 & H3). apply NoDup_cons in H3 as [H3 _].
    intros Hin. apply elem_of_app in Hin as [Hin|Hin]; [|contradiction].
    apply (H2 n Hin). left.
  - unfold Api.get_positions, DataManager.get_mac_address_by_shelf_number.
    now rewrite Hgone.
  - exists (Shelf.Mac_Address sh), (with_isUsed false esp32).
    split; [exact (get_mac_of_found_shelf _ _ _ _ Hg)|]. split; [|reflexivity].
    unfold esp32_of.
    rewrite (get_esp32_after_insert _ _ _ _ _ _ Hesp Hes); [reflexivity|].
    apply get_esp32_by_mac_address_Some in Hesp as [_ Hm]. exact Hm.
Qed.

Lemma shelf_gone_after_200_witness :
  DataManager.shelf_exists
    (Mqtt.data_manager (snd (Api.delete_shelf 7 acked with_shelf7))) 7 = false.
Proof.
  refine (proj1 (shelf_gone_after_200 7 acked with_shelf7 _ _ _)).
  - vm_compute. apply NoDup_singleton.
  - vm_compute. reflexivity.
Defined.

Section Offered.
Import DataManager.

Lemma get_mac_addresses_elem m mac :
  mac ∈ snd (Api.get_mac_addresses m) <->
  exists esp32, esp32 ∈ esp32s (Mqtt.data_manager m) /\
                ESP32.isUsed esp32 = false /\ ESP32.Mac_Address esp32 = mac.
Proof.
  unfold Api.get_mac_addresses.
  set (l := ESP32.Mac_Address <$> filter _ _).
  assert (Hl : mac ∈ l <->
               exists esp32, esp32 ∈ esp32s (Mqtt.data_manager m) /\
                             ESP32.isUsed esp32 = false /\
                             ESP32.Mac_Address esp32 = mac).
  { unfold l. rewrite list_elem_of_fmap. split.
    - intros (e & -> & He). apply list_elem_of_filter in He as [? ?]. eauto.
    - intros (e & ? & ? & <-). exists e. split; [reflexivity|].
      now apply list_elem_of_filter. }
  destruct l; simpl; exact Hl.
Qed.

(** With pairwise different MAC addresses, the ESP32 found for the
    address of a registered one is that one. *)
Lemma get_esp32_by_own_mac_address dm esp32 :
  NoDup (ESP32.Mac_Address <$> esp32s dm) ->
  esp32 ∈ esp32s dm ->
  exists i, get_esp32_by_mac_address dm (ESP32.Mac_Address esp32) = Some (i, esp32).
Proof.
  intros Hnd Hin. apply list_elem_of_lookup in Hin as [i Hi]. exists i.
  unfold get_esp32_by_mac_address.
  assert (He : mac_address_exists dm (ESP32.Mac_Address esp32) = true).
  { unfold mac_address_exists. apply existsb_exists. exists esp32.
    split; [eapply list_elem_of_In, list_elem_of_lookup_2, Hi|].
    now apply bool_decide_eq_true. }
  rewrite He. simpl. apply list_find_Some. split; [exact Hi|]. split; [reflexivity|].
  intros j y Hj Hlt Heq.
  assert (j = i); [|lia].
  eapply (NoDup_lookup _ j i (ESP32.Mac_Address esp32) Hnd);
    rewrite list_lookup_fmap; [rewrite Hj|rewrite Hi]; simpl; congruence.
Qed.

End Offered.

(** X6: with pairwise different MAC addresses of the registered ESP32s,
    every address that [GET /light/getMACAddresses] offers is accepted
    by [PUT /light/createShelf] for a shelf number that is not in use,
    and is not offered any more afterwards. *)
Theorem offered_mac_address_is_accepted shelf m :
  NoDup (ESP32.Mac_Address <$> DataManager.esp32s (Mqtt.data_manager m)) ->
  Shelf.Mac_Address shelf ∈ snd (Api.get_mac_addresses m) ->
  DataManager.shelf_exists (Mqtt.data_manager m) (Shelf.ShelfNumber shelf) = false ->
  fst (Api.create_shelf shelf m) = Returned 200 /\
  (Shelf.Mac_Address shelf ∉ snd (Api.get_mac_addresses (snd (Api.create_shelf shelf m)))).
Proof.
  intros Hnd Hin Hfree.
  apply get_mac_addresses_elem in Hin as (esp32 & Hin & Hu & Hmac).
  destruct (get_esp32_by_own_mac_address _ _ Hnd Hin) as [i Hg]. rewrite Hmac in Hg.
  assert (He : DataManager.mac_address_exists (Mqtt.data_manager m)
                 (Shelf.Mac_Address shelf) = true).
  { unfold DataManager.get_esp32_by_mac_address in Hg.
    destruct (DataManager.mac_address_exists _ _); [reflexivity|discriminate]. }
  assert (Ha : DataManager.add_shelf shelf (Mqtt.data_manager m)
               = (true, snd (DataManager.add_shelf shelf (Mqtt.data_manager m)))).
  { unfold DataManager.add_shelf. now rewrite Hfree, Hg, Hu. }
  assert (Hc : Api.create_shelf shelf m
               = (Returned 200,
                  Mqtt.set_data_manager
                    (snd (DataManager.add_shelf shelf (Mqtt.data_manager m))) m)).
  { unfold Api.create_shelf, Api.with_dm. rewrite Hfree, He, Hg, Hu, Ha. reflexivity. }
  rewrite Hc. split; [reflexivity|]. simpl.
  destruct (add_shelf_true _ _ _ Ha) as (i' & esp32' & Hg' & _ & Hes & _).
  rewrite Hg in Hg'. injection Hg' as <- <-.
  apply get_esp32_by_mac_address_Some in Hg as [Hi _].
  intros Hoff. apply get_mac_addresses_elem in Hoff as (x & Hx & Hxu & Hxm).
  simpl in Hx. rewrite Hes in Hx.
  apply list_elem_of_lookup in Hx as [j Hj].
  destruct (decide (j = i)) as [->|Hne].
  - rewrite list_lookup_insert_eq in Hj by (eapply lookup_lt_Some, Hi).
    injection Hj as <-. discriminate Hxu.
  - rewrite list_lookup_insert_ne in Hj by auto.
    apply Hne. eapply (NoDup_lookup _ j i (Shelf.Mac_Address shelf) Hnd);
      rewrite list_lookup_fmap; [rewrite Hj|rewrite Hi]; simpl; congruence.
Qed.

Lemma offered_mac_address_is_accepted_witness :
  Api.get_mac_addresses registered = (200, [mac1]) /\
  fst (Api.create_shelf (Shelf.mk 7 mac1 []) registered) = Returned 200 /\
  (mac1 ∉ snd (Api.get_mac_addresses with_shelf7)).
Proof.
  split; [vm_compute; reflexivity|].
  apply (offered_mac_address_is_accepted (Shelf.mk 7 mac1 []) registered).
  - vm_compute. apply NoDup_singleton.
  - vm_compute. left.
  - vm_compute. reflexivity.
Defined.

(** ** The routes that publish and leave the database alone *)

Lemma publish_with_ack_codes timeout mac select_queue topic payload e m code m' :
  Mqtt.publish_with_ack timeout mac select_queue topic payload e m = (Returned code, m') ->
  code = 200 \/ code = 504.
Proof.
  intros H.
  destruct (publish_with_ack_returned _ _ _ _ _ _ _ _ _ H) as (q & a & rest & Hq & Hd & Hr).
  rewrite (publish_with_ack_unfold _ _ _ _ _ _ _ _ _ _ Hq Hd Hr) in H.
  destruct (wait_for_ack_codes q a timeout (Mqtt.time e) (Mqtt.polls e)
              (Mqtt.publish topic (ACK.ACK_id a :: payload) m)) as [Hc|[Hc|Hc]];
    rewrite H in Hc; simpl in Hc; [injection Hc as ->; auto..|discriminate Hc].
Qed.

Lemma status_or_500_code code : code = 200 \/ code = 504 -> Api.status_or_500 code = code.
Proof. now intros [-> | ->]. Qed.

(** A command either is refused by the checks of its route, with 400 or
    404 and without any effect, or is one call of [publish_with_ack]
    whose status code it returns. *)
Lemma handle_command_returned c e m code m' :
  Api.handle_command c e m = (Returned code, m') ->
  ((code = 400 \/ code = 404) /\ m' = m) \/
  ((code = 200 \/ code = 504) /\
   exists timeout mac select_queue topic payload,
     Mqtt.publish_with_ack timeout mac select_queue topic payload e m
     = (Returned code, m')).
Proof.
  assert (Hpub : forall timeout mac select_queue topic payload,
             and_then (Mqtt.publish_with_ack timeout mac select_queue topic payload e m)
               (fun status_code m => (Returned (Api.status_or_500 status_code), m))
             = (Returned code, m') ->
             (code = 200 \/ code = 504) /\
             exists timeout mac select_queue topic payload,
               Mqtt.publish_with_ack timeout mac select_queue topic payload e m
               = (Returned code, m')).
  { intros timeout mac select_queue topic payload.
    destruct (Mqtt.publish_with_ack _ _ _ _ _ _ _) as [[c0| |] mp] eqn:Hp;
      simpl; [|discriminate..].
    pose proof (publish_with_ack_codes _ _ _ _ _ _ _ _ _ Hp) as Hc.
    rewrite (status_or_500_code _ Hc). intros [= <- <-]. split; [exact Hc|].
    now exists timeout, mac, select_queue, topic, payload. }
  assert (Hval : forall dm n pid mac,
             Api.__validate_turn_on_off_parameters dm n pid mac = 200 \/
             Api.__validate_turn_on_off_parameters dm n pid mac = 400 \/
             Api.__validate_turn_on_off_parameters dm n pid mac = 404).
  { intros. unfold Api.__validate_turn_on_off_parameters. repeat case_match; auto. }
  assert (Hset : forall dm mac leds,
             Api.__validate_set_unset_parameters dm mac leds = 200 \/
             Api.__validate_set_unset_parameters dm mac leds = 400 \/
             Api.__validate_set_unset_parameters dm mac leds = 404).
  { intros. unfold Api.__validate_set_unset_parameters. repeat case_match; auto. }
  destruct c; simpl.
  - unfold Api.turn_on.
    destruct (Hval (Mqtt.data_manager m) ShelfNumber PositionId
                (DataManager.get_mac_address_by_shelf_number
                   (Mqtt.data_manager m) ShelfNumber)) as [->|[->| ->]]; simpl;
      [|intros [= <- <-]; auto..].
    destruct (Api.color_string_to_byte_array _); [|intros [= <- <-]; auto].
    destruct (DataManager.get_leds_by_shelf_number_and_position_id _ _ _);
      [|intros [= <- <-]; auto].
    destruct (bytearray _); [|discriminate].
    destruct (DataManager.get_mac_address_by_shelf_number _ _); [|discriminate].
    intros H. right. eapply Hpub, H.
  - unfold Api.turn_off.
    destruct (Hval (Mqtt.data_manager m) ShelfNumber PositionId
                (DataManager.get_mac_address_by_shelf_number
                   (Mqtt.data_manager m) ShelfNumber)) as [->|[->| ->]]; simpl;
      [|intros [= <- <-]; auto..].
    destruct (DataManager.get_leds_by_shelf_number_and_position_id _ _ _);
      [|intros [= <- <-]; auto].
    destruct (bytearray _); [|discriminate].
    destruct (DataManager.get_mac_address_by_shelf_number _ _); [|discriminate].
    intros H. right. eapply Hpub, H.
  - unfold Api.turn_on_all.
    destruct (DataManager.get_mac_address_by_shelf_number _ _);
      [|intros [= <- <-]; auto].
    destruct (Api.color_string_to_byte_array _) as [[|c0 [|c1 [|c2 cs]]]|];
      try discriminate; [|intros [= <- <-]; auto].
    destruct (bytearray _); [|discriminate].
    intros H. right. eapply Hpub, H.
  - unfold Api.turn_off_all.
    destruct (DataManager.get_mac_address_by_shelf_number _ _);
      [|intros [= <- <-]; auto].
    simpl. intros H. right. eapply Hpub, H.
  - unfold Api.set_leds.
    destruct (Hset (Mqtt.data_manager m) Mac_Address LEDs) as [->|[->| ->]]; simpl;
      [|intros [= <- <-]; auto..].
    destruct (Api.color_string_to_byte_array _); [|intros [= <- <-]; auto].
    destruct (bytearray _); [|discriminate].
    intros H. right. eapply Hpub, H.
  - unfold Api.unset_leds.
    destruct (Hset (Mqtt.data_manager m) Mac_Address LEDs) as [->|[->| ->]]; simpl;
      [|intros [= <- <-]; auto..].
    destruct (bytearray _); [|discriminate].
    intros H. right. eapply Hpub, H.
  - unfold Api.reset_esp32. simpl. intros H. right. eapply Hpub, H.
Qed.

(** X7: a route that only publishes ([turnOn], [turnOff], [turnOnAll],
    [turnOffAll], [setLEDs], [unsetLEDs], [resetESP32]) answers 200,
    400, 404 or 504 and never 500; with 400 or 404 it has published
    nothing and changed nothing; with 200 or 504 it has published
    exactly one message. *)
Theorem command_answers c e m code m' :
  Api.handle_command c e m = (Returned code, m') ->
  ((code = 400 \/ code = 404) /\ m' = m) \/
  ((code = 200 \/ code = 504) /\
   exists topic payload,
     Mqtt.client m' = Mqtt.client m ++ [Mqtt.mkMessage topic payload]).
Proof.
  intros H. apply handle_command_returned in H as [[Hc ->]|[Hc H]].
  - now left.
  - destruct H as (timeout & mac & select_queue & topic & payload & H).
    right. split; [exact Hc|].
    destruct (publish_with_ack_returned_framing _ _ _ _ _ _ _ _ _ H)
      as (q & a & rest & _ & _ & _ & Hcl).
    eauto.
Qed.

Lemma command_answers_witness :
  fst (Api.handle_command (Api.TurnOff 7 9) first_env with_position3) = Returned 404 /\
  snd (Api.handle_command (Api.TurnOff 7 9) first_env with_position3) = with_position3.
Proof.
  split; [vm_compute; reflexivity|].
  destruct (command_answers (Api.TurnOff 7 9) first_env with_position3 404
              (snd (Api.handle_command (Api.TurnOff 7 9) first_env with_position3)))
    as [[_ H]|[[H|H] _]]; [vm_compute; reflexivity|exact H|discriminate H..].
Defined.

(** ** load_esp32 *)








(** ** turn_on *)

Lemma color_bytes s l :
  Api.color_string_to_byte_array s = Some l ->
  exists r g b, l = [r; g; b] /\ 0 <= r < 256 /\ 0 <= g < 256 /\ 0 <= b < 256.
Proof.
  intros H. destruct (Api.re_match s) eqn:Hm.
  - destruct (color_accepted s Hm) as [(r & g & b & Hc & ?) _].
    rewrite Hc in H. injection H as <-. eauto.
  - rewrite (color_rejected s Hm) in H. discriminate.
Qed.

Lemma bytearray_Some l l' : bytearray l = Some l' -> l' = l.
Proof. unfold bytearray. destruct (forallb _ _); congruence. Qed.

(** X9: when [POST /light/turnOn] has answered 200 or 504, it has
    published one message on the [light/set] topic of the ESP32 assigned
    to the shelf: the correlation id, the LEDs stored for the position,
    and the three bytes of the colour. *)
Theorem turn_on_request n pid color e m code m' :
  Api.turn_on n pid color e m = (Returned code, m') ->
  code = 200 \/ code = 504 ->
  exists mac leds r g b id,
    DataManager.get_mac_address_by_shelf_number (Mqtt.data_manager m) n = Some mac /\
    DataManager.get_leds_by_shelf_number_and_position_id (Mqtt.data_manager m) n pid
    = Some leds /\
    Api.color_string_to_byte_array color = Some [r; g; b] /\
    0 <= id <= 255 /\
    Mqtt.client m'
    = Mqtt.client m ++
      [Mqtt.mkMessage ("pbl/" +:+ mac +:+ "/light/set") (id :: leds ++ [r; g; b])].
Proof.
  unfold Api.turn_on. intros H Hcode.
  destruct (negb _) eqn:Hv.
  { injection H as <- _. apply negb_true_iff, Z.eqb_neq in Hv.
    unfold Api.__validate_turn_on_off_parameters in *.
    repeat case_match; destruct Hcode; congruence. }
  destruct (Api.color_string_to_byte_array color) as [colors|] eqn:Hcol;
    [|injection H as <- _; destruct Hcode; discriminate].
  destruct (color_bytes _ _ Hcol) as (r & g & b & -> & _).
  destruct (DataManager.get_leds_by_shelf_number_and_position_id _ _ _) as [leds|];
    [|injection H as <- _; destruct Hcode; discriminate].
  destruct (bytearray leds) as [leds_byte_array|] eqn:Hb; [|discriminate].
  apply bytearray_Some in Hb as ->.
  destruct (DataManager.get_mac_address_by_shelf_number _ _) as [mac|]; [|discriminate].
  destruct (Mqtt.publish_with_ack _ _ _ _ _ _ _) as [[c0| |] mp] eqn:Hp;
    simpl in H; [|discriminate..].
  injection H as _ <-.
  destruct (publish_with_ack_returned_framing _ _ _ _ _ _ _ _ _ Hp)
    as (q & a & rest & _ & _ & Hid & Hcl).
  exists mac, leds, r, g, b, (ACK.ACK_id a). auto.
Qed.

Lemma turn_on_request_witness :
  fst (Api.turn_on 7 3 "#ff00FF" second_env with_position3) = Returned 200 /\
  exists mac leds r g b id,
    Mqtt.client (snd (Api.turn_on 7 3 "#ff00FF" second_env with_position3))
    = Mqtt.client with_position3 ++
      [Mqtt.mkMessage ("pbl/" +:+ mac +:+ "/light/set") (id :: leds ++ [r; g; b])].
Proof.
  split; [vm_compute; reflexivity|].
  destruct (turn_on_request 7 3 "#ff00FF" second_env with_position3 200
              (snd (Api.turn_on 7 3 "#ff00FF" second_env with_position3)))
    as (mac & leds & r & g & b & id & _ & _ & _ & _ & H);
    [vm_compute; reflexivity|left; reflexivity|].
  exists mac, leds, r, g, b, id. exact H.
Defined.

(** ** What the publishing routes never touch *)

Lemma load_positions_database mac ps :
  forall es c f m,
    Mqtt.data_manager (snd (Api.load_positions mac ps es c f m)) = Mqtt.data_manager m.
Proof.
  induction ps as [|p ps IH]; intros es c f m; [reflexivity|].
  cbn [Api.load_positions].
  destruct (bytearray _); [|reflexivity]. destruct es as [|e es]; [reflexivity|].
  destruct (Mqtt.publish_with_ack _ _ _ _ _ _ _) as [[c1| |] m1] eqn:Hp;
    apply publish_with_ack_keeps_database in Hp; simpl; [|exact Hp..].
  now rewrite IH.
Qed.

(** X10: whatever the outcome (a status code, an exception, or a wait
    that has not ended), the routes [turnOn], [turnOff], [turnOnAll],
    [turnOffAll], [setLEDs], [unsetLEDs], [resetESP32] and [loadESP32]
    leave the database in memory and both of its files as they were. *)
Theorem publishing_routes_keep_database :
  (forall c e m,
      Mqtt.data_manager (snd (Api.handle_command c e m)) = Mqtt.data_manager m) /\
  (forall n es m,
      Mqtt.data_manager (snd (Api.load_esp32 n es m)) = Mqtt.data_manager m).
Proof.
  split.
  - intros c e m.
    assert (Hpub : forall timeout mac q topic payload,
               Mqtt.data_manager
                 (snd (and_then (Mqtt.publish_with_ack timeout mac q topic payload e m)
                         (fun status_code m =>
                            (Returned (Api.status_or_500 status_code), m))))
               = Mqtt.data_manager m).
    { intros. destruct (Mqtt.publish_with_ack _ _ _ _ _ _ _) as [[c0| |] mp] eqn:Hp;
        apply publish_with_ack_keeps_database in Hp; exact Hp. }
    destruct c; simpl;
      [unfold Api.turn_on|unfold Api.turn_off|unfold Api.turn_on_all
      |unfold Api.turn_off_all|unfold Api.set_leds|unfold Api.unset_leds
      |unfold Api.reset_esp32];
      repeat case_match; try reflexivity; apply Hpub.
  - intros n es m. unfold Api.load_esp32.
    destruct (DataManager.get_mac_address_by_shelf_number _ _) as [mac|];
      [|reflexivity].
    destruct (DataManager.get_positions_by_shelf_number _ _) as [positions|];
      [|reflexivity].
    pose proof (load_positions_database mac positions es 200 false m) as Hl.
    destruct (Api.load_positions _ _ _ _ _ _) as [[[c f]| |] m1]; simpl in *;
      [|exact Hl..].
    repeat case_match; exact Hl.
Qed.

(** ** Answers that are never given *)

Section Dead.
Import DataManager.

Lemma publish_create_update_codes sp mac create e m code f m1 :
  Api.__publish_create_update_position sp mac create e m = (Returned (code, f), m1) ->
  (code = 504 /\ f = true) \/ (code = 200 /\ f = false).
Proof.
  unfold Api.__publish_create_update_position.
  destruct (bytearray _); [|discriminate].
  destruct (Mqtt.publish_with_ack _ _ _ _ _ _ _) as [[c| |] mp] eqn:Hp;
    simpl; [|discriminate..].
  destruct (publish_with_ack_codes _ _ _ _ _ _ _ _ _ Hp) as [-> | ->];
    simpl; intros [= <- <- <-]; auto.
Qed.

(** The checks of [create_shelf] are those of [add_shelf]. *)
Lemma create_shelf_codes shelf m :
  fst (Api.create_shelf shelf m) = Returned 200 \/
  fst (Api.create_shelf shelf m) = Returned 404 \/
  fst (Api.create_shelf shelf m) = Returned 406.
Proof.
  unfold Api.create_shelf.
  destruct (shelf_exists _ _) eqn:He; [auto|].
  destruct (negb _); [auto|].
  destruct (get_esp32_by_mac_address _ _) as [[i esp32]|] eqn:Hg; [|auto].
  destruct (ESP32.isUsed esp32) eqn:Hu; [auto|].
  unfold Api.with_dm, add_shelf. rewrite He, Hg, Hu. simpl. auto.
Qed.

End Dead.

(** X11: whenever [createPosition], [updatePosition], [deletePosition],
    [deleteShelf] or [createShelf] returns a status code, the code is
    200, 400, 404, 406 or 504 and never 500: [publish_with_ack], when it
    returns, returns 200 or 504, so the last branch of the four routes
    that publish ("Something unexpected happened") is not taken, and
    [add_shelf] repeats the checks that [createShelf] has made, so
    "Couldn't create Shelf" is not answered either.  A handler that ends
    in an exception returns no status code and is not spoken of here. *)
Theorem returned_status_is_not_500 r shelf e m code m' :
  Api.handle r e m = (Returned code, m') \/
  Api.create_shelf shelf m = (Returned code, m') ->
  code = 200 \/ code = 400 \/ code = 404 \/ code = 406 \/ code = 504.
Proof.
  assert (Hval : forall pid sh v,
             Api.__validate_shelf pid sh = v ->
             v = 200 \/ v = 400 \/ v = 404).
  { intros pid sh v <-. unfold Api.__validate_shelf. repeat case_match; auto. }
  intros [H|H].
  - destruct r as [sp|sp|n pid|n]; simpl in H.
    + unfold Api.create_position in H.
      destruct (DataManager.get_mac_address_by_shelf_number _ _);
        [|injection H as <- _; auto 10].
      destruct (DataManager.position_id_exists _ _ _); [injection H as <- _; auto 10|].
      destruct (negb _).
      { injection H as H _. apply Hval in H as [->|[->| ->]]; auto 10. }
      destruct (DataManager.leds_exists _ _ _); [injection H as <- _; auto 10|].
      destruct (Api.__publish_create_update_position _ _ _ _ _)
        as [[[c f]| |] mp] eqn:Hp; simpl in H; [|discriminate..].
      destruct (publish_create_update_codes _ _ _ _ _ _ _ _ Hp) as
        [[-> ->]|[-> ->]]; simpl in H; [injection H as <- _; auto 10|].
      destruct (DataManager.get_shelf_by_shelf_number _ _) as [[i sh]|];
        [|discriminate].
      unfold Api.with_dm in H. destruct (DataManager.add_position _ _ _) as [[] ?];
        simpl in H; injection H as <- _; auto 10.
    + unfold Api.update_position in H.
      destruct (DataManager.get_mac_address_by_shelf_number _ _);
        [|injection H as <- _; auto 10].
      destruct (negb (DataManager.position_id_exists _ _ _));
        [injection H as <- _; auto 10|].
      destruct (negb _).
      { injection H as H _. apply Hval in H as [->|[->| ->]]; auto 10. }
      destruct (DataManager.leds_exists_exclusive _ _); [injection H as <- _; auto 10|].
      destruct (Api.__publish_create_update_position _ _ _ _ _)
        as [[[c f]| |] mp] eqn:Hp; simpl in H; [|discriminate..].
      destruct (publish_create_update_codes _ _ _ _ _ _ _ _ Hp) as
        [[-> ->]|[-> ->]]; simpl in H; [injection H as <- _; auto 10|].
      destruct (DataManager.get_shelf_by_shelf_number _ _) as [[i sh]|];
        [|discriminate].
      destruct (DataManager.update_position _ _ _) as [[[] ?]|]; simpl in H;
        [injection H as <- _; auto 10..|discriminate].
    + unfold Api.delete_position in H.
      destruct (DataManager.get_mac_address_by_shelf_number _ _);
        [|injection H as <- _; auto 10].
      destruct (negb (DataManager.position_id_exists _ _ _));
        [injection H as <- _; auto 10|].
      destruct (DataManager.get_shelf_by_shelf_number _ _) as [[i sh]|];
        [|injection H as <- _; auto 10].
      destruct (_ || _); [injection H as <- _; auto 10|].
      destruct (DataManager.get_position_by_shelf_number_and_position_id _ _ _)
        as [[[i' j] pos]|]; [|injection H as <- _; auto 10].
      destruct (bytearray _); [|discriminate].
      destruct (Mqtt.publish_with_ack _ _ _ _ _ _ _) as [[c| |] mp] eqn:Hp;
        simpl in H; [|discriminate..].
      destruct (publish_with_ack_codes _ _ _ _ _ _ _ _ _ Hp) as [-> | ->];
        simpl in H; [|injection H as <- _; auto 10].
      unfold Api.with_dm in H. destruct (DataManager.delete_position _ _ _) as [[] ?];
        simpl in H; injection H as <- _; auto 10.
    + unfold Api.delete_shelf in H.
      destruct (DataManager.get_shelf_by_shelf_number _ _) as [[i sh]|];
        [|injection H as <- _; auto 10].
      destruct (negb _); [injection H as <- _; auto 10|]. simpl in H.
      destruct (Mqtt.publish_with_ack _ _ _ _ _ _ _) as [[c| |] mp] eqn:Hp;
        simpl in H; [|discriminate..].
      destruct (publish_with_ack_codes _ _ _ _ _ _ _ _ _ Hp) as [-> | ->];
        simpl in H; [|injection H as <- _; auto 10].
      unfold Api.with_dm in H.
      destruct (DataManager.delete_shelf_by_shelf_number _ _) as [[] ?];
        simpl in H; injection H as <- _; auto 10.
  - pose proof (f_equal fst H) as Hc. simpl in Hc.
    destruct (create_shelf_codes shelf m) as [E|[E|E]]; rewrite E in Hc;
      injection Hc as <-; auto 10.
Qed.

Lemma returned_status_is_not_500_witness :
  exists code,
    fst (Api.handle (Api.DeletePosition 7 3) silent with_position3) = Returned code /\
    (code = 200 \/ code = 400 \/ code = 404 \/ code = 406 \/ code = 504).
Proof.
  exists 504. split; [vm_compute; reflexivity|].
  apply (returned_status_is_not_500 (Api.DeletePosition 7 3) overlapping_shelf silent
           with_position3 504
           (snd (Api.handle (Api.DeletePosition 7 3) silent with_position3))).
  left. vm_compute. reflexivity.
Defined.

(** X12: [createPosition] and [updatePosition] never store a position
    without LEDs: a request of one of the two routes with an empty LED
    list is not answered 200 and leaves the database and its files as
    they were.  The checks of the route do not look at the emptiness of
    the list, so the request is published first and refused by the
    [DataManager] after the ESP32 has acknowledged it.  ([createShelf]
    stores the positions it is given without this check.) *)
Theorem empty_leds_never_stored r sp e m :
  r = Api.CreatePosition sp \/ r = Api.UpdatePosition sp ->
  ShelfPosition.LEDs sp = [] ->
  fst (Api.handle r e m) <> Returned 200 /\
  Mqtt.data_manager (snd (Api.handle r e m)) = Mqtt.data_manager m.
Proof.
  intros Hr Hleds.
  assert (Hadd : forall i dm, DataManager.add_position i sp dm = (false, dm)).
  { intros i dm. unfold DataManager.add_position. rewrite Hleds.
    repeat case_match; try reflexivity. discriminate. }
  assert (Hupd : forall i dm r0, DataManager.update_position i sp dm = Some r0 ->
                                 r0 = (false, dm)).
  { intros i dm r0. unfold DataManager.update_position. rewrite Hleds.
    repeat case_match; try congruence. discriminate. }
  destruct Hr as [-> | ->]; simpl.
  - split.
    + intros H. destruct (Api.create_position sp e m) as [o m'] eqn:Hc.
      simpl in H. subst o.
      apply create_position_200 in Hc as (i & sh & _ & _ & Ha).
      rewrite Hadd in Ha. discriminate.
    + destruct (create_position_effect sp e m) as [H|(i & sh & _ & _ & H)];
        [exact H|]. rewrite H, Hadd. reflexivity.
  - split.
    + intros H. destruct (Api.update_position sp e m) as [o m'] eqn:Hc.
      simpl in H. subst o.
      apply update_position_200 in Hc as (i & sh & _ & _ & Ha).
      apply Hupd in Ha. discriminate.
    + destruct (update_position_effect sp e m) as [H|(i & sh & r0 & _ & _ & Hu & H)];
        [exact H|]. rewrite H, (Hupd _ _ _ Hu). reflexivity.
Qed.

Lemma empty_leds_never_stored_witness :
  fst (Api.create_position (ShelfPosition.mk 7 5 []) acked with_position3)
  = Returned 406 /\
  Mqtt.client (snd (Api.create_position (ShelfPosition.mk 7 5 []) acked with_position3))
  = Mqtt.client with_position3 ++
    [Mqtt.mkMessage ("pbl/" +:+ mac1 +:+ "/config/create_Position") [7; 5]] /\
  Mqtt.data_manager
    (snd (Api.handle (Api.CreatePosition (ShelfPosition.mk 7 5 [])) acked with_position3))
  = Mqtt.data_manager with_position3.
Proof.
  split; [vm_compute; reflexivity|]. split; [vm_compute; reflexivity|].
  refine (proj2 (empty_leds_never_stored
                   (Api.CreatePosition (ShelfPosition.mk 7 5 []))
                   (ShelfPosition.mk 7 5 []) acked with_position3 _ _)).
  - left. reflexivity.
  - reflexivity.
Defined.

(** ** The primary file and a restart *)

Section Sync.
Import DataManager.

Lemma add_shelf_in_sync shelf dm : in_sync dm -> in_sync (snd (add_shelf shelf dm)).
Proof. intros H. unfold add_shelf. repeat case_match; simpl; auto; reflexivity. Qed.

Lemma delete_shelf_in_sync n dm :
  in_sync dm -> in_sync (snd (delete_shelf_by_shelf_number n dm)).
Proof.
  intros H. unfold delete_shelf_by_shelf_number.
  repeat case_match; simpl; auto; reflexivity.
Qed.

Lemma add_position_in_sync i sp dm : in_sync dm -> in_sync (snd (add_position i sp dm)).
Proof. intros H. unfold add_position. repeat case_match; simpl; auto; reflexivity. Qed.

Lemma update_position_in_sync i sp dm r :
  update_position i sp dm = Some r -> in_sync dm -> in_sync (snd r).
Proof.
  unfold update_position. intros Hu H.
  repeat case_match; simplify_eq; simpl; auto; reflexivity.
Qed.

Lemma delete_position_in_sync i sp dm :
  in_sync dm -> in_sync (snd (delete_position i sp dm)).
Proof. intros H. unfold delete_position. repeat case_match; simpl; auto; reflexivity. Qed.

Lemma add_esp32_in_sync esp32 dm : in_sync dm -> in_sync (snd (add_esp32 esp32 dm)).
Proof. intros H. unfold add_esp32. case_match; simpl; auto; reflexivity. Qed.

Lemma alter_insert {A} (f : A -> A) (l : list A) i x :
  l !! i = Some x -> alter f i l = <[i := f x]> l.
Proof.
  intros Hi. apply list_eq. intros j. destruct (decide (i = j)) as [->|Hne].
  - rewrite list_lookup_alter_eq, Hi.
    now rewrite list_lookup_insert_eq by (eapply lookup_lt_Some, Hi).
  - now rewrite list_lookup_alter_ne, list_lookup_insert_ne.
Qed.

(** After the assignment [esp32.isUsed = False] of [get_esp32_config],
    [add_shelf] accepts a shelf with a new number on that ESP32. *)
Lemma add_shelf_after_clear i esp32 mac n m0 :
  get_esp32_by_mac_address (Mqtt.data_manager m0) mac = Some (i, esp32) ->
  shelf_exists (Mqtt.data_manager m0) n = false ->
  fst (add_shelf (Shelf.mk n mac []) (Mqtt.data_manager (Api.clear_isUsed i m0))) = true.
Proof.
  intros Hg He.
  pose proof (get_esp32_by_mac_address_Some _ _ _ _ Hg) as [Hi Hmac].
  assert (Hc : exists esp32',
             get_esp32_by_mac_address (Mqtt.data_manager (Api.clear_isUsed i m0)) mac
             = Some (i, esp32') /\ ESP32.isUsed esp32' = false /\
             shelves (Mqtt.data_manager (Api.clear_isUsed i m0))
             = shelves (Mqtt.data_manager m0)).
  { unfold Api.clear_isUsed, Api.esp32_isUsed. rewrite Hi.
    destruct (ESP32.isUsed esp32) eqn:Hu.
    - exists (with_isUsed false esp32). split; [|split; reflexivity].
      eapply get_esp32_after_insert; [exact Hg| |exact Hmac].
      simpl. rewrite esp32s_assign_esp32. now apply alter_insert.
    - exists esp32. auto. }
  destruct Hc as (esp32' & Hg' & Hu' & Hsh).
  unfold add_shelf.
  assert (He' : shelf_exists (Mqtt.data_manager (Api.clear_isUsed i m0)) n = false).
  { unfold shelf_exists. rewrite Hsh. exact He. }
  simpl. rewrite He', Hg', Hu'. reflexivity.
Qed.

Lemma publish_get_codes mac e m r m1 :
  Api.publish_get mac e m = (Returned r, m1) -> r = Some 200 \/ r = Some 504.
Proof.
  unfold Api.publish_get. simpl.
  destruct (Mqtt.publish_with_ack _ _ _ _ _ _ _) as [[c| |] mp] eqn:Hp;
    simpl; [|discriminate..].
  destruct (publish_with_ack_codes _ _ _ _ _ _ _ _ _ Hp) as [-> | ->];
    simpl; intros [= <- <-]; auto.
Qed.

Lemma get_esp32_config_in_sync mac n e m :
  in_sync (Mqtt.data_manager m) ->
  in_sync (Mqtt.data_manager (snd (Api.get_esp32_config mac n e m))).
Proof.
  intros Hs. unfold Api.get_esp32_config.
  destruct (negb _); [exact Hs|].
  destruct (get_esp32_by_mac_address _ _) as [[i esp32]|] eqn:Hg; [|exact Hs].
  assert (Hpub : forall m1 (k : Mqtt.t -> Mqtt.t),
             in_sync (Mqtt.data_manager m1) ->
             in_sync (Mqtt.data_manager
                        (snd (and_then (Api.publish_get mac e m1)
                                (fun r m => match r with
                                            | Some code => (Returned code, m)
                                            | None => (Returned 400, k m)
                                            end))))).
  { intros m1 k H1.
    destruct (Api.publish_get mac e m1) as [[r| |] mp] eqn:Hp; simpl;
      pose proof (publish_get_database _ _ _ _ _ Hp) as Hd;
      [|now rewrite Hd..].
    destruct (publish_get_codes _ _ _ _ _ Hp) as [-> | ->]; simpl; now rewrite Hd. }
  assert (Hnew : forall m0, Mqtt.data_manager m0 = Mqtt.data_manager m ->
             in_sync (Mqtt.data_manager
                        (snd (Api.get_esp32_config_new_shelf i mac n e m0)))).
  { intros m0 H0. unfold Api.get_esp32_config_new_shelf.
    destruct (shelf_exists (Mqtt.data_manager m0) n) eqn:He; simpl;
      [now rewrite H0|].
    rewrite <-H0 in Hg.
    pose proof (add_shelf_after_clear _ _ _ _ _ Hg He) as Ha.
    unfold Api.with_dm.
    destruct (add_shelf _ (Mqtt.data_manager (Api.clear_isUsed i m0)))
      as [ok dma] eqn:Hadd.
    simpl in Ha. subst ok. simpl.
    apply (Hpub _ (Api.restore_isUsed i)). simpl.
    destruct (add_shelf_files _ _ _ Hadd) as [Hf _]. exact Hf. }
  destruct (bool_decide _); [|apply Hnew; reflexivity].
  unfold Api.with_dm.
  pose proof (delete_shelf_in_sync n _ Hs) as Hd.
  destruct (delete_shelf_by_shelf_number n _) as [deleted dmd] eqn:Hdd.
  simpl in *. destruct deleted.
  - pose proof (add_shelf_in_sync (Shelf.mk n mac []) _ Hd) as Ha.
    destruct (add_shelf _ dmd) as [ok dma]. simpl in *.
    destruct ok; [|exact Ha]. apply (Hpub _ (fun m => m)). exact Ha.
  - apply Hnew. simpl.
    unfold delete_shelf_by_shelf_number in Hdd.
    repeat case_match; simplify_eq; reflexivity.
Qed.

Lemma perform_in_sync op m :
  in_sync (Mqtt.data_manager m) -> in_sync (Mqtt.data_manager (perform op m)).
Proof.
  intros Hs. destruct op; simpl.
  - destruct (receive_register_effect incoming_mac_address m) as [->|[[i ->]| ->]];
      [exact Hs|reflexivity|now apply add_esp32_in_sync].
  - destruct (config_offline_effect msg m) as [->|[i ->]]; [exact Hs|reflexivity].
  - destruct (config_put_effect msg m) as [->|(i & sh & sp & _ & _ & ->)];
      [exact Hs|now apply add_position_in_sync].
  - destruct (run_callback_frame cb m) as [-> _]. exact Hs.
  - destruct (create_shelf_effect shelf m) as [->| ->];
      [exact Hs|now apply add_shelf_in_sync].
  - destruct (create_position_effect shelf_position e m)
      as [->|(i & sh & _ & _ & ->)]; [exact Hs|now apply add_position_in_sync].
  - destruct (update_position_effect shelf_position e m)
      as [->|(i & sh & r & _ & _ & Hu & ->)]; [exact Hs|].
    eapply update_position_in_sync; eauto.
  - destruct (delete_position_effect ShelfNumber PositionId e m) as [->|(i & p & ->)];
      [exact Hs|now apply delete_position_in_sync].
  - destruct (delete_shelf_effect ShelfNumber e m) as [->|(n' & ->)];
      [exact Hs|now apply delete_shelf_in_sync].
  - now apply get_esp32_config_in_sync.
  - now rewrite publish_with_ack_data_manager.
Qed.

Lemma perform_all_in_sync ops m :
  in_sync (Mqtt.data_manager m) -> in_sync (Mqtt.data_manager (perform_all ops m)).
Proof.
  revert m. induction ops as [|op ops IH]; intros m Hs; [exact Hs|].
  simpl. apply IH. now apply perform_in_sync.
Qed.

Lemma restart_in_sync dm :
  in_sync dm ->
  shelves (restart dm) = shelves dm /\
  esp32s (restart dm) = with_isOnline false <$> esp32s dm /\
  json_file (restart dm) = Some (db (restart dm)) /\
  json_file_backup (restart dm) = Some (db (restart dm)).
Proof.
  unfold in_sync, restart. intros ->. unfold init, set_all_esp32s_offline.
  change (esp32s {| db := db dm; json_file := Some (db dm);
                    json_file_backup := json_file_backup dm |}) with (esp32s dm).
  destruct (esp32s dm) as [|x l] eqn:E; simpl.
  - repeat split. unfold esp32s. simpl. fold (esp32s dm). now rewrite E.
  - repeat split.
Qed.

End Sync.

(** X13: the primary file never goes stale, and a restart loses
    nothing but the connection status.  After any sequence of MQTT
    callbacks and REST requests on a server started on any files, the
    primary file holds the database that is in memory (every path that
    changes the database ends in [save_data], and the direct assignment
    to [isUsed] in [get_esp32_config] is followed by an [add_shelf]
    that succeeds); starting the server again on the files it has left
    gives the same shelves and the same ESP32s with the same [isUsed]
    flags, every ESP32 offline, and both files holding that database. *)
Theorem restart_restores stored backup ops :
  let dm := Mqtt.data_manager
              (perform_all ops (Mqtt.mk (DataManager.init stored backup) [] [] [])) in
  in_sync dm /\
  DataManager.shelves (restart dm) = DataManager.shelves dm /\
  used_flags (restart dm) = used_flags dm /\
  Forall (fun esp32 => ESP32.isOnline esp32 = false) (DataManager.esp32s (restart dm)) /\
  DataManager.json_file (restart dm) = Some (DataManager.db (restart dm)) /\
  DataManager.json_file_backup (restart dm) = Some (DataManager.db (restart dm)).
Proof.
  intros dm.
  assert (Hs : in_sync dm).
  { apply perform_all_in_sync. simpl. destruct stored; reflexivity. }
  destruct (restart_in_sync dm Hs) as (Hsh & Hes & Hf & Hb).
  split; [exact Hs|]. split; [exact Hsh|]. split; [|split; [|split; assumption]].
  - unfold used_flags. rewrite Hes, <-list_fmap_compose. reflexivity.
  - rewrite Hes. apply Forall_fmap, Forall_forall. reflexivity.
Qed.

(** ** Registration and connection status *)

Section Status.
Import DataManager.

Lemma mac_address_exists_found dm mac :
  mac_address_exists dm mac = true ->
  exists i esp32, get_esp32_by_mac_address dm mac = Some (i, esp32).
Proof.
  intros He. unfold get_esp32_by_mac_address. rewrite He. simpl.
  destruct (list_find _ _) as [[i esp32]|] eqn:Hf; [eauto|].
  exfalso. apply list_find_None in Hf.
  unfold mac_address_exists in He. apply existsb_exists in He as (x & Hx & Hm).
  apply bool_decide_eq_true in Hm. apply list_elem_of_In in Hx.
  rewrite Forall_forall in Hf. now apply (Hf x Hx).
Qed.

Lemma get_esp32_not_registered dm mac :
  mac_address_exists dm mac = false -> get_esp32_by_mac_address dm mac = None.
Proof. intros He. unfold get_esp32_by_mac_address. now rewrite He. Qed.

Lemma get_esp32_appended dm dm' esp32 :
  mac_address_exists dm (ESP32.Mac_Address esp32) = false ->
  esp32s dm' = esp32s dm ++ [esp32] ->
  get_esp32_by_mac_address dm' (ESP32.Mac_Address esp32)
  = Some (length (esp32s dm), esp32).
Proof.
  intros He Hl. unfold get_esp32_by_mac_address.
  assert (He' : mac_address_exists dm' (ESP32.Mac_Address esp32) = true).
  { unfold mac_address_exists. rewrite Hl, existsb_app. apply orb_true_iff. right.
    simpl. now rewrite bool_decide_eq_true_2. }
  rewrite He'. simpl. rewrite Hl. apply list_find_Some.
  split; [now rewrite lookup_app_r, Nat.sub_diag by lia|]. split; [reflexivity|].
  intros j y Hj Hlt Hy. rewrite lookup_app_l in Hj by exact Hlt.
  apply not_true_iff_false in He. apply He. unfold mac_address_exists.
  apply existsb_exists. exists y.
  split; [eapply list_elem_of_In, list_elem_of_lookup_2, Hj|].
  now apply bool_decide_eq_true.
Qed.

End Status.

(** X14: after a registration message, the ESP32 found for the MAC
    address is online; its [isUsed] flag is the one it had, or [False]
    for an address that was not registered before; no shelf is
    changed. *)
Theorem registered_is_online mac m :
  let dm := Mqtt.data_manager m in
  let dm' := Mqtt.data_manager (Mqtt.receive_register mac m) in
  DataManager.shelves dm' = DataManager.shelves dm /\
  exists esp32,
    esp32_of dm' mac = Some esp32 /\
    ESP32.Mac_Address esp32 = mac /\
    ESP32.isOnline esp32 = true /\
    ESP32.isUsed esp32 = match esp32_of dm mac with
                         | Some known => ESP32.isUsed known
                         | None => false
                         end.
Proof.
  simpl. unfold Mqtt.receive_register, esp32_of.
  destruct (DataManager.mac_address_exists _ _) eqn:He.
  - destruct (mac_address_exists_found _ _ He) as (i & known & Hg). rewrite Hg.
    pose proof (get_esp32_by_mac_address_Some _ _ _ _ Hg) as [Hi Hmac].
    split; [reflexivity|]. exists (with_isOnline true known).
    split; [|split; [exact Hmac|split; reflexivity]].
    erewrite get_esp32_after_insert; [reflexivity|exact Hg| |exact Hmac].
    change (DataManager.esp32s (Mqtt.data_manager (Mqtt.set_data_manager
              (DataManager.save_data ?x) m))) with (DataManager.esp32s x).
    rewrite esp32s_assign_esp32. now apply alter_insert.
  - rewrite (get_esp32_not_registered _ _ He).
    unfold DataManager.add_esp32. simpl DataManager.mac_address_exists.
    rewrite He. simpl.
    split; [reflexivity|]. exists (ESP32.mk mac false true).
    split; [|repeat split].
    erewrite (get_esp32_appended (Mqtt.data_manager m) _ (ESP32.mk mac false true));
      [reflexivity|exact He|reflexivity].
Qed.

(** X15: an offline notice on the topic of a registered ESP32 (a MAC
    address without a slash) marks that ESP32 as offline and changes
    nothing else of it; a notice for an address that is not registered
    changes nothing. *)
Theorem offline_notice mac payload m :
  no_slash mac = true ->
  let msg := Mqtt.mkMessage ("pbl/" +:+ mac +:+ "/config/offline") payload in
  let dm := Mqtt.data_manager m in
  let dm' := Mqtt.data_manager (Mqtt.config_offline msg m) in
  DataManager.shelves dm' = DataManager.shelves dm /\
  match esp32_of dm mac with
  | Some known => esp32_of dm' mac = Some (with_isOnline false known)
  | None => Mqtt.config_offline msg m = m
  end.
Proof.
  intros Hmac. simpl. unfold Mqtt.config_offline, esp32_of. simpl Mqtt.topic.
  change "/config/offline" with (String "/" "config/offline").
  rewrite (topic_mac_address _ _ Hmac).
  destruct (DataManager.mac_address_exists _ _) eqn:He.
  - destruct (mac_address_exists_found _ _ He) as (i & known & Hg). rewrite Hg.
    pose proof (get_esp32_by_mac_address_Some _ _ _ _ Hg) as [Hi Hm].
    split; [reflexivity|]. cbn [fmap option_fmap option_map snd].
    erewrite get_esp32_after_insert; [reflexivity|exact Hg| |exact Hm].
    change (DataManager.esp32s (Mqtt.data_manager (Mqtt.set_data_manager
              (DataManager.save_data ?x) m))) with (DataManager.esp32s x).
    rewrite esp32s_assign_esp32. now apply alter_insert.
  - rewrite (get_esp32_not_registered _ _ He). split; reflexivity.
Qed.

Lemma offline_notice_witness :
  esp32_of (Mqtt.data_manager
              (Mqtt.config_offline
                 (Mqtt.mkMessage ("pbl/" +:+ mac1 +:+ "/config/offline") []) with_shelf7))
           mac1
  = Some (ESP32.mk mac1 true false).
Proof.
  pose proof (offline_notice mac1 [] with_shelf7 eq_refl) as [_ H].
  assert (E : esp32_of (Mqtt.data_manager with_shelf7) mac1
              = Some (ESP32.mk mac1 true true)) by (vm_compute; reflexivity).
  rewrite E in H. exact H.
Defined.

(** ** Positions sent by an ESP32 *)

(** X16: a [config/put] message of an ESP32 (a MAC address without a
    slash) that has a shelf, carrying a position id in 0..255 that the
    shelf does not have yet and at least one LED, none of them used by a
    position of the shelf, stores the position: the lookup by the
    number of that shelf and the id returns the LEDs of the message.
    Nothing is published to the ESP32. *)
Theorem put_position_is_stored mac pid leds i sh m :
  no_slash mac = true ->
  DataManager.get_shelf_by_mac_address (Mqtt.data_manager m) mac = Some (i, sh) ->
  0 <= pid <= 255 ->
  leds <> [] ->
  DataManager.position_id_exists (Mqtt.data_manager m) (Shelf.ShelfNumber sh) pid = false ->
  DataManager.leds_exists (Mqtt.data_manager m) leds (Shelf.ShelfNumber sh) = false ->
  let m' := Mqtt.config_put
              (Mqtt.mkMessage ("pbl/" +:+ mac +:+ "/config/put") (pid :: leds)) m in
  DataManager.get_leds_by_shelf_number_and_position_id
    (Mqtt.data_manager m') (Shelf.ShelfNumber sh) pid = Some leds /\
  Mqtt.client m' = Mqtt.client m.
Proof.
  intros Hmac Hs Hpid Hleds Hfree Hdisj. simpl.
  unfold Mqtt.config_put. simpl Mqtt.topic. simpl Mqtt.payload.
  change "/config/put" with (String "/" "config/put").
  rewrite (topic_mac_address _ _ Hmac), Hs.
  rewrite bool_decide_eq_false_2 by exact Hleds.
  pose proof (get_shelf_by_mac_address_Some _ _ _ _ Hs) as [_ Hi].
  set (sp := ShelfPosition.mk (Shelf.ShelfNumber sh) pid leds).
  assert (Ha : DataManager.add_position i sp (Mqtt.data_manager m)
               = (true, snd (DataManager.add_position i sp (Mqtt.data_manager m)))).
  { unfold DataManager.add_position. rewrite Hi.
    rewrite (lookup_shelf_exists _ _ _ Hi). simpl.
    rewrite Hfree, Hdisj.
    assert ((pid >? 255) || (pid <? 0) = false) as ->.
    { apply orb_false_iff. split; [rewrite Z.gtb_ltb; apply Z.ltb_ge|apply Z.ltb_ge]; lia. }
    rewrite bool_decide_eq_false_2 by exact Hleds. reflexivity. }
  split; [|reflexivity].
  destruct (add_position_lookup _ _ _ _ _ Ha Hi) as [_ H]. exact H.
Qed.

Lemma put_position_is_stored_witness :
  DataManager.get_leds_by_shelf_number_and_position_id
    (Mqtt.data_manager
       (Mqtt.config_put (Mqtt.mkMessage ("pbl/" +:+ mac1 +:+ "/config/put") [4; 30; 31])
          with_position3)) 7 4
  = Some [30; 31].
Proof.
  refine (proj1 (put_position_is_stored mac1 4 [30; 31] 0%nat
                   (Shelf.mk 7 mac1 [position3]) with_position3 _ _ _ _ _ _)).
  - reflexivity.
  - vm_compute. reflexivity.
  - lia.
  - discriminate.
  - vm_compute. reflexivity.
  - vm_compute. reflexivity.
Defined.

(** ** Colour strings: letter case *)

Section Colour.

Lemma is_hex_digit_upper c : Api.is_hex_digit (Api.upper_char c) = Api.is_hex_digit c.
Proof. destruct c as [[] [] [] [] [] [] [] []]; reflexivity. Qed.

Lemma upper_char_idem c : Api.upper_char (Api.upper_char c) = Api.upper_char c.
Proof. destruct c as [[] [] [] [] [] [] [] []]; reflexivity. Qed.

Lemma upper_idem s : Api.upper (Api.upper s) = Api.upper s.
Proof. induction s as [|c s IH]; simpl; [reflexivity|]. now rewrite upper_char_idem, IH. Qed.

Lemma match_hex_digits_upper n s :
  Api.match_hex_digits n (Api.upper s) = Api.match_hex_digits n s.
Proof.
  revert s. induction n as [|n IH]; intros [|c s]; simpl; try reflexivity.
  now rewrite is_hex_digit_upper, IH.
Qed.

Lemma re_match_upper s : Api.re_match (Api.upper s) = Api.re_match s.
Proof.
  destruct s as [|c s]; [reflexivity|].
  destruct (decide (c = "#"%char)) as [->|Hc].
  - apply (match_hex_digits_upper 6 s).
  - destruct c as [[] [] [] [] [] [] [] []]; try reflexivity; congruence.
Qed.

Lemma substring_upper n k s :
  substring n k (Api.upper s) = Api.upper (substring n k s).
Proof.
  revert n k. induction s as [|c s IH]; intros [|n] [|k]; simpl; try reflexivity.
  - now rewrite IH.
  - apply IH.
  - apply IH.
Qed.

End Colour.

(** X17: the colour format is not case-sensitive: a colour string and
    the same string in upper case give the same result, bytes or
    [None]. *)
Theorem color_ignores_case s :
  Api.color_string_to_byte_array (Api.upper s) = Api.color_string_to_byte_array s.
Proof.
  unfold Api.color_string_to_byte_array.
  rewrite re_match_upper, substring_upper, upper_idem. reflexivity.
Qed.

(** ** Refused changes *)

(** X18: a method of the [DataManager] that returns [False]
    ([add_shelf], [delete_shelf_by_shelf_number], [add_position],
    [update_position], [delete_position], [add_esp32]) has changed
    neither the database in memory nor a file: every check comes before
    the first assignment. *)
Theorem refused_change_no_effect op esp32 dm dm' :
  apply op dm = Some (false, dm') \/ DataManager.add_esp32 esp32 dm = (false, dm') ->
  dm' = dm.
Proof.
  intros [H|H].
  - destruct op; simpl in H.
    + unfold DataManager.add_shelf in H. repeat case_match; simplify_eq; reflexivity.
    + unfold DataManager.delete_shelf_by_shelf_number in H.
      repeat case_match; simplify_eq; reflexivity.
    + unfold DataManager.add_position in H. repeat case_match; simplify_eq; reflexivity.
    + unfold DataManager.update_position in H.
      repeat case_match; simplify_eq; reflexivity.
    + unfold DataManager.delete_position in H.
      repeat case_match; simplify_eq; reflexivity.
  - unfold DataManager.add_esp32 in H. case_match; simplify_eq; reflexivity.
Qed.

Lemma refused_change_no_effect_witness :
  DataManager.add_shelf (Shelf.mk 8 mac1 []) (Mqtt.data_manager with_shelf7)
  = (false, Mqtt.data_manager with_shelf7).
Proof.
  destruct (DataManager.add_shelf (Shelf.mk 8 mac1 []) (Mqtt.data_manager with_shelf7))
    as [ok dm'] eqn:Ha.
  assert (ok = false) as -> by (apply (f_equal fst) in Ha; vm_compute in Ha; congruence).
  f_equal.
  apply (refused_change_no_effect (Do_add_shelf (Shelf.mk 8 mac1 []))
           (ESP32.mk mac1 false false) (Mqtt.data_manager with_shelf7) dm').
  left. exact (f_equal Some Ha).
Defined.

(** ** Bytes *)

Section Bytes.
Import DataManager.

Lemma bytearray_bytes l : Forall is_byte l -> bytearray l = Some l.
Proof.
  intros H. unfold bytearray.
  assert (forallb (fun b => (0 <=? b) && (b <? 256)) l = true) as ->; [|reflexivity].
  apply forallb_forall. intros b Hb. apply list_elem_of_In in Hb.
  rewrite Forall_forall in H. destruct (H b Hb).
  apply andb_true_iff. split; [now apply Z.leb_le|now apply Z.ltb_lt].
Qed.

Lemma bytearray_is_bytes l l' : bytearray l = Some l' -> Forall is_byte l.
Proof.
  unfold bytearray. destruct (forallb _ _) eqn:E; [|discriminate]. intros _.
  apply Forall_forall. intros b Hb. apply list_elem_of_In in Hb.
  rewrite forallb_forall in E. specialize (E b Hb).
  apply andb_true_iff in E as [H1 H2]. apply Z.leb_le in H1. apply Z.ltb_lt in H2.
  split; assumption.
Qed.

Lemma bytes_ok_shelves dm dm' : shelves dm' = shelves dm -> bytes_ok dm -> bytes_ok dm'.
Proof. unfold bytes_ok. now intros ->. Qed.

Lemma add_shelf_bytes shelf dm :
  Forall position_bytes (Shelf.Positions shelf) ->
  bytes_ok dm -> bytes_ok (snd (add_shelf shelf dm)).
Proof.
  intros Hs Hok. unfold add_shelf. repeat case_match; simpl; try exact Hok.
  unfold bytes_ok. change (shelves (save_data (set_shelves ?l _))) with l.
  rewrite shelves_assign_esp32. apply Forall_app. split; [exact Hok|].
  constructor; [exact Hs|constructor].
Qed.

Lemma delete_shelf_bytes n dm :
  bytes_ok dm -> bytes_ok (snd (delete_shelf_by_shelf_number n dm)).
Proof.
  intros Hok. destruct (delete_shelf_by_shelf_number n dm) as [[] dm'] eqn:Hd; simpl.
  - destruct (delete_shelf_true _ _ _ Hd) as (k & sh & i & e & l1 & l2 & _ & _ & Hl & Hl' & _).
    unfold bytes_ok in *. rewrite Hl' . rewrite Hl in Hok.
    apply Forall_app in Hok as [H1 H2]. apply Forall_cons in H2 as [_ H2].
    apply Forall_app. auto.
  - unfold delete_shelf_by_shelf_number in Hd. repeat case_match; simplify_eq; exact Hok.
Qed.

Lemma add_position_bytes i sp dm :
  Forall is_byte (ShelfPosition.LEDs sp) ->
  bytes_ok dm -> bytes_ok (snd (add_position i sp dm)).
Proof.
  intros Hleds Hok. unfold add_position.
  destruct (shelves dm !! i) as [sh|] eqn:Hi; [|exact Hok].
  destruct (negb _); [exact Hok|].
  destruct (position_id_exists _ _ _); [exact Hok|].
  destruct (_ || _) eqn:Hr; [exact Hok|].
  destruct (bool_decide _); [exact Hok|].
  destruct (leds_exists _ _ _); [exact Hok|].
  simpl. unfold bytes_ok. change (shelves (save_data (set_shelves ?l _))) with l.
  apply Forall_insert; [exact Hok|]. simpl.
  apply Forall_app. split; [exact (Forall_lookup_1 _ _ _ _ Hok Hi)|].
  constructor; [|constructor]. split; [|exact Hleds]. simpl.
  apply orb_false_iff in Hr as [H1 H2].
  rewrite Z.gtb_ltb in H1. apply Z.ltb_ge in H1. apply Z.ltb_ge in H2. split; lia.
Qed.

Lemma update_position_bytes i sp dm r :
  Forall is_byte (ShelfPosition.LEDs sp) ->
  update_position i sp dm = Some r ->
  bytes_ok dm -> bytes_ok (snd r).
Proof.
  intros Hleds H Hok. unfold update_position in H.
  destruct (shelves dm !! i) as [sh|] eqn:Hi; [|injection H as <-; exact Hok].
  destruct (negb _); [injection H as <-; exact Hok|].
  destruct (negb _); [injection H as <-; exact Hok|].
  destruct (bool_decide _); [injection H as <-; exact Hok|].
  destruct (leds_exists_exclusive _ _); [injection H as <-; exact Hok|].
  destruct (get_position_by_shelf_number_and_position_id _ _ _)
    as [[[i0 j] pos]|] eqn:Hg; [|discriminate].
  injection H as <-. simpl.
  unfold get_position_by_shelf_number_and_position_id in Hg.
  destruct (negb _); [discriminate|].
  destruct (get_shelf_by_shelf_number _ _) as [[i1 sh0]|] eqn:Hs; [|discriminate].
  apply get_shelf_by_shelf_number_Some in Hs as [_ Hi1].
  destruct (list_find _ _) as [[j' pos']|] eqn:Hf; [|discriminate].
  injection Hg as -> -> ->.
  apply list_find_Some in Hf as (Hj & _ & _).
  unfold bytes_ok. change (shelves (save_data (set_shelves ?l _))) with l.
  pose proof (Forall_lookup_1 _ _ _ _ Hok Hi1) as Hsh0.
  pose proof (Forall_lookup_1 _ _ _ _ Hsh0 Hj) as [Hpid _].
  apply Forall_alter; [exact Hok|]. intros x Hx. rewrite Hi1 in Hx. injection Hx as <-.
  intros _. cbn [Shelf.Positions].
  apply Forall_insert; [exact Hsh0|]. split; [exact Hpid|exact Hleds].
Qed.

Lemma delete_position_bytes i sp dm :
  bytes_ok dm -> bytes_ok (snd (delete_position i sp dm)).
Proof.
  intros Hok. unfold delete_position.
  destruct (shelves dm !! i) as [sh|] eqn:Hi; [|exact Hok].
  destruct (negb _); [exact Hok|].
  destruct (negb _); [exact Hok|].
  destruct (py_remove _ _) as [rest|] eqn:Hr; [|exact Hok].
  simpl. unfold bytes_ok. change (shelves (save_data (set_shelves ?l _))) with l.
  assert (Hin : sp ∈ Shelf.Positions sh).
  { destruct (decide (sp ∈ Shelf.Positions sh)) as [|Hn]; [assumption|].
    apply py_remove_None in Hn. congruence. }
  destruct (py_remove_Some _ _ Hin) as (l1 & l2 & Heq & _ & Hr').
  rewrite Hr in Hr'. injection Hr' as ->.
  apply Forall_insert; [exact Hok|]. simpl.
  pose proof (Forall_lookup_1 _ _ _ _ Hok Hi) as Hsh. cbv beta in Hsh.
  rewrite Heq in Hsh.
  apply Forall_app in Hsh as [H1 H2]. apply Forall_cons in H2 as [_ H2].
  apply Forall_app. auto.
Qed.

(** The two position routes reach the database only with LEDs that
    [bytearray] has accepted. *)
Lemma create_position_effect_bytes sp e m :
  let dm := Mqtt.data_manager m in
  let dm' := Mqtt.data_manager (snd (Api.create_position sp e m)) in
  dm' = dm \/
  (Forall is_byte (ShelfPosition.LEDs sp) /\ exists i, dm' = snd (add_position i sp dm)).
Proof.
  simpl. unfold Api.create_position.
  destruct (get_mac_address_by_shelf_number _ _) as [mac|]; [|now left].
  destruct (position_id_exists _ _ _); [now left|].
  destruct (negb _); [now left|].
  destruct (leds_exists _ _ _); [now left|].
  destruct (Api.__publish_create_update_position _ _ _ _ _) as [[[code f]| |] mp] eqn:Hp;
    pose proof Hp as Hp'; apply publish_create_update_database in Hp' as [Hd _];
    simpl; auto.
  destruct f; [auto|]. destruct (code =? 200); [|auto].
  destruct (get_shelf_by_shelf_number _ _) as [[i sh]|] eqn:Hs; [|auto].
  unfold Api.with_dm. rewrite Hd.
  destruct (add_position i sp (Mqtt.data_manager m)) as [ok dm1] eqn:Ha. simpl.
  right. split.
  - unfold Api.__publish_create_update_position in Hp.
    destruct (bytearray _) as [payload|] eqn:Hb; [|discriminate].
    apply bytearray_is_bytes in Hb. now apply Forall_cons in Hb as [_ Hb].
  - exists i. rewrite Ha. destruct ok; reflexivity.
Qed.

Lemma update_position_effect_bytes sp e m :
  let dm := Mqtt.data_manager m in
  let dm' := Mqtt.data_manager (snd (Api.update_position sp e m)) in
  dm' = dm \/
  (Forall is_byte (ShelfPosition.LEDs sp) /\
   exists i r, update_position i sp dm = Some r /\ dm' = snd r).
Proof.
  simpl. unfold Api.update_position.
  destruct (get_mac_address_by_shelf_number _ _) as [mac|]; [|now left].
  destruct (negb (position_id_exists _ _ _)); [now left|].
  destruct (negb _); [now left|].
  destruct (leds_exists_exclusive _ _); [now left|].
  destruct (Api.__publish_create_update_position _ _ _ _ _) as [[[code f]| |] mp] eqn:Hp;
    pose proof Hp as Hp'; apply publish_create_update_database in Hp' as [Hd _];
    simpl; auto.
  destruct f; [auto|]. destruct (code =? 200); [|auto].
  destruct (get_shelf_by_shelf_number _ _) as [[i sh]|] eqn:Hs; [|auto].
  unfold Api.with_dm. rewrite Hd.
  destruct (update_position i sp (Mqtt.data_manager m)) as [[ok dm1]|] eqn:Ha;
    simpl; [|auto].
  right. split.
  - unfold Api.__publish_create_update_position in Hp.
    destruct (bytearray _) as [payload|] eqn:Hb; [|discriminate].
    apply bytearray_is_bytes in Hb. now apply Forall_cons in Hb as [_ Hb].
  - exists i, (ok, dm1). split; [exact Ha|]. destruct ok; reflexivity.
Qed.

Lemma config_put_effect_bytes msg m :
  Forall is_byte (Mqtt.payload msg) ->
  let dm := Mqtt.data_manager m in
  let dm' := Mqtt.data_manager (Mqtt.config_put msg m) in
  dm' = dm \/
  exists i sp, Forall is_byte (ShelfPosition.LEDs sp) /\ dm' = snd (add_position i sp dm).
Proof.
  intros Hb. simpl. unfold Mqtt.config_put.
  destruct (_ !! 1%nat) as [mac|]; [|now left].
  destruct (get_shelf_by_mac_address _ _) as [[i sh]|]; [|now left].
  destruct (Mqtt.payload msg) as [|pid leds]; [now left|].
  destruct (bool_decide _); [now left|].
  right. exists i, (ShelfPosition.mk (Shelf.ShelfNumber sh) pid leds).
  split; [now apply Forall_cons in Hb as [_ Hb]|reflexivity].
Qed.

Lemma perform_bytes_ok op m :
  well_formed op ->
  bytes_ok (Mqtt.data_manager m) -> bytes_ok (Mqtt.data_manager (perform op m)).
Proof.
  intros Hwf Hok. destruct op; simpl in *.
  - destruct (receive_register_effect incoming_mac_address m) as [->|[[i ->]| ->]];
      [exact Hok| |].
    + eapply bytes_ok_shelves, Hok. reflexivity.
    + eapply bytes_ok_shelves, Hok. unfold add_esp32.
      now destruct (mac_address_exists _ _).
  - destruct (config_offline_effect msg m) as [->|[i ->]]; [exact Hok|].
    eapply bytes_ok_shelves, Hok. reflexivity.
  - destruct (config_put_effect_bytes msg m Hwf) as [->|(i & sp & Hb & ->)];
      [exact Hok|]. now apply add_position_bytes.
  - destruct (run_callback_frame cb m) as [-> _]. exact Hok.
  - destruct (create_shelf_effect shelf m) as [->| ->]; [exact Hok|].
    apply add_shelf_bytes; [|exact Hok]. rewrite Hwf. constructor.
  - destruct (create_position_effect_bytes shelf_position e m)
      as [->|(Hb & i & ->)]; [exact Hok|]. now apply add_position_bytes.
  - destruct (update_position_effect_bytes shelf_position e m)
      as [->|(Hb & i & r & Hu & ->)]; [exact Hok|].
    eapply update_position_bytes; eauto.
  - destruct (delete_position_effect ShelfNumber PositionId e m) as [->|(i & p & ->)];
      [exact Hok|]. now apply delete_position_bytes.
  - destruct (delete_shelf_effect ShelfNumber e m) as [->|(n' & ->)];
      [exact Hok|]. now apply delete_shelf_bytes.
  - apply get_esp32_config_preserves; [| | | |exact Hok].
    + intros. now apply delete_shelf_bytes.
    + intros dm sh Hsh ?. apply add_shelf_bytes; [|assumption]. rewrite Hsh. constructor.
    + intros. eapply bytes_ok_shelves; [|eassumption]. reflexivity.
    + intros i esp32 m0 H0 _ _. unfold Api.clear_isUsed.
      destruct (Api.esp32_isUsed i m0); simpl; rewrite H0; [|exact Hok].
      eapply bytes_ok_shelves, Hok. reflexivity.
  - now rewrite publish_with_ack_data_manager.
Qed.

End Bytes.

(** X19: on a database whose stored position ids and LEDs are in the
    range 0..255 (an empty one, for instance), they still are after any
    sequence of MQTT callbacks and REST requests in which shelves are
    created without positions and MQTT payloads are bytes, whatever the
    numbers in the requests: the position routes reach the database
    only after [bytearray] has accepted the id and the LEDs. *)
Theorem stored_positions_are_bytes ops m :
  Forall well_formed ops ->
  bytes_ok (Mqtt.data_manager m) ->
  bytes_ok (Mqtt.data_manager (perform_all ops m)).
Proof.
  intros Hops. revert m.
  induction Hops as [|op ops Hop Hops IH]; intros m Hok; [exact Hok|].
  simpl. apply IH. now apply perform_bytes_ok.
Qed.

Lemma stored_positions_are_bytes_witness :
  bytes_ok (Mqtt.data_manager
              (perform_all [On_register mac1; PUT_createShelf (Shelf.mk 7 mac1 []);
                            PUT_createPosition position3 acked] fresh_mqtt)).
Proof.
  apply (stored_positions_are_bytes
           [On_register mac1; PUT_createShelf (Shelf.mk 7 mac1 []);
            PUT_createPosition position3 acked] fresh_mqtt).
  - repeat constructor.
  - constructor.
Defined.

(** ** The payloads of the routes that only publish *)

Section Payloads.

Lemma first_some_inv {A B} (f : A -> option B) (l : list A) y :
  first_some f l = Some y -> exists x, x ∈ l /\ f x = Some y.
Proof.
  induction l as [|a l IH]; simpl; [discriminate|].
  destruct (f a) eqn:Hf.
  - intros [= <-]. exists a. split; [left|exact Hf].
  - intros H. destruct (IH H) as (x & ? & ?). exists x. split; [now right|assumption].
Qed.

Lemma get_leds_stored dm n pid leds :
  DataManager.get_leds_by_shelf_number_and_position_id dm n pid = Some leds ->
  exists sh p,
    sh ∈ DataManager.shelves dm /\ p ∈ Shelf.Positions sh /\
    Shelf.ShelfNumber sh = n /\ ShelfPosition.PositionId p = pid /\
    ShelfPosition.LEDs p = leds.
Proof.
  unfold DataManager.get_leds_by_shelf_number_and_position_id.
  destruct (negb _); [discriminate|]. destruct (negb _); [discriminate|].
  destruct (first_some _ _) as [p|] eqn:Hf; [|discriminate].
  intros [= <-]. apply first_some_inv in Hf as (sh & Hsh & Hp).
  case_bool_decide as Hn; [|discriminate].
  destruct (list_find _ _) as [[j p']|] eqn:Hj; [|discriminate].
  injection Hp as ->. apply list_find_Some in Hj as (Hj & Hpid & _).
  exists sh, p. repeat split; auto. eapply list_elem_of_lookup_2, Hj.
Qed.

Lemma stored_leds_are_bytes dm n pid leds :
  bytes_ok dm ->
  DataManager.get_leds_by_shelf_number_and_position_id dm n pid = Some leds ->
  bytearray leds = Some leds.
Proof.
  intros Hok H. apply get_leds_stored in H as (sh & p & Hsh & Hp & _ & _ & <-).
  apply bytearray_bytes. unfold bytes_ok in Hok. rewrite Forall_forall in Hok.
  pose proof (Hok sh Hsh) as Hps. rewrite Forall_forall in Hps.
  now destruct (Hps p Hp).
Qed.

Lemma validated_leds_are_bytes dm mac leds :
  Api.__validate_set_unset_parameters dm mac leds = 200 ->
  bytearray leds = Some leds.
Proof.
  unfold Api.__validate_set_unset_parameters.
  destruct (negb _); [discriminate|].
  destruct (existsb _ leds) eqn:E; [discriminate|]. intros _.
  apply bytearray_bytes, Forall_forall. intros b Hb.
  apply not_true_iff_false in E.
  destruct (decide (is_byte b)) as [|Hn]; [assumption|]. exfalso. apply E.
  apply existsb_exists. exists b. split; [now apply list_elem_of_In|].
  unfold is_byte in Hn. apply orb_true_iff.
  destruct (Z.ltb_spec b 0); [now right|left]. apply Z.gtb_lt. lia.
Qed.

End Payloads.

(** X20: on a database whose stored position ids and LEDs fit bytes,
    the routes that only publish raise nothing of their own.  Each of
    [turnOn], [turnOff], [turnOnAll], [turnOffAll], [setLEDs],
    [unsetLEDs] and [resetESP32] either answers 400 or 404 at once, the
    state untouched, or is one call of [publish_with_ack] with one of
    the two queue names and a payload of bytes, whose outcome it passes
    on (through the 200/504/500 ending of the route): [bytearray] does
    not fail in them, since [setLEDs] and [unsetLEDs] check the LEDs of
    the request against 0..255 before, an accepted colour has three
    bytes, and the other routes take the LEDs from the database.  The
    payload [loadESP32] builds for each stored position is accepted by
    [bytearray] as well. *)
Theorem publishing_routes_raise_nothing_of_their_own m :
  bytes_ok (Mqtt.data_manager m) ->
  (forall c e,
      (exists code,
          (code = 400 \/ code = 404) /\
          Api.handle_command c e m = (Returned code, m)) \/
      (exists timeout mac queue topic payload,
          (queue = "light_ack" \/ queue = "config_ack") /\
          Forall is_byte payload /\
          Api.handle_command c e m
          = and_then (Mqtt.publish_with_ack timeout mac queue topic payload e m)
              (fun status_code m => (Returned (Api.status_or_500 status_code), m)))) /\
  (forall n positions,
      DataManager.get_positions_by_shelf_number (Mqtt.data_manager m) n
      = Some positions ->
      Forall (fun position =>
                bytearray (ShelfPosition.PositionId position
                             :: ShelfPosition.LEDs position)
                = Some (ShelfPosition.PositionId position
                          :: ShelfPosition.LEDs position))
             positions).
Proof.
  intros Hok. split.
  - intros c e.
    assert (Hval : forall dm n pid mac,
               Api.__validate_turn_on_off_parameters dm n pid mac = 200 \/
               Api.__validate_turn_on_off_parameters dm n pid mac = 400 \/
               Api.__validate_turn_on_off_parameters dm n pid mac = 404).
    { intros. unfold Api.__validate_turn_on_off_parameters. repeat case_match; auto. }
    assert (Hset : forall dm mac leds,
               Api.__validate_set_unset_parameters dm mac leds = 200 \/
               Api.__validate_set_unset_parameters dm mac leds = 400 \/
               Api.__validate_set_unset_parameters dm mac leds = 404).
    { intros. unfold Api.__validate_set_unset_parameters. repeat case_match; auto. }
    destruct c; simpl.
    + unfold Api.turn_on.
      destruct (DataManager.get_mac_address_by_shelf_number _ _) as [mac|];
        [|left; exists 404; auto].
      destruct (Hval (Mqtt.data_manager m) ShelfNumber PositionId (Some mac))
        as [->|[->| ->]]; simpl; [|left; eexists; split; [|reflexivity]; auto..].
      destruct (Api.color_string_to_byte_array _) as [colors|] eqn:Hc;
        [|left; eexists; split; [|reflexivity]; auto].
      destruct (DataManager.get_leds_by_shelf_number_and_position_id _ _ _)
        as [leds|] eqn:Hl; [|left; eexists; split; [|reflexivity]; auto].
      pose proof (stored_leds_are_bytes _ _ _ _ Hok Hl) as Hb. rewrite Hb.
      destruct (color_bytes _ _ Hc) as (r & g & b & -> & Hr & Hg & Hbl).
      right. do 5 eexists. split; [|split; [|reflexivity]]; [now left|].
      apply Forall_app. split; [exact (bytearray_is_bytes _ _ Hb)|].
      repeat constructor; lia.
    + unfold Api.turn_off.
      destruct (DataManager.get_mac_address_by_shelf_number _ _) as [mac|];
        [|left; exists 404; auto].
      destruct (Hval (Mqtt.data_manager m) ShelfNumber PositionId (Some mac))
        as [->|[->| ->]]; simpl; [|left; eexists; split; [|reflexivity]; auto..].
      destruct (DataManager.get_leds_by_shelf_number_and_position_id _ _ _)
        as [leds|] eqn:Hl; [|left; eexists; split; [|reflexivity]; auto].
      pose proof (stored_leds_are_bytes _ _ _ _ Hok Hl) as Hb. rewrite Hb.
      right. do 5 eexists. split; [|split; [|reflexivity]]; [now left|].
      exact (bytearray_is_bytes _ _ Hb).
    + unfold Api.turn_on_all.
      destruct (DataManager.get_mac_address_by_shelf_number _ _) as [mac|];
        [|left; exists 404; auto].
      destruct (Api.color_string_to_byte_array _) as [colors|] eqn:Hc;
        [|left; eexists; split; [|reflexivity]; auto].
      destruct (color_bytes _ _ Hc) as (r & g & b & -> & Hr & Hg & Hbl).
      assert (Hrgb : Forall is_byte [r; g; b]) by (repeat constructor; lia).
      rewrite (bytearray_bytes _ Hrgb).
      right. do 5 eexists. split; [|split; [|reflexivity]]; [now left|exact Hrgb].
    + unfold Api.turn_off_all.
      destruct (DataManager.get_mac_address_by_shelf_number _ _) as [mac|];
        [|left; exists 404; auto].
      simpl. right. do 5 eexists. split; [|split; [|reflexivity]]; [now left|constructor].
    + unfold Api.set_leds.
      destruct (Hset (Mqtt.data_manager m) Mac_Address LEDs) as [E|[->| ->]];
        [rewrite E|..]; simpl; [|left; eexists; split; [|reflexivity]; auto..].
      destruct (Api.color_string_to_byte_array _) as [colors|] eqn:Hc;
        [|left; eexists; split; [|reflexivity]; auto].
      pose proof (validated_leds_are_bytes _ _ _ E) as Hb. rewrite Hb.
      destruct (color_bytes _ _ Hc) as (r & g & b & -> & Hr & Hg & Hbl).
      right. do 5 eexists. split; [|split; [|reflexivity]]; [now left|].
      apply Forall_app. split; [exact (bytearray_is_bytes _ _ Hb)|].
      repeat constructor; lia.
    + unfold Api.unset_leds.
      destruct (Hset (Mqtt.data_manager m) Mac_Address LEDs) as [E|[->| ->]];
        [rewrite E|..]; simpl; [|left; eexists; split; [|reflexivity]; auto..].
      pose proof (validated_leds_are_bytes _ _ _ E) as Hb. rewrite Hb.
      right. do 5 eexists. split; [|split; [|reflexivity]]; [now left|].
      exact (bytearray_is_bytes _ _ Hb).
    + unfold Api.reset_esp32. simpl.
      right. do 5 eexists. split; [|split; [|reflexivity]]; [now right|constructor].
  - intros n positions Hp.
    unfold DataManager.get_positions_by_shelf_number in Hp.
    destruct (negb _); [discriminate|].
    destruct (DataManager.get_shelf_by_shelf_number _ _) as [[i sh]|] eqn:Hs;
      [|discriminate].
    simpl in Hp. injection Hp as <-.
    apply get_shelf_by_shelf_number_Some in Hs as [_ Hi].
    pose proof (Forall_lookup_1 _ _ _ _ Hok Hi) as Hps. cbv beta in Hps.
    eapply Forall_impl; [exact Hps|]. intros p [Hpid Hleds].
    apply bytearray_bytes. constructor; assumption.
Qed.

Lemma publishing_routes_raise_nothing_of_their_own_witness :
  bytes_ok (Mqtt.data_manager with_position3) /\
  (exists timeout mac queue topic payload,
      (queue = "light_ack" \/ queue = "config_ack") /\
      Forall is_byte payload /\
      Api.handle_command (Api.TurnOn 7 3 "#ff00FF") second_env with_position3
      = and_then
          (Mqtt.publish_with_ack timeout mac queue topic payload second_env with_position3)
          (fun status_code m => (Returned (Api.status_or_500 status_code), m))) /\
  Forall (fun position =>
            bytearray (ShelfPosition.PositionId position :: ShelfPosition.LEDs position)
            = Some (ShelfPosition.PositionId position :: ShelfPosition.LEDs position))
         [position3].
Proof.
  assert (Hb : bytes_ok (Mqtt.data_manager with_position3)).
  { unfold bytes_ok.
    assert (E : DataManager.shelves (Mqtt.data_manager with_position3)
                = [Shelf.mk 7 mac1 [position3]]) by (vm_compute; reflexivity).
    rewrite E. constructor; [|constructor]. cbn [Shelf.Positions].
    constructor; [|constructor]. unfold position_bytes, is_byte. simpl.
    split; [lia|]. repeat constructor; lia. }
  split; [exact Hb|].
  destruct (publishing_routes_raise_nothing_of_their_own with_position3 Hb)
    as [Hroutes Hload].
  split.
  - destruct (Hroutes (Api.TurnOn 7 3 "#ff00FF") second_env)
      as [(code & Hc & Heq)|H]; [|exact H].
    apply (f_equal fst) in Heq. vm_compute in Heq.
    destruct Hc as [-> | ->]; discriminate Heq.
  - apply (Hload 7). vm_compute. reflexivity.
Defined.

(** ** What stays in the queues *)

Section Stale.
Import Mqtt.

Lemma wait_for_ack_504_state q a timeout timestamp ps m m' :
  wait_for_ack q a timeout timestamp ps m = (Returned 504, m') ->
  exists ps1 p ps2,
    ps = ps1 ++ p :: ps2 /\ m' = run_callbacks (all_arrived (ps1 ++ [p])) m.
Proof.
  revert m. induction ps as [|p ps IH]; intros m H; [discriminate|].
  simpl in H. destruct (py_in a _) eqn:Hin; simpl in H.
  - apply py_in_true, py_remove_Some in Hin as (l1 & l2 & _ & _ & Hr).
    rewrite Hr in H. discriminate.
  - destruct (_ >? _).
    + injection H as <-. exists [], p, ps. split; [reflexivity|].
      simpl. unfold all_arrived. simpl. now rewrite app_nil_r.
    + destruct (IH _ H) as (ps1 & p' & ps2 & -> & ->).
      exists (p :: ps1), p', ps2. split; [reflexivity|].
      change ((p :: ps1) ++ [p']) with (p :: (ps1 ++ [p'])).
      now rewrite all_arrived_cons, run_callbacks_app.
Qed.

End Stale.

(** X21: an exchange that times out takes nothing out of the queues:
    after 504 the state is the one before the call with the request
    published and every ACK callback that ran during the wait applied;
    in particular every ACK that was in a queue is still there. *)
Theorem timed_out_exchange_keeps_acks
    timeout mac select_queue topic payload e m m' :
  Mqtt.publish_with_ack timeout mac select_queue topic payload e m
  = (Returned 504, m') ->
  (exists id ps1 p ps2,
      Mqtt.polls e = ps1 ++ p :: ps2 /\
      m' = Mqtt.run_callbacks (all_arrived (ps1 ++ [p]))
             (Mqtt.publish topic (id :: payload) m)) /\
  forall q a, a ∈ Mqtt.queue_of q m -> a ∈ Mqtt.queue_of q m'.
Proof.
  intros H.
  destruct (publish_with_ack_returned _ _ _ _ _ _ _ _ _ H) as (q & a & rest & Hq & Hd & Hr).
  rewrite (publish_with_ack_unfold _ _ _ _ _ _ _ _ _ _ Hq Hd Hr) in H.
  apply wait_for_ack_504_state in H as (ps1 & p & ps2 & Hps & ->).
  split; [exists (ACK.ACK_id a), ps1, p, ps2; auto|].
  intros q' a' Hin. apply run_callbacks_keeps.
  destruct (publish_frame topic (ACK.ACK_id a :: payload) m) as (_ & Hqs & _).
  now rewrite Hqs.
Qed.

Lemma timed_out_exchange_keeps_acks_witness :
  fst first_call = Returned 504 /\
  forall q a, a ∈ Mqtt.queue_of q with_position3 -> a ∈ Mqtt.queue_of q (snd first_call).
Proof.
  split; [vm_compute; reflexivity|].
  refine (proj2 (timed_out_exchange_keeps_acks Api.TIMEOUT mac1 "light_ack"
                   ("pbl/" +:+ mac1 +:+ "/light/set") [10; 20; 255; 0; 255]
                   first_env with_position3 (snd first_call) _)).
  vm_compute. reflexivity.
Defined.

(** X22: when the selected queue holds an ACK of the ESP32 for every
    id that is drawn, the loop that looks for an unused id does not
    end: the call publishes nothing and returns nothing, however many
    draws it is given.  With 256 stale ACKs of one ESP32 in a queue,
    that is every call for it. *)
Theorem exhausted_ids_never_return timeout mac select_queue topic payload e m q :
  Mqtt.choose_queue select_queue = Some q ->
  Forall (fun r => ACK.mk mac r ∈ Mqtt.queue_of q m) (Mqtt.randint e) ->
  Mqtt.publish_with_ack timeout mac select_queue topic payload e m = (Unfinished, m).
Proof.
  intros Hq Hall. unfold Mqtt.publish_with_ack.
  now rewrite Hq, (draw_outgoing_ack_exhausted _ _ _ Hall).
Qed.

Lemma exhausted_ids_never_return_witness :
  Mqtt.publish_with_ack Api.TIMEOUT mac1 "light_ack" "pbl/x/light/set" []
    (Mqtt.mkEnv [7; 7; 7] 300 [Mqtt.mkPoll [] 400])
    (Mqtt.mk (DataManager.init None None) [] [ACK.mk mac1 7] [])
  = (Unfinished, Mqtt.mk (DataManager.init None None) [] [ACK.mk mac1 7] []).
Proof.
  apply (exhausted_ids_never_return Api.TIMEOUT mac1 "light_ack" "pbl/x/light/set" []
           (Mqtt.mkEnv [7; 7; 7] 300 [Mqtt.mkPoll [] 400])
           (Mqtt.mk (DataManager.init None None) [] [ACK.mk mac1 7] [])
           Mqtt.light_ack_queue_ref).
  - reflexivity.
  - simpl. repeat constructor.
Defined.

(** ** One shelf per ESP32 *)

(** X23: as long as [GET /light/getESP32] is not asked for a shelf
    number that does not exist on an ESP32 that is in use, every
    sequence of MQTT callbacks and REST requests keeps the assignment
    of ESP32s to shelves exclusive: every registered ESP32 is
    referenced by at most one shelf, and every shelf references a
    registered ESP32. *)
Theorem one_shelf_per_esp32 ops m :
  free_of_takeovers ops m ->
  assignment_ok (Mqtt.data_manager m) ->
  exclusive (Mqtt.data_manager (perform_all ops m)) = true /\
  shelves_registered (Mqtt.data_manager (perform_all ops m)) = true.
Proof.
  intros Hfree Hok. apply assignment_ok_exclusive. revert m Hfree Hok.
  induction ops as [|op ops IH]; intros m Hfree Hok; [exact Hok|].
  destruct Hfree as [Hop Hfree]. simpl. apply IH; [exact Hfree|].
  apply perform_assignment_ok; [|exact Hok].
  intros mac n e i esp32 -> Hg He.
  destruct (ESP32.isUsed esp32) eqn:Hu; [|reflexivity].
  exfalso. apply Hop. now exists mac, n, e, i, esp32.
Qed.

Lemma one_shelf_per_esp32_witness :
  exclusive
    (Mqtt.data_manager
       (perform_all [On_register mac1; PUT_createShelf (Shelf.mk 7 mac1 []);
                     GET_getESP32 mac1 7 acked; PUT_createShelf (Shelf.mk 8 mac1 [])]
          fresh_mqtt)) = true /\
  shelves_registered
    (Mqtt.data_manager
       (perform_all [On_register mac1; PUT_createShelf (Shelf.mk 7 mac1 []);
                     GET_getESP32 mac1 7 acked; PUT_createShelf (Shelf.mk 8 mac1 [])]
          fresh_mqtt)) = true.
Proof.
  apply (one_shelf_per_esp32
           [On_register mac1; PUT_createShelf (Shelf.mk 7 mac1 []);
            GET_getESP32 mac1 7 acked; PUT_createShelf (Shelf.mk 8 mac1 [])]
           fresh_mqtt).
  - repeat split;
      intros (mac & n & e & i & esp32 & Hop & Hg & He & Hu);
      try discriminate Hop.
    injection Hop as <- <- <-. vm_compute in He. discriminate He.
  - apply fresh_assignment_ok.
Defined.

(** ** The path of the backup file *)

Lemma endswith_split s suffix :
  endswith s suffix = true -> exists t, s = t +:+ suffix.
Proof.
  induction s as [|c s IH]; cbn [endswith].
  - rewrite orb_false_r. intros H. apply String.eqb_eq in H as <-. now exists "".
  - intros H. apply orb_true_iff in H as [H|H].
    + apply String.eqb_eq in H as <-. now exists "".
    + destruct (IH H) as [t ->]. now exists (String c t).
Qed.

Lemma string_length_app (s t : string) :
  String.length (s +:+ t) = (String.length s + String.length t)%nat.
Proof. induction s as [|c s IH]; simpl; [reflexivity|]. now rewrite IH. Qed.

Lemma replace_from_length skip old new s :
  (0 < String.length old <= String.length new)%nat ->
  (String.length s <= String.length (replace_from skip old new s) + skip)%nat.
Proof.
  intros Hlen. revert skip.
  induction s as [|c s IH]; intros skip; cbn [replace_from String.length]; [lia|].
  destruct skip as [|k].
  - destruct (String.prefix old (String c s)).
    + rewrite string_length_app. specialize (IH (String.length old - 1)%nat). lia.
    + cbn [String.length]. specialize (IH 0%nat). lia.
  - specialize (IH k). lia.
Qed.

Lemma prefix_app (s t : string) : String.prefix s (s +:+ t) = true.
Proof.
  induction s as [|c s IH]; [destruct t; reflexivity|].
  change (String.prefix (String c s) (String c (s +:+ t)) = true).
  cbn [String.prefix]. destruct (ascii_dec c c); [exact IH|contradiction].
Qed.

(** A string that contains [old] gets longer when [old] is replaced by a
    longer string. *)
Lemma replace_longer old new t u :
  (0 < String.length old < String.length new)%nat ->
  (String.length (t +:+ old +:+ u)
   < String.length (replace old new (t +:+ old +:+ u)))%nat.
Proof.
  intros Hlen. unfold replace. induction t as [|c t IH].
  - change ("" +:+ old +:+ u) with (old +:+ u).
    destruct old as [|c0 old]; [simpl in Hlen; lia|].
    pose proof (prefix_app (String c0 old) u) as Hp.
    change (String c0 old +:+ u) with (String c0 (old +:+ u)) in *.
    cbn [replace_from]. rewrite Hp, string_length_app.
    pose proof (replace_from_length (String.length (String c0 old) - 1)
                  (String c0 old) new (old +:+ u)) as H.
    cbn [String.length] in *. lia.
  - change (String c t +:+ old +:+ u) with (String c (t +:+ old +:+ u)).
    cbn [replace_from].
    destruct (String.prefix old _).
    + rewrite string_length_app.
      pose proof (replace_from_length (String.length old - 1) old new
                    (t +:+ old +:+ u)) as H.
      cbn [String.length]. lia.
    + cbn [String.length]. lia.
Qed.

(** X24: for every path that [DataManager(path)] accepts, the backup
    path is another path: the same directory parts and a name that is
    not the name of the primary file, so [save_backup_data] never
    writes over the primary file. *)
Theorem backup_path_differs parts parts' :
  DataManager.backup_path parts = Some parts' ->
  parts' <> parts /\
  removelast parts' = removelast parts /\
  length parts' = length parts.
Proof.
  unfold DataManager.backup_path. destruct (last parts) as [name|] eqn:Hl; [|discriminate].
  destruct (endswith name ".json") eqn:He; [|discriminate]. intros [= <-].
  apply last_Some in Hl as [l' ->].
  rewrite removelast_last. split; [|split].
  - intros H. apply app_inv_head in H. injection H as H.
    apply endswith_split in He as [t ->].
    pose proof (replace_longer ".json" "_backup.json" t "") as Hlt.
    change (t +:+ ".json" +:+ "") with (t +:+ ".json") in Hlt.
    rewrite H in Hlt. simpl in Hlt. lia.
  - now rewrite removelast_last.
  - now rewrite !length_app.
Qed.

Lemma backup_path_differs_witness :
  DataManager.backup_path ["DataManager"; "db.json"] = Some ["DataManager"; "db_backup.json"] /\
  ["DataManager"; "db_backup.json"] <> ["DataManager"; "db.json"].
Proof.
  split; [reflexivity|].
  apply (backup_path_differs ["DataManager"; "db.json"] ["DataManager"; "db_backup.json"]).
  reflexivity.
Defined.
